(** * Blitz auth client: token codec, public-data store and authorization gate

    A shallow embedding of [packages/blitz-auth/src/client/index.tsx] and
    the properties of it that the specification states, with further
    properties that the code shows.

    - JavaScript strings are byte strings ([string], one [ascii] per UTF-8
      byte); JSON numbers are the integers.
    - A JavaScript [throw] is the left summand of a result; what a call did
      before it threw stays done.
    - The browser is an explicit record, [World]: the cookie jar,
      localStorage (which may be unavailable), the clock, the console and
      the subscriptions of the store's observable with what they received.
      Every operation of the client is a function from a world to a result
      and a world.
    - What the client imports and this repository does not hold under its
      sources (base64, JSON, cookies, localStorage, the observable) is
      written out here, each with a note of where it comes from.

    The file has two parts: the definitions, then the facts about them. *)

From Stdlib Require Import ZArith NArith Bool List Ascii String Lia.
From Stdlib Require Import Decimal DecimalString DecimalFacts DecimalN DecimalPos DecimalZ.
From stdpp Require Import base option list strings gmap.

Local Open Scope string_scope.

(* ===================================================================== *)
(** * Base64 *)
(* ===================================================================== *)

Module Base64.

Local Open Scope N_scope.

Definition alphabet : string :=
  "ABCDEFGHIJKLMNOPQRSTUVWXYZabcdefghijklmnopqrstuvwxyz0123456789+/".

Definition pad : ascii := "="%char.

(** The character of a sextet. *)
Definition b64char (n : N) : ascii :=
  match String.get (N.to_nat n) alphabet with
  | Some c => c
  | None => pad
  end.

(** The sextet of a character of the alphabet. *)
Definition b64val (c : ascii) : option N :=
  let n := N_of_ascii c in
  if (65 <=? n) && (n <=? 90) then Some (n - 65)
  else if (97 <=? n) && (n <=? 122) then Some (n - 97 + 26)
  else if (48 <=? n) && (n <=? 57) then Some (n - 48 + 52)
  else if n =? 43 then Some 62
  else if n =? 47 then Some 63
  else None.

Definition sextets3 (a b c : N) : N * N * N * N :=
  (a / 4, (a mod 4) * 16 + b / 16, (b mod 16) * 4 + c / 64, c mod 64).

Definition byte1 (v1 v2 : N) : ascii := ascii_of_N ((v1 * 4 + v2 / 16) mod 256).
Definition byte2 (v2 v3 : N) : ascii := ascii_of_N (((v2 mod 16) * 16 + v3 / 4) mod 256).
Definition byte3 (v3 v4 : N) : ascii := ascii_of_N (((v3 mod 4) * 64 + v4) mod 256).

(** Modelled from the spec: [toBase64] of the b64-lite package, the inverse
    of the [fromBase64] that the token codec imports (RFC 4648, standard
    alphabet, with padding), on the UTF-8 bytes of the text. *)
Fixpoint toBase64 (s : string) : string :=
  match s with
  | EmptyString => EmptyString
  | String a EmptyString =>
      let '(s1, s2, _, _) := sextets3 (N_of_ascii a) 0 0 in
      String (b64char s1) (String (b64char s2) (String pad (String pad EmptyString)))
  | String a (String b EmptyString) =>
      let '(s1, s2, s3, _) := sextets3 (N_of_ascii a) (N_of_ascii b) 0 in
      String (b64char s1) (String (b64char s2) (String (b64char s3) (String pad EmptyString)))
  | String a (String b (String c rest)) =>
      let '(s1, s2, s3, s4) := sextets3 (N_of_ascii a) (N_of_ascii b) (N_of_ascii c) in
      String (b64char s1) (String (b64char s2) (String (b64char s3) (String (b64char s4)
        (toBase64 rest))))
  end.

Definition is_pad (c : ascii) : bool := Ascii.eqb c pad.

(** Modelled from the spec: [fromBase64] of the b64-lite package ("Input
    must be a non-empty base64-encoded string", "base64 decoding fails"):
    groups of four characters of the alphabet, the last group padded with
    one or two [=]; [None] stands for the exception of a failed decoding. *)
Fixpoint fromBase64 (s : string) : option string :=
  match s with
  | EmptyString => Some EmptyString
  | String c1 (String c2 (String c3 (String c4 rest))) =>
      match b64val c1, b64val c2 with
      | Some v1, Some v2 =>
          if is_pad c3 then
            if is_pad c4 && String.eqb rest EmptyString
            then Some (String (byte1 v1 v2) EmptyString)
            else None
          else
            match b64val c3 with
            | Some v3 =>
                if is_pad c4 then
                  if String.eqb rest EmptyString
                  then Some (String (byte1 v1 v2) (String (byte2 v2 v3) EmptyString))
                  else None
                else
                  match b64val c4 with
                  | Some v4 =>
                      match fromBase64 rest with
                      | Some tl =>
                          Some (String (byte1 v1 v2) (String (byte2 v2 v3)
                                 (String (byte3 v3 v4) tl)))
                      | None => None
                      end
                  | None => None
                  end
            | None => None
            end
      | _, _ => None
      end
  | _ => None
  end.

End Base64.

(* ===================================================================== *)
(** * JSON texts *)
(* ===================================================================== *)

Module Json.

(** What [JSON.parse] returns. Numbers are the integers; an object is the
    list of its members in the order of the text. *)
Unset Elimination Schemes.
Inductive json : Type :=
| JNull
| JBool (b : bool)
| JNumber (n : Z)
| JString (s : string)
| JArray (items : list json)
| JObject (members : list (string * json)).
Set Elimination Schemes.

Definition dquote : ascii := "034"%char.
Definition backslash : ascii := "092"%char.

Local Open Scope N_scope.

(** ** JSON.stringify *)

Definition hexdigit (n : N) : ascii :=
  if n <? 10 then ascii_of_N (48 + n) else ascii_of_N (87 + n).

Definition escape_char (c : ascii) : string :=
  let n := N_of_ascii c in
  if Ascii.eqb c dquote then String backslash (String dquote EmptyString)
  else if Ascii.eqb c backslash then String backslash (String backslash EmptyString)
  else if n =? 8 then String backslash "b"
  else if n =? 9 then String backslash "t"
  else if n =? 10 then String backslash "n"
  else if n =? 12 then String backslash "f"
  else if n =? 13 then String backslash "r"
  else if n <? 32 then
    String backslash (String "u" (String "0" (String "0"
      (String (hexdigit (n / 16)) (String (hexdigit (n mod 16)) EmptyString)))))
  else String c EmptyString.

Fixpoint quote_chars (s : string) : string :=
  match s with
  | EmptyString => EmptyString
  | String c r => escape_char c ++ quote_chars r
  end.

Definition quote (s : string) : string :=
  String dquote (quote_chars s ++ String dquote EmptyString).

Definition number_text (n : Z) : string := NilZero.string_of_int (Z.to_int n).

(** Modelled from the spec: the built-in [JSON.stringify] ("the JSON
    serialization"), without indentation: the members of an object in
    their order, strings quoted with the escapes of the standard. *)
Fixpoint stringify (v : json) : string :=
  match v with
  | JNull => "null"
  | JBool true => "true"
  | JBool false => "false"
  | JNumber n => number_text n
  | JString s => quote s
  | JArray items =>
      "[" ++
      (fix elements (l : list json) : string :=
         match l with
         | [] => EmptyString
         | [x] => stringify x
         | x :: l' => stringify x ++ "," ++ elements l'
         end) items ++ "]"
  | JObject members =>
      "{" ++
      (fix fields (l : list (string * json)) : string :=
         match l with
         | [] => EmptyString
         | [(k, x)] => quote k ++ ":" ++ stringify x
         | (k, x) :: l' => quote k ++ ":" ++ stringify x ++ "," ++ fields l'
         end) members ++ "}"
  end.

(** The elements of an array and the members of an object, as
    [stringify] writes them between the brackets. *)
Fixpoint elements_text (l : list json) : string :=
  match l with
  | [] => EmptyString
  | [x] => stringify x
  | x :: l' => stringify x ++ "," ++ elements_text l'
  end.

Fixpoint fields_text (l : list (string * json)) : string :=
  match l with
  | [] => EmptyString
  | [(k, x)] => quote k ++ ":" ++ stringify x
  | (k, x) :: l' => quote k ++ ":" ++ stringify x ++ "," ++ fields_text l'
  end.

(** The depth of recursion that parsing the text of a value takes. *)
Fixpoint json_size (v : json) : nat :=
  match v with
  | JArray items =>
      S ((fix sizes (l : list json) : nat :=
            match l with
            | [] => O
            | x :: l' => S (json_size x + sizes l')
            end) items)
  | JObject members =>
      S ((fix sizes (l : list (string * json)) : nat :=
            match l with
            | [] => O
            | (_, x) :: l' => S (json_size x + sizes l')
            end) members)
  | _ => 1%nat
  end.

Fixpoint element_sizes (l : list json) : nat :=
  match l with
  | [] => O
  | x :: l' => S (json_size x + element_sizes l')
  end.

Fixpoint member_sizes (l : list (string * json)) : nat :=
  match l with
  | [] => O
  | (_, x) :: l' => S (json_size x + member_sizes l')
  end.

(** ** JSON.parse *)

Definition is_ws (c : ascii) : bool :=
  let n := N_of_ascii c in (n =? 32) || (n =? 9) || (n =? 10) || (n =? 13).

Fixpoint skip_ws (s : string) : string :=
  match s with
  | String c r => if is_ws c then skip_ws r else s
  | EmptyString => s
  end.

Definition digit_of (c : ascii) : option (uint -> uint) :=
  match N_of_ascii c with
  | 48 => Some D0 | 49 => Some D1 | 50 => Some D2 | 51 => Some D3 | 52 => Some D4
  | 53 => Some D5 | 54 => Some D6 | 55 => Some D7 | 56 => Some D8 | 57 => Some D9
  | _ => None
  end.

Fixpoint read_digits (s : string) : uint * string :=
  match s with
  | String c r =>
      match digit_of c with
      | Some d => let '(u, rest) := read_digits r in (d u, rest)
      | None => (Nil, s)
      end
  | EmptyString => (Nil, s)
  end.

(** A fraction or an exponent would make the number a float, which this
    model does not have: such a literal is refused. *)
Definition starts_fraction (s : string) : bool :=
  match s with
  | String c _ => Ascii.eqb c "." || Ascii.eqb c "e" || Ascii.eqb c "E"
  | EmptyString => false
  end.

Definition parse_digits (s : string) : option (uint * string) :=
  match s with
  | String c r =>
      match digit_of c with
      | Some _ =>
          let '(u, rest) := if Ascii.eqb c "0" then (D0 Nil, r) else read_digits s in
          if starts_fraction rest then None else Some (u, rest)
      | None => None
      end
  | EmptyString => None
  end.

Definition parse_number (s : string) : option (Z * string) :=
  match s with
  | String c r =>
      if Ascii.eqb c "-" then
        match parse_digits r with
        | Some (u, rest) => Some (Z.of_int (Neg u), rest)
        | None => None
        end
      else
        match parse_digits s with
        | Some (u, rest) => Some (Z.of_int (Pos u), rest)
        | None => None
        end
  | EmptyString => None
  end.

Definition hexval (c : ascii) : option N :=
  let n := N_of_ascii c in
  if (48 <=? n) && (n <=? 57) then Some (n - 48)
  else if (97 <=? n) && (n <=? 102) then Some (n - 87)
  else if (65 <=? n) && (n <=? 70) then Some (n - 55)
  else None.

Definition hex4 (h1 h2 h3 h4 : ascii) : option N :=
  match hexval h1, hexval h2, hexval h3, hexval h4 with
  | Some a, Some b, Some c, Some d => Some (((a * 16 + b) * 16 + c) * 16 + d)
  | _, _, _, _ => None
  end.

(** The UTF-8 bytes of a code point (of a lone surrogate too). *)
Definition utf8 (cp : N) : string :=
  if cp <? 128 then String (ascii_of_N cp) EmptyString
  else if cp <? 2048 then
    String (ascii_of_N (192 + cp / 64)) (String (ascii_of_N (128 + cp mod 64)) EmptyString)
  else if cp <? 65536 then
    String (ascii_of_N (224 + cp / 4096))
      (String (ascii_of_N (128 + (cp / 64) mod 64))
         (String (ascii_of_N (128 + cp mod 64)) EmptyString))
  else
    String (ascii_of_N (240 + cp / 262144))
      (String (ascii_of_N (128 + (cp / 4096) mod 64))
         (String (ascii_of_N (128 + (cp / 64) mod 64))
            (String (ascii_of_N (128 + cp mod 64)) EmptyString))).

Definition is_high_surrogate (cp : N) : bool := (55296 <=? cp) && (cp <=? 56319).
Definition is_low_surrogate (cp : N) : bool := (56320 <=? cp) && (cp <=? 57343).

Definition low_surrogate_after (hi : N) (b u l1 l2 l3 l4 : ascii) : option N :=
  if is_high_surrogate hi && Ascii.eqb b backslash && Ascii.eqb u "u" then
    match hex4 l1 l2 l3 l4 with
    | Some lo => if is_low_surrogate lo then Some lo else None
    | None => None
    end
  else None.

Definition simple_escape (e : ascii) : option ascii :=
  if Ascii.eqb e dquote then Some dquote
  else if Ascii.eqb e backslash then Some backslash
  else if Ascii.eqb e "/" then Some "/"%char
  else if Ascii.eqb e "b" then Some "008"%char
  else if Ascii.eqb e "f" then Some "012"%char
  else if Ascii.eqb e "n" then Some "010"%char
  else if Ascii.eqb e "r" then Some "013"%char
  else if Ascii.eqb e "t" then Some "009"%char
  else None.

Definition prepend (pre : string) (r : option (string * string)) : option (string * string) :=
  match r with
  | Some (s, rest) => Some (pre ++ s, rest)
  | None => None
  end.

(** The characters of a string literal after its opening quote, up to and
    including the closing quote. *)
Fixpoint parse_chars (s : string) : option (string * string) :=
  match s with
  | EmptyString => None
  | String c r =>
      if Ascii.eqb c dquote then Some (EmptyString, r)
      else if Ascii.eqb c backslash then
        match r with
        | EmptyString => None
        | String e r1 =>
            if Ascii.eqb e "u" then
              match r1 with
              | String h1 (String h2 (String h3 (String h4 r2))) =>
                  match hex4 h1 h2 h3 h4 with
                  | Some hi =>
                      match r2 with
                      | String b (String u (String l1 (String l2 (String l3 (String l4 r3))))) =>
                          match low_surrogate_after hi b u l1 l2 l3 l4 with
                          | Some lo =>
                              prepend (utf8 (65536 + (hi - 55296) * 1024 + (lo - 56320)))
                                      (parse_chars r3)
                          | None => prepend (utf8 hi) (parse_chars r2)
                          end
                      | _ => prepend (utf8 hi) (parse_chars r2)
                      end
                  | None => None
                  end
              | _ => None
              end
            else
              match simple_escape e with
              | Some ch => prepend (String ch EmptyString) (parse_chars r1)
              | None => None
              end
        end
      else if N_of_ascii c <? 32 then None
      else prepend (String c EmptyString) (parse_chars r)
  end.

(** The rest of [s] after the literal [word], if [s] starts with it. *)
Fixpoint strip_literal (word s : string) : option string :=
  match word, s with
  | EmptyString, _ => Some s
  | String a word', String b s' => if Ascii.eqb a b then strip_literal word' s' else None
  | String _ _, EmptyString => None
  end.

Definition expect (word : string) (v : json) (s : string) : option (json * string) :=
  match strip_literal word s with
  | Some rest => Some (v, rest)
  | None => None
  end.

Fixpoint parse_value (fuel : nat) (s : string) : option (json * string) :=
  match fuel with
  | O => None
  | S fuel' =>
      match skip_ws s with
      | EmptyString => None
      | String c r =>
          if Ascii.eqb c "n" then expect "ull" JNull r
          else if Ascii.eqb c "t" then expect "rue" (JBool true) r
          else if Ascii.eqb c "f" then expect "alse" (JBool false) r
          else if Ascii.eqb c dquote then
            match parse_chars r with
            | Some (str, rest) => Some (JString str, rest)
            | None => None
            end
          else if Ascii.eqb c "[" then
            match skip_ws r with
            | String c' r' =>
                if Ascii.eqb c' "]" then Some (JArray [], r')
                else
                  match parse_elements fuel' r with
                  | Some (l, rest) => Some (JArray l, rest)
                  | None => None
                  end
            | EmptyString => None
            end
          else if Ascii.eqb c "{" then
            match skip_ws r with
            | String c' r' =>
                if Ascii.eqb c' "}" then Some (JObject [], r')
                else
                  match parse_members fuel' r with
                  | Some (l, rest) => Some (JObject l, rest)
                  | None => None
                  end
            | EmptyString => None
            end
          else
            match parse_number (String c r) with
            | Some (n, rest) => Some (JNumber n, rest)
            | None => None
            end
      end
  end
with parse_elements (fuel : nat) (s : string) : option (list json * string) :=
  match fuel with
  | O => None
  | S fuel' =>
      match parse_value fuel' s with
      | Some (v, r) =>
          match skip_ws r with
          | String c r' =>
              if Ascii.eqb c "," then
                match parse_elements fuel' r' with
                | Some (l, rest) => Some (v :: l, rest)
                | None => None
                end
              else if Ascii.eqb c "]" then Some ([v], r')
              else None
          | EmptyString => None
          end
      | None => None
      end
  end
with parse_members (fuel : nat) (s : string) : option (list (string * json) * string) :=
  match fuel with
  | O => None
  | S fuel' =>
      match skip_ws s with
      | String q r =>
          if Ascii.eqb q dquote then
            match parse_chars r with
            | Some (k, r1) =>
                match skip_ws r1 with
                | String colon r2 =>
                    if Ascii.eqb colon ":" then
                      match parse_value fuel' r2 with
                      | Some (v, r3) =>
                          match skip_ws r3 with
                          | String c r4 =>
                              if Ascii.eqb c "," then
                                match parse_members fuel' r4 with
                                | Some (l, rest) => Some ((k, v) :: l, rest)
                                | None => None
                                end
                              else if Ascii.eqb c "}" then Some ([(k, v)], r4)
                              else None
                          | EmptyString => None
                          end
                      | None => None
                      end
                    else None
                | EmptyString => None
                end
            | None => None
            end
          else None
      | EmptyString => None
      end
  end.

(** Modelled from the spec: the built-in [JSON.parse] ("the decoded text is
    not valid JSON"): one value, white space allowed around it and between
    its tokens, nothing after it; [None] stands for its SyntaxError. The
    recursion is bounded by the length of the text, which no text exceeds. *)
Definition JSON_parse (s : string) : option json :=
  match parse_value (S (String.length s)) s with
  | Some (v, rest) =>
      match skip_ws rest with
      | EmptyString => Some v
      | String _ _ => None
      end
  | None => None
  end.

(** ** Notions for the round trip *)

(** What may follow a value in a text that [stringify] wrote: nothing, or
    a comma or a closing bracket. *)
Definition delimited (rest : string) : Prop :=
  match rest with
  | EmptyString => True
  | String c _ => c = ","%char \/ c = "]"%char \/ c = "}"%char
  end.

(** The first character of a number: a sign or a digit. *)
Definition number_head (c : ascii) : bool :=
  Ascii.eqb c "-" || match digit_of c with Some _ => true | None => false end.

(** The first character of the text of a value. *)
Definition value_head (c : ascii) : bool :=
  Ascii.eqb c "n" || Ascii.eqb c "t" || Ascii.eqb c "f" || Ascii.eqb c dquote ||
  Ascii.eqb c "[" || Ascii.eqb c "{" || number_head c.

(** What the round trip says of one value, for the induction. *)
Definition parses_back (v : json) : Prop :=
  forall fuel rest,
    (json_size v <= fuel)%nat -> delimited rest ->
    parse_value fuel (stringify v ++ rest) = Some (v, rest).

(** With the fuel [f], a successful parse consumes at least one character
    and succeeds alike with any fuel that is at least the number of
    characters it consumed. *)
Definition adequate_value (f : nat) : Prop :=
  forall s v r, parse_value f s = Some (v, r) ->
    (String.length r < String.length s)%nat /\
    forall f', (String.length s - String.length r <= f')%nat -> parse_value f' s = Some (v, r).

Definition adequate_elements (f : nat) : Prop :=
  forall s l r, parse_elements f s = Some (l, r) ->
    (String.length r < String.length s)%nat /\
    forall f', (String.length s - String.length r <= f')%nat -> parse_elements f' s = Some (l, r).

Definition adequate_members (f : nat) : Prop :=
  forall s l r, parse_members f s = Some (l, r) ->
    (String.length r < String.length s)%nat /\
    forall f', (String.length s - String.length r <= f')%nat -> parse_members f' s = Some (l, r).

(** ** Values as JavaScript sees them *)

(** [!!v]: [None] is [undefined]. *)
Definition truthy (v : option json) : bool :=
  match v with
  | None => false
  | Some JNull => false
  | Some (JBool b) => b
  | Some (JNumber n) => negb (Z.eqb n 0)
  | Some (JString s) => negb (String.eqb s EmptyString)
  | Some (JArray _) => true
  | Some (JObject _) => true
  end.

(** The own property [k] of an object: the last member of that name. *)
Fixpoint member (k : string) (l : list (string * json)) : option json :=
  match l with
  | [] => None
  | (k', v) :: l' =>
      match member k l' with
      | Some v' => Some v'
      | None => if String.eqb k' k then Some v else None
      end
  end.

End Json.

Export Json.

(* ===================================================================== *)
(** * The browser: exceptions, cookie jar, localStorage, observable *)
(* ===================================================================== *)

(** What a JavaScript [throw] carries in this file. *)
Inductive exn : Type :=
| Error (message : string)       (* new Error(message) *)
| Base64DecodeError              (* thrown by fromBase64 *)
| StorageUnavailable             (* thrown by an access to localStorage *)
| TypeError                      (* a property read on null *)
| AuthenticationError            (* new AuthenticationError() *)
| RedirectError (url : string).  (* new RedirectError(url) *)

(** [inl e]: the call threw [e]; [inr v]: it returned [v]. *)
Definition result (A : Type) : Type := (exn + A)%type.

(** The names that the client imports from [../shared] (the functions
    [COOKIE_PUBLIC_DATA_TOKEN()] and the like, and [LOCALSTORAGE_PREFIX]):
    the client only uses them, so they are parameters here. *)
Record Constants : Type := {
  COOKIE_PUBLIC_DATA_TOKEN : string;
  COOKIE_CSRF_TOKEN : string;
  LOCALSTORAGE_PREFIX : string;
  LOCALSTORAGE_PUBLIC_DATA_TOKEN : string;
  LOCALSTORAGE_CSRF_TOKEN : string
}.

(** The state of one execution context (one tab). *)
Record World : Type := {
  cookies : gmap string string;            (* document.cookie *)
  localStorage : option (gmap string string);
                                           (* its items; None: unavailable *)
  clock : Z;                               (* what Date.now() returns *)
  console : list string;                   (* the lines of console.error *)
  store_created : bool;                    (* is window.__publicDataStore set *)
  observers : list nat;                    (* subscriptions, oldest first *)
  next_observer : nat;                     (* the next subscription handle *)
  delivered : list (nat * json)            (* notifications, oldest first *)
}.

Definition set_cookies (f : gmap string string -> gmap string string) (w : World) : World :=
  {| cookies := f (cookies w); localStorage := localStorage w;
     clock := clock w; console := console w;
     store_created := store_created w; observers := observers w;
     next_observer := next_observer w; delivered := delivered w |}.

Definition set_localStorage (m : gmap string string) (w : World) : World :=
  {| cookies := cookies w; localStorage := Some m;
     clock := clock w; console := console w;
     store_created := store_created w; observers := observers w;
     next_observer := next_observer w; delivered := delivered w |}.

Definition set_console (f : list string -> list string) (w : World) : World :=
  {| cookies := cookies w; localStorage := localStorage w;
     clock := clock w; console := f (console w);
     store_created := store_created w; observers := observers w;
     next_observer := next_observer w; delivered := delivered w |}.

Definition set_store_created (b : bool) (w : World) : World :=
  {| cookies := cookies w; localStorage := localStorage w;
     clock := clock w; console := console w;
     store_created := b; observers := observers w;
     next_observer := next_observer w; delivered := delivered w |}.

Definition set_delivered (f : list (nat * json) -> list (nat * json)) (w : World) : World :=
  {| cookies := cookies w; localStorage := localStorage w;
     clock := clock w; console := console w;
     store_created := store_created w; observers := observers w;
     next_observer := next_observer w; delivered := f (delivered w) |}.

Definition set_observers (f : list nat -> list nat) (n : nat) (w : World) : World :=
  {| cookies := cookies w; localStorage := localStorage w;
     clock := clock w; console := console w;
     store_created := store_created w; observers := f (observers w);
     next_observer := n; delivered := delivered w |}.

(** The item of localStorage under [key], as far as anything can read it. *)
Definition stored (key : string) (w : World) : option string :=
  match localStorage w with
  | Some items => items !! key
  | None => None
  end.

(** ** Computations that read and change the world and may throw *)

Definition M (A : Type) : Type := World -> result A * World.

Definition ret {A} (a : A) : M A := fun w => (inr a, w).

Definition throw {A} (e : exn) : M A := fun w => (inl e, w).

Definition bind {A B} (m : M A) (k : A -> M B) : M B :=
  fun w =>
    match m w with
    | (inr a, w') => k a w'
    | (inl e, w') => (inl e, w')
    end.

(** [try { m } catch (err) { h err }]: what [m] did before it threw stays done. *)
Definition try_catch {A} (m : M A) (h : exn -> M A) : M A :=
  fun w =>
    match m w with
    | (inr a, w') => (inr a, w')
    | (inl e, w') => h e w'
    end.

Notation "x <- m ;; k" := (bind m (fun x => k))
  (at level 100, m at next level, right associativity).
Notation "m ;;; k" := (bind m (fun _ => k))
  (at level 100, right associativity).

(** Modelled from the spec: [readCookie] and [deleteCookie] of the blitz
    package ("try the cookie", "deletes the session cookie"): the cookie jar
    is a finite map from names to values. *)
Definition readCookie (name : string) : M (option string) :=
  fun w => (inr (cookies w !! name), w).

Definition deleteCookie (name : string) : M unit :=
  fun w => (inr tt, set_cookies (delete name) w).

(** Modelled from the spec: the browser's localStorage ("if the storage
    medium is unavailable (e.g., disabled by user/browser policy)"): every
    access to an unavailable storage throws. *)
Definition localStorage_getItem (key : string) : M (option string) :=
  fun w =>
    match localStorage w with
    | Some items => (inr (items !! key), w)
    | None => (inl StorageUnavailable, w)
    end.

Definition localStorage_setItem (key value : string) : M unit :=
  fun w =>
    match localStorage w with
    | Some items => (inr tt, set_localStorage (<[key := value]> items) w)
    | None => (inl StorageUnavailable, w)
    end.

Definition localStorage_removeItem (key : string) : M unit :=
  fun w =>
    match localStorage w with
    | Some items => (inr tt, set_localStorage (delete key items) w)
    | None => (inl StorageUnavailable, w)
    end.

Definition console_error (line : string) : M unit :=
  fun w => (inr tt, set_console (fun l => (l ++ [line])%list) w).

(** [Date.now().toString()] *)
Definition Date_now_toString : M string :=
  fun w => (inr (number_text (clock w)), w).

(** Modelled from the spec: the observable of the bad-behavior package ("a
    set of active subscribers (observers) with at-most-once delivery per
    emitted value, in subscription order"): [next] hands the value to every
    subscription once, [subscribe] returns the handle of a new subscription
    and [unsubscribe] removes exactly that one. *)
Definition observable_next (v : json) : M unit :=
  fun w => (inr tt, set_delivered (fun d => (d ++ map (fun o => (o, v)) (observers w))%list) w).

Definition observable_subscribe : M nat :=
  fun w =>
    (inr (next_observer w),
     set_observers (fun l => (l ++ [next_observer w])%list) (S (next_observer w)) w).

Definition Nat_eqb_neg (h o : nat) : bool := negb (Nat.eqb o h).

Definition observable_unsubscribe (handle : nat) : M unit :=
  fun w =>
    (inr tt, set_observers (List.filter (Nat_eqb_neg handle)) (next_observer w) w).

(** The handles of the subscriptions are distinct and below the next one. *)
Definition distinct_handles (w : World) : Prop :=
  NoDup (observers w) /\ Forall (fun o => (o < next_observer w)%nat) (observers w).

(** What one subscription received among the notifications [l]. *)
Definition received (o : nat) (l : list (nat * json)) : list json :=
  map snd (List.filter (fun n => Nat.eqb (fst n) o) l).

(** The notifications delivered between the worlds [w] and [w']. *)
Definition delivered_since (w w' : World) : list (nat * json) :=
  drop (length (delivered w)) (delivered w').

(** The time that a broadcast key holds. *)
Definition timestamp_of (s : option string) : option Z :=
  match s with
  | Some text =>
      match NilZero.int_of_string text with
      | Some d => Some (Z.of_int d)
      | None => None
      end
  | None => None
  end.

(** [m] includes [d]. *)
Definition includes (m d : string) : Prop :=
  exists before after, m = before ++ d ++ after.

(** JavaScript's [!!s] for a string that may be absent. *)
Definition truthy_string (s : option string) : bool :=
  match s with
  | Some s => negb (String.eqb s EmptyString)
  | None => false
  end.

(** Modelled from the spec: [assert] of the blitz package ("Fails with a
    decode error if the input is empty"): throws an Error with the message
    when the condition is falsy. *)
Definition assert (condition : bool) (message : string) : result unit :=
  if condition then inr tt else inl (Error message).

(* ===================================================================== *)
(** * Token codec *)
(* ===================================================================== *)

Record ParsedToken : Type := { publicData : json }.

Definition parse_failure_prefix : string :=
  "[parsePublicDataToken] Failed to parse publicDataStr: ".

Definition parsePublicDataToken (token : string) : result ParsedToken :=
  match assert (negb (String.eqb token EmptyString))
               "[parsePublicDataToken] Failed: token is empty" with
  | inl e => inl e
  | inr _ =>
      match Base64.fromBase64 token with
      | None => inl Base64DecodeError
      | Some publicDataStr =>
          match JSON_parse publicDataStr with
          | Some pd => inr {| publicData := pd |}
          | None => inl (Error (parse_failure_prefix ++ publicDataStr))
          end
      end
  end.

(** Modelled from the spec: the type [PublicData] of [../shared] ("a user
    identifier and a role (single value or set)"); the role is a field that
    the application may leave out. *)
Record PublicData : Type := { userId : json; role : option json }.

Definition json_of_PublicData (pd : PublicData) : json :=
  JObject (("userId", userId pd) ::
           match role pd with
           | Some r => [("role", r)]
           | None => []
           end).

(** Modelled from the spec: the encoder of the server, which is not among
    the sources of the client ("the base64 encoding of the JSON
    serialization of pd"). *)
Definition encodePublicData (pd : PublicData) : string :=
  Base64.toBase64 (stringify (json_of_PublicData pd)).

Definition emptyPublicData : json := JObject [("userId", JNull); ("role", JNull)].

(* ===================================================================== *)
(** * PublicDataStore *)
(* ===================================================================== *)

Section PublicDataStore.

Variable K : Constants.

Definition eventKey : string := LOCALSTORAGE_PREFIX K ++ "publicDataUpdated".

Definition storage_unavailable_line : string := "LocalStorage is not available".

Definition getToken : M (option string) :=
  try_catch
    (cookieValue <- readCookie (COOKIE_PUBLIC_DATA_TOKEN K) ;;
     match cookieValue with
     | Some c =>
         if truthy_string cookieValue then
           localStorage_setItem (LOCALSTORAGE_PUBLIC_DATA_TOKEN K) c ;;;
           ret (Some c)
         else localStorage_getItem (LOCALSTORAGE_PUBLIC_DATA_TOKEN K)
     | None => localStorage_getItem (LOCALSTORAGE_PUBLIC_DATA_TOKEN K)
     end)
    (fun err => console_error storage_unavailable_line ;;; ret None).

Definition getData : M json :=
  publicDataToken <- getToken ;;
  match publicDataToken with
  | Some token =>
      if truthy_string publicDataToken then
        match parsePublicDataToken token with
        | inr parsed => ret (publicData parsed)
        | inl e => throw e
        end
      else ret emptyPublicData
  | None => ret emptyPublicData
  end.

(** The token that the two stores hold together, as [getToken] sees it:
    nothing when localStorage cannot be used, else the cookie when it has
    a value, else the mirror. *)
Definition token_view (w : World) : option string :=
  match localStorage w with
  | Some items =>
      if truthy_string (cookies w !! COOKIE_PUBLIC_DATA_TOKEN K)
      then cookies w !! COOKIE_PUBLIC_DATA_TOKEN K
      else items !! LOCALSTORAGE_PUBLIC_DATA_TOKEN K
  | None => None
  end.

(** What [getData] makes of a token. *)
Definition session_of (token : option string) : result json :=
  match token with
  | Some t =>
      if truthy_string token then
        match parsePublicDataToken t with
        | inr parsed => inr (publicData parsed)
        | inl e => inl e
        end
      else inr emptyPublicData
  | None => inr emptyPublicData
  end.

Record UpdateOptions : Type := { suppressEvent : bool }.

(** [opts?.suppressEvent] *)
Definition suppresses (opts : option UpdateOptions) : bool :=
  match opts with
  | Some o => suppressEvent o
  | None => false
  end.

(** [value ?? this.getData()]: [None] is [undefined]. *)
Definition value_or_getData (value : option json) : M json :=
  match value with
  | None => getData
  | Some JNull => getData
  | Some v => ret v
  end.

(** What [updateState] has for the subscribers in the world [w]: the value,
    or else what [getData] returns or throws there. *)
Definition emitted (value : option json) (w : World) : result json :=
  match value with
  | None | Some JNull => fst (getData w)
  | Some v => inr v
  end.

(** The first statement of [updateState]: the message to the other tabs. *)
Definition write_eventKey (opts : option UpdateOptions) : M unit :=
  if negb (suppresses opts) then
    try_catch
      (now <- Date_now_toString ;; localStorage_setItem eventKey now)
      (fun err => console_error storage_unavailable_line)
  else ret tt.

Definition updateState (value : option json) (opts : option UpdateOptions) : M unit :=
  write_eventKey opts ;;;
  v <- value_or_getData value ;;
  observable_next v.

Definition clear : M unit :=
  deleteCookie (COOKIE_PUBLIC_DATA_TOKEN K) ;;;
  try_catch
    (localStorage_removeItem (LOCALSTORAGE_PUBLIC_DATA_TOKEN K))
    (fun err => console_error storage_unavailable_line) ;;;
  updateState (Some emptyPublicData) None.

(** The constructor's first statement, in a browser. *)
Definition construct : M unit :=
  updateState None (Some {| suppressEvent := true |}).

(** The listener of the window's storage events. *)
Definition onStorageEvent (key : string) : M unit :=
  if String.eqb key eventKey
  then updateState None (Some {| suppressEvent := true |})
  else ret tt.

(** [getPublicDataStore()]: the store is made on first use, with an
    observable of its own that nobody has subscribed to yet. *)
Definition getPublicDataStore : M unit :=
  fun w =>
    if store_created w then (inr tt, w)
    else
      match construct (set_observers (fun _ => []) (next_observer w) w) with
      | (inr _, w') => (inr tt, set_store_created true w')
      | (inl e, w') => (inl e, w')
      end.

Definition backupAntiCSRFTokenToLocalStorage : M unit :=
  cookieValue <- readCookie (COOKIE_CSRF_TOKEN K) ;;
  match cookieValue with
  | Some c =>
      if truthy_string cookieValue
      then localStorage_setItem (LOCALSTORAGE_CSRF_TOKEN K) c
      else ret tt
  | None => ret tt
  end.

Definition getAntiCSRFToken : M (option string) :=
  cookieValue <- readCookie (COOKIE_CSRF_TOKEN K) ;;
  match cookieValue with
  | Some c =>
      if truthy_string cookieValue
      then ret (Some c)
      else localStorage_getItem (LOCALSTORAGE_CSRF_TOKEN K)
  | None => localStorage_getItem (LOCALSTORAGE_CSRF_TOKEN K)
  end.

(** ** Authorization gate *)

(** [role?: string | Array<string>] *)
Inductive RoleRule : Type :=
| RoleName (r : string)
| RoleNames (rs : list string).

(** [!!role] *)
Definition truthy_role (role : option RoleRule) : bool :=
  match role with
  | Some (RoleName r) => negb (String.eqb r EmptyString)
  | Some (RoleNames _) => true
  | None => false
  end.

(** [x === r] for a string [r] and any value [x]. *)
Definition strict_eq_string (x : option json) (r : string) : bool :=
  match x with
  | Some (JString s) => String.eqb s r
  | _ => false
  end.

Definition authorizeRole (role : option RoleRule) (currentRole : option json) : bool :=
  if truthy_role role && truthy currentRole then
    match role with
    | Some (RoleNames rs) => existsb (strict_eq_string currentRole) rs
    | Some (RoleName r) => strict_eq_string currentRole r
    | None => false
    end
  else false.

Definition lift {A} (r : result A) : M A :=
  match r with
  | inr a => ret a
  | inl e => throw e
  end.

(** [v.userId], [v.role]: reading a property of [null] throws; a value that
    is not an object has neither property. *)
Definition get_prop (k : string) (v : json) : result (option json) :=
  match v with
  | JNull => inl TypeError
  | JObject l => inr (member k l)
  | _ => inr None
  end.

(** [getPublicDataStore().getData().k] *)
Definition store_prop (k : string) : M (option json) :=
  getPublicDataStore ;;;
  d <- getData ;;
  lift (get_prop k d).

(** [condition?: boolean]: [None] is [undefined]. *)
Definition truthy_bool (b : option bool) : bool :=
  match b with
  | Some b => b
  | None => false
  end.

Definition useAuthorizeIf (isClient mounted : bool)
    (condition : option bool) (role : option RoleRule) : M unit :=
  (if isClient && truthy_bool condition then
     u <- store_prop "userId" ;;
     if negb (truthy u) && mounted then throw AuthenticationError else ret tt
   else ret tt) ;;;
  (if isClient && truthy_bool condition && truthy_role role then
     u <- store_prop "userId" ;;
     if truthy u && mounted then
       r <- store_prop "role" ;;
       if negb (authorizeRole role r) then throw AuthenticationError else ret tt
     else ret tt
   else ret tt).

Definition useAuthorize (isClient mounted : bool) : M unit :=
  useAuthorizeIf isClient mounted (Some true) None.

Definition useRedirectAuthenticated (isClient mounted : bool) (to : string) : M unit :=
  if isClient then
    u <- store_prop "userId" ;;
    if truthy u && mounted then throw (RedirectError to) else ret tt
  else ret tt.

(** [authenticate?: boolean | {redirectTo?: string | RouteUrlObject; role?: ...}] *)
Inductive UrlLike : Type :=
| UrlString (s : string)
| RouteUrl (pathname : string).

Inductive Authenticate : Type :=
| AuthBoolean (b : bool)
| AuthObject (redirectTo : option UrlLike) (role : option RoleRule).

(** [redirectAuthenticatedTo?: RedirectAuthenticatedTo | RedirectAuthenticatedToFn] *)
Inductive RedirectAuthenticatedTo : Type :=
| RedirectFalse
| RedirectUrl (u : UrlLike)
| RedirectFn (f : json -> option UrlLike).

(** The two static properties of a component; [None] is [undefined]. A host
    element such as a [div] has neither. *)
Record Rules : Type := {
  authenticate : option Authenticate;
  redirectAuthenticatedTo : option RedirectAuthenticatedTo
}.

Definition no_rules : Rules :=
  {| authenticate := None; redirectAuthenticatedTo := None |}.

(** [x.authenticate !== undefined || x.redirectAuthenticatedTo !== undefined] *)
Definition carries_rules (x : Rules) : bool :=
  match authenticate x, redirectAuthenticatedTo x with
  | None, None => false
  | _, _ => true
  end.

(** The first argument that [AuthRoot] gives to [useAuthorizeIf]. *)
Definition authorize_condition (a : option Authenticate) : bool :=
  match a with
  | Some (AuthBoolean b) => b
  | Some (AuthObject None _) => true
  | Some (AuthObject (Some _) _) => false
  | None => false
  end.

(** The second argument that [AuthRoot] gives to [useAuthorizeIf]. *)
Definition authorize_role (a : option Authenticate) : option RoleRule :=
  match a with
  | Some (AuthObject _ r) => r
  | _ => None
  end.

(** The two hooks that [AuthRoot] runs before it looks at redirects. *)
Definition AuthRoot_authorize (isClient mounted : bool) (rules : Rules) : M unit :=
  useAuthorizeIf isClient mounted
    (Some (authorize_condition (authenticate rules)))
    (authorize_role (authenticate rules)).

(** A React element: its type's static properties and [props.children]. *)
Unset Elimination Schemes.
Inductive Element : Type :=
| El (type : Rules) (children : option Child)
with Child : Type :=
| OneElement (e : Element)
| TextChild (s : string)
| ManyChildren (l : list Element).
Set Elimination Schemes.

Definition element_type (e : Element) : Rules :=
  match e with El t _ => t end.

Record PageComponent : Type := {
  page_rules : Rules;
  getLayout : option (Element -> Element)
}.

(** The [while (true)] of [getAuthValues]: [layout] is the element that
    [getLayout] returned and [currentElement] the one the walk has reached.
    A text or an array of children has no [props], so the walk ends there,
    after one more look at [layout.type]. *)
Fixpoint walk_layout (layout currentElement : Element) : Rules :=
  let type := element_type layout in
  if carries_rules type then type
  else
    match currentElement with
    | El _ (Some (OneElement child)) => walk_layout layout child
    | El _ (Some (TextChild _)) => no_rules
    | El _ (Some (ManyChildren _)) => no_rules
    | El _ None => no_rules
    end.

Definition getAuthValues (Page : option PageComponent) (props : option Child) : Rules :=
  match Page with
  | None => no_rules
  | Some page =>
      if carries_rules (page_rules page) then page_rules page
      else
        match getLayout page with
        | Some f =>
            let layout := f (El (page_rules page) props) in
            walk_layout layout layout
        | None => no_rules
        end
  end.

(** The lookup as the specification words it: "walk the returned element's
    single-child chain looking for the first element whose type carries
    either property, and adopt that element's rules (stop at the first
    found, or at a childless element)". *)
Fixpoint first_rules_in_chain (e : Element) : Rules :=
  match e with
  | El type children =>
      if carries_rules type then type
      else
        match children with
        | Some (OneElement child) => first_rules_in_chain child
        | _ => no_rules
        end
  end.

End PublicDataStore.

(* ===================================================================== *)
(** * Worlds and pages of the examples *)
(* ===================================================================== *)

Module Examples.

(** The names with the default cookie prefix. *)
Definition K0 : Constants :=
  {| COOKIE_PUBLIC_DATA_TOKEN := "blitz_sPublicDataToken";
     COOKIE_CSRF_TOKEN := "blitz_sAntiCsrfToken";
     LOCALSTORAGE_PREFIX := "_blitz-";
     LOCALSTORAGE_PUBLIC_DATA_TOKEN := "_blitz-blitz_sPublicDataToken";
     LOCALSTORAGE_CSRF_TOKEN := "_blitz-blitz_sAntiCsrfToken" |}.

(** A tab whose store exists, with the given cookies, localStorage, clock
    and subscriptions, and nothing logged or delivered yet. *)
Definition tab (cs : gmap string string) (ls : option (gmap string string))
    (now : Z) (subscriptions : list nat) : World :=
  {| cookies := cs; localStorage := ls; clock := now; console := [];
     store_created := true; observers := subscriptions;
     next_observer := 10; delivered := [] |}.

Definition session_cookie (token : string) : gmap string string :=
  {[ COOKIE_PUBLIC_DATA_TOKEN K0 := token ]}.

Definition mirror (token : string) : gmap string string :=
  {[ LOCALSTORAGE_PUBLIC_DATA_TOKEN K0 := token ]}.

Definition user_1 : PublicData :=
  {| userId := JNumber 1; role := Some (JString "user") |}.

Definition admin_1 : PublicData :=
  {| userId := JNumber 1; role := Some (JString "admin") |}.

(** A session with a role and no user. *)
Definition admin_nobody : PublicData :=
  {| userId := JNull; role := Some (JString "admin") |}.

(** [authenticate = true] and [authenticate = {role: "admin"}] *)
Definition authenticate_true : Rules :=
  {| authenticate := Some (AuthBoolean true); redirectAuthenticatedTo := None |}.

Definition authenticate_admin : Rules :=
  {| authenticate := Some (AuthObject None (Some (RoleName "admin")));
     redirectAuthenticatedTo := None |}.

(** A page without rules whose layout is an element without rules around
    an element of a type with [authenticate = true] around the page. *)
Definition nested_layout (page : Element) : Element :=
  El no_rules (Some (OneElement (El authenticate_true (Some (OneElement page))))).

Definition page_in_nested_layout : PageComponent :=
  {| page_rules := no_rules; getLayout := Some nested_layout |}.

Definition not_json_token : string := Base64.toBase64 "not json".

Definition not_json_error : exn :=
  Error "[parsePublicDataToken] Failed to parse publicDataStr: not json".

(** Logged in as [user_1], two subscriptions. *)
Definition w_logged_in : World :=
  tab (session_cookie (encodePublicData user_1))
      (Some (mirror (encodePublicData user_1))) 5 [0; 1]%nat.

(** The same without localStorage. *)
Definition w_logged_in_no_storage : World :=
  tab (session_cookie (encodePublicData user_1)) None 5 [0; 1]%nat.

Definition w_cookie_A_mirror_B : World :=
  tab (session_cookie "A") (Some (mirror "B")) 0 [].

Definition w_mirror_B : World := tab ∅ (Some (mirror "B")) 0 [].

Definition w_no_token : World := tab ∅ (Some ∅) 0 [].

(** The cookie holds the base64 of "not json"; one subscription. *)
Definition w_not_json : World :=
  tab (session_cookie not_json_token) (Some ∅) 5 [0]%nat.

(** The broadcast key holds the time 5; the clock shows 5, or 7. *)
Definition w_same_millisecond : World :=
  tab ∅ (Some {[ eventKey K0 := "5" ]}) 5 [0]%nat.

Definition w_later : World :=
  tab ∅ (Some {[ eventKey K0 := "5" ]}) 7 [0]%nat.

Definition w_user : World :=
  tab (session_cookie (encodePublicData user_1)) (Some ∅) 0 [].

Definition w_admin : World :=
  tab (session_cookie (encodePublicData admin_1)) (Some ∅) 0 [].

Definition w_admin_nobody : World :=
  tab (session_cookie (encodePublicData admin_nobody)) (Some ∅) 0 [].

(** No localStorage: with a CSRF cookie, and with no cookie at all. *)
Definition w_csrf_no_storage : World :=
  tab {[ COOKIE_CSRF_TOKEN K0 := "tok" ]} None 0 [].

Definition w_nothing_no_storage : World := tab ∅ None 0 [].

End Examples.

(* ===================================================================== *)
(** * The rest of the client: hooks, the page wrapper, the plugin *)
(* ===================================================================== *)

(** What a JavaScript [throw] carries in the rest of the client: what the
    store and the gate throw, and two errors of its own. *)
Inductive fault : Type :=
| Thrown (e : exn)
| SuspenseFallback          (* an Error named "Rendering Suspense fallback..." *)
| CSRFTokenMismatchError.   (* new CSRFTokenMismatchError() *)

(** [ClientSession]: the object [{...session_data, isLoading}]. *)
Record ClientSession : Type := { session_data : json; isLoading : bool }.

(** [UseSessionOptions]; [suspense] is [None] when it is [null] or left out. *)
Record UseSessionOptions : Type := {
  initialPublicData : option json;
  suspense : option bool
}.

(** The names of the headers that the client imports from [../shared]:
    parameters, like the names of the cookies. *)
Record HeaderNames : Type := {
  HEADER_CSRF : string;
  HEADER_PUBLIC_DATA_TOKEN : string;
  HEADER_SESSION_CREATED : string;
  HEADER_CSRF_ERROR : string
}.

(** A request as far as the plugin looks at it: its headers, which may be
    missing, and everything else. *)
Record Request (A : Type) : Type := {
  req_headers : option (gmap string string);
  req_rest : A
}.
Arguments req_headers {A} _.
Arguments req_rest {A} _.

(** A response as far as the plugin looks at it. *)
Record Response (A : Type) : Type := {
  res_headers : option (gmap string string);
  res_rest : A
}.
Arguments res_headers {A} _.
Arguments res_rest {A} _.

(** [{...d, isLoading: false}], for a session [d] that is an object. *)
Definition session_state (d : json) : ClientSession :=
  {| session_data := d; isLoading := false |}.

(** The session of a component whose subscription [h] was made with the
    session [s] and has since been handed the notifications [l]: each one
    replaces the session ([setSession({...data, isLoading: false})]). *)
Definition session_after (s : ClientSession) (h : nat) (l : list (nat * json)) : ClientSession :=
  fold_left (fun _ d => session_state d) (received h l) s.

(** What is the same in two worlds for the session: everything but the
    mirror, which [getToken] may have refreshed from the cookie. *)
Definition same_session (K : Constants) (w w1 : World) : Prop :=
  cookies w1 = cookies w /\ token_view K w1 = token_view K w /\
  delivered w1 = delivered w /\
  (forall k, k <> LOCALSTORAGE_PUBLIC_DATA_TOKEN K -> stored k w1 = stored k w) /\
  (localStorage w = None -> localStorage w1 = None) /\
  (store_created w = true -> observers w1 = observers w /\ store_created w1 = true).

Section Client.

Variable K : Constants.
Variable H : HeaderNames.

(** ** useSession *)

(** The first part of [useSession], which every render runs: the initial
    state. [isServer] is the constant of the blitz package and
    [suspenseEnabled] is [Boolean(globalThis.__BLITZ_SUSPENSE_ENABLED)]. *)
Definition useSession_initialState (isServer suspenseEnabled : bool)
    (options : UseSessionOptions) : World -> (fault + ClientSession) * World :=
  fun w =>
    let suspense :=
      match suspense options with
      | Some b => b
      | None => suspenseEnabled
      end in
    let without_initialPublicData :=
      if suspense then
        if isServer then (inl SuspenseFallback, w)
        else
          match (getPublicDataStore K ;;; getData K) w with
          | (inr d, w') => (inr (session_state d), w')
          | (inl e, w') => (inl (Thrown e), w')
          end
      else (inr {| session_data := emptyPublicData; isLoading := true |}, w) in
    match initialPublicData options with
    | Some d =>
        if truthy (Some d) then (inr (session_state d), w)
        else without_initialPublicData
    | None => without_initialPublicData
    end.

(** [useSession] in a render: [state] is what [useState] holds, nothing in
    the first render. *)
Definition useSession (isServer suspenseEnabled : bool)
    (options : UseSessionOptions) (state : option ClientSession)
    : World -> (fault + ClientSession) * World :=
  fun w =>
    match useSession_initialState isServer suspenseEnabled options w with
    | (inr initialState, w') =>
        (inr match state with
             | Some session => session
             | None => initialState
             end, w')
    | (inl f, w') => (inl f, w')
    end.

(** The effect of [useSession], run once after the component has mounted:
    the session that it sets and the handle of the subscription. *)
Definition useSession_effect : M (ClientSession * nat) :=
  getPublicDataStore K ;;;
  d <- getData K ;;
  getPublicDataStore K ;;;
  subscription <- observable_subscribe ;;
  ret (session_state d, subscription).

(** What the effect returns for the unmount: [subscription.unsubscribe]. *)
Definition useSession_cleanup (subscription : nat) : M unit :=
  observable_unsubscribe subscription.

(** [useAuthenticatedSession]: [useAuthorize()], then [useSession(options)]. *)
Definition useAuthenticatedSession (isClient mounted isServer suspenseEnabled : bool)
    (options : UseSessionOptions) (state : option ClientSession)
    : World -> (fault + ClientSession) * World :=
  fun w =>
    match useAuthorize K isClient mounted w with
    | (inr _, w') => useSession isServer suspenseEnabled options state w'
    | (inl e, w') => (inl (Thrown e), w')
    end.

(** ** The page wrapper *)

(** [formatWithValidation] of [../shared/url-utils] on a route, and the
    text of [new URL(redirectTo, window.location.href)] after
    [searchParams.append("next", window.location.pathname)]: both belong to
    the page's address and are parameters here. The constructor of [URL]
    throws a TypeError for a text that is no address: [None]. *)
Variable formatWithValidation : string -> string.
Variable url_with_next : string -> option string.

(** [typeof u === "string" ? u : formatWithValidation(u)] *)
Definition url_text (u : UrlLike) : string :=
  match u with
  | UrlString s => s
  | RouteUrl pathname => formatWithValidation pathname
  end.

(** [throw new RedirectError(url.toString())], after the construction of
    [url]; [guard] is the condition between the two. *)
Definition redirect_with_next (redirectTo : UrlLike) (guard : bool) : M unit :=
  match url_with_next (url_text redirectTo) with
  | Some url => if guard then throw (RedirectError url) else ret tt
  | None => throw TypeError
  end.

(** [!!u] for a string or a route object. *)
Definition truthy_url (u : UrlLike) : bool :=
  match u with
  | UrlString s => negb (String.eqb s EmptyString)
  | RouteUrl _ => true
  end.

(** [redirectAuthenticatedTo] after the call of a function-valued rule with
    the session; [None] is [undefined] or [false]. *)
Definition resolve_redirectAuthenticatedTo
    (r : option RedirectAuthenticatedTo) (session : json) : option UrlLike :=
  match r with
  | Some (RedirectFn f) => f session
  | Some (RedirectUrl u) => Some u
  | Some RedirectFalse => None
  | None => None
  end.

(** [authenticate.redirectTo] when [authenticate] is an object and the
    property is truthy. *)
Definition authenticate_redirectTo (a : option Authenticate) : option UrlLike :=
  match a with
  | Some (AuthObject (Some u) _) => if truthy_url u then Some u else None
  | _ => None
  end.

(** The body of [AuthRoot] after the hooks, in a browser: the redirects. *)
Definition AuthRoot_redirects (mounted : bool) (rules : Rules) : M unit :=
  getPublicDataStore K ;;;
  session <- getData K ;;
  userId <- lift (get_prop "userId" session) ;;
  if truthy userId then
    (match resolve_redirectAuthenticatedTo (redirectAuthenticatedTo rules) session with
     | Some u =>
         if truthy_url u && mounted then throw (RedirectError (url_text u)) else ret tt
     | None => ret tt
     end) ;;;
    match authenticate_redirectTo (authenticate rules) with
    | Some redirectTo =>
        if truthy_role (authorize_role (authenticate rules)) then
          currentRole <- lift (get_prop "role" session) ;;
          if negb (authorizeRole (authorize_role (authenticate rules)) currentRole)
          then redirect_with_next redirectTo true
          else ret tt
        else ret tt
    | None => ret tt
    end
  else
    match authenticate_redirectTo (authenticate rules) with
    | Some redirectTo => redirect_with_next redirectTo mounted
    | None => ret tt
    end.

(** [AuthRoot], the component that [withBlitzAuthPlugin] puts around a
    page: what a render returns is the page's element. [hasWindow] is
    [typeof window !== "undefined"]. [mounted] is the state of the
    component and of [useAuthorizeIf] alike: the effects that set the two
    run after the same render. *)
Definition AuthRoot (isClient isServer hasWindow suspenseEnabled mounted : bool)
    (Page : PageComponent) (props : option Child) (state : option ClientSession)
    : World -> (fault + Element) * World :=
  fun w =>
    match useSession isServer suspenseEnabled
            {| initialPublicData := None; suspense := Some false |} state w with
    | (inl f, w0) => (inl f, w0)
    | (inr _, w0) =>
        let rules := getAuthValues (Some Page) props in
        match AuthRoot_authorize K isClient mounted rules w0 with
        | (inl e, w1) => (inl (Thrown e), w1)
        | (inr _, w1) =>
            if hasWindow then
              match AuthRoot_redirects mounted rules w1 with
              | (inl e, w2) => (inl (Thrown e), w2)
              | (inr _, w2) => (inr (El (page_rules Page) props), w2)
              end
            else (inr (El (page_rules Page) props), w1)
        end
    end.

(** ** The plugin *)

(** [options.cookiePrefix || "blitz"] *)
Definition cookie_prefix (cookiePrefix : string) : string :=
  if String.eqb cookiePrefix EmptyString then "blitz" else cookiePrefix.

(** [events.onRpcError], by the name of the error. *)
Definition onRpcError (error_name : string) : M unit :=
  if String.eqb error_name "AuthenticationError" then
    userId <- store_prop K "userId" ;;
    if truthy userId then getPublicDataStore K ;;; clear K else ret tt
  else ret tt.

(** [middleware.beforeHttpRequest] *)
Definition beforeHttpRequest {A} (req : Request A) : M (Request A) :=
  antiCSRFToken <- getAntiCSRFToken K ;;
  let headers : gmap string string :=
    match antiCSRFToken with
    | Some token =>
        if truthy_string antiCSRFToken
        then <[HEADER_CSRF H := token]> {[ "Content-Type" := "application/json" ]}
        else {[ "Content-Type" := "application/json" ]}
    | None => {[ "Content-Type" := "application/json" ]}
    end in
  ret {| req_headers := Some (headers ∪ default ∅ (req_headers req));
         req_rest := req_rest req |}.

(** [res.headers.get(name)], as a condition. *)
Definition has_header (name : string) (headers : gmap string string) : bool :=
  truthy_string (headers !! name).

(** [middleware.beforeHttpResponse]; [events] are the names of the events
    that [document.dispatchEvent] has been given, oldest first. *)
Definition beforeHttpResponse {A} (res : Response A) (events : list string)
    : World -> (fault + Response A) * (World * list string) :=
  fun w =>
    match res_headers res with
    | None => (inr res, (w, events))
    | Some headers =>
        match backupAntiCSRFTokenToLocalStorage K w with
        | (inl e, w1) => (inl (Thrown e), (w1, events))
        | (inr _, w1) =>
            match (if has_header (HEADER_PUBLIC_DATA_TOKEN H) headers
                   then getPublicDataStore K ;;; updateState K None None
                   else ret tt) w1 with
            | (inl e, w2) => (inl (Thrown e), (w2, events))
            | (inr _, w2) =>
                let events' :=
                  if has_header (HEADER_SESSION_CREATED H) headers
                  then (events ++ ["blitz:session-created"])%list
                  else events in
                if has_header (HEADER_CSRF_ERROR H) headers
                then (inl CSRFTokenMismatchError, (w2, events'))
                else (inr res, (w2, events'))
            end
        end
    end.

End Client.

(* ===================================================================== *)
(** * Example data for the hooks, the page wrapper and the plugin *)
(* ===================================================================== *)

Module ClientExamples.
Import Examples.

(** The names of the headers as blitz has them. *)
Definition H0 : HeaderNames :=
  {| HEADER_CSRF := "anti-csrf";
     HEADER_PUBLIC_DATA_TOKEN := "public-data-token";
     HEADER_SESSION_CREATED := "session-created";
     HEADER_CSRF_ERROR := "csrf-error" |}.

(** A site at the address http://localhost/, looked at from the path /. *)
Definition format_pathname (pathname : string) : string := pathname.

Definition with_next_home (redirectTo : string) : option string :=
  Some ("http://localhost" ++ redirectTo ++ "?next=%2F").

(** Another tab of the logged-in user, with subscriptions of its own. *)
Definition w_other_tab : World :=
  tab (session_cookie (encodePublicData user_1))
      (Some (mirror (encodePublicData user_1))) 9 [3; 4]%nat.

(** An anti-CSRF cookie and an empty localStorage; and the backup without
    the cookie. *)
Definition w_csrf : World :=
  tab {[ COOKIE_CSRF_TOKEN K0 := "tok" ]} (Some ∅) 0 [].

Definition w_csrf_backup : World :=
  tab ∅ (Some {[ LOCALSTORAGE_CSRF_TOKEN K0 := "tok" ]}) 0 [].

Definition request_without_headers : Request unit :=
  {| req_headers := None; req_rest := tt |}.

Definition response_without_headers : Response unit :=
  {| res_headers := None; res_rest := tt |}.

Definition response_plain : Response unit :=
  {| res_headers := Some ∅; res_rest := tt |}.

(** The response to a login: the public-data header and the session-created
    header. *)
Definition login_headers : gmap string string :=
  {[ "public-data-token" := "updated"; "session-created" := "true" ]}.

Definition response_login : Response unit :=
  {| res_headers := Some login_headers; res_rest := tt |}.

(** Pages: [authenticate = true]; [authenticate = {redirectTo: "/login"}];
    [authenticate = {redirectTo: "/login", role: "admin"}];
    [redirectAuthenticatedTo = "/home"]. *)
Definition page_of (rules : Rules) : PageComponent :=
  {| page_rules := rules; getLayout := None |}.

Definition login_or_redirect : Rules :=
  {| authenticate := Some (AuthObject (Some (UrlString "/login")) None);
     redirectAuthenticatedTo := None |}.

Definition admin_or_redirect : Rules :=
  {| authenticate := Some (AuthObject (Some (UrlString "/login")) (Some (RoleName "admin")));
     redirectAuthenticatedTo := None |}.

Definition guests_only : Rules :=
  {| authenticate := None;
     redirectAuthenticatedTo := Some (RedirectUrl (UrlString "/home")) |}.

(** The session that a component holds before its effect has run. *)
Definition loading : ClientSession :=
  {| session_data := emptyPublicData; isLoading := true |}.

End ClientExamples.

(* ===================================================================== *)
(** * Facts: Base64 *)
(* ===================================================================== *)

Module Base64Facts.
Import Base64.
Local Open Scope N_scope.

Local Ltac Zify.zify_post_hook ::= Z.to_euclidean_division_equations.

Lemma below_64_cases (P : N -> Prop) :
  (forall k : nat, (k < 64)%nat -> P (N.of_nat k)) -> forall n, n < 64 -> P n.
Proof.
  intros H n Hn. rewrite <- (N2Nat.id n). apply H. lia.
Qed.

Lemma b64val_b64char n : n < 64 -> b64val (b64char n) = Some n.
Proof.
  revert n. apply below_64_cases. intros k Hk.
  do 64 (destruct k as [|k]; [vm_compute; reflexivity|]). lia.
Qed.

Lemma is_pad_b64char n : n < 64 -> is_pad (b64char n) = false.
Proof.
  revert n. apply below_64_cases. intros k Hk.
  do 64 (destruct k as [|k]; [vm_compute; reflexivity|]). lia.
Qed.

Lemma sextets3_bound a b c s1 s2 s3 s4 :
  a < 256 -> b < 256 -> c < 256 ->
  sextets3 a b c = (s1, s2, s3, s4) ->
  s1 < 64 /\ s2 < 64 /\ s3 < 64 /\ s4 < 64.
Proof.
  unfold sextets3. intros Ha Hb Hc [= <- <- <- <-]. repeat split; lia.
Qed.

Lemma sextets3_bytes a b c s1 s2 s3 s4 :
  a < 256 -> b < 256 -> c < 256 ->
  sextets3 a b c = (s1, s2, s3, s4) ->
  (s1 * 4 + s2 / 16) mod 256 = a /\
  ((s2 mod 16) * 16 + s3 / 4) mod 256 = b /\
  ((s3 mod 4) * 64 + s4) mod 256 = c.
Proof.
  unfold sextets3. intros Ha Hb Hc [= <- <- <- <-]. repeat split; lia.
Qed.

Lemma byte_bound (a : ascii) : N_of_ascii a < 256.
Proof. apply N_ascii_bounded. Qed.

(** Induction three characters at a time, as [toBase64] recurses. *)
Lemma string_ind3 (P : string -> Prop) :
  P EmptyString ->
  (forall a, P (String a EmptyString)) ->
  (forall a b, P (String a (String b EmptyString))) ->
  (forall a b c rest, P rest -> P (String a (String b (String c rest)))) ->
  forall s, P s.
Proof.
  intros H0 H1 H2 H3.
  assert (forall s, P s /\ (forall a, P (String a s)) /\ (forall a b, P (String a (String b s))))
    as Hall.
  { induction s as [|c s (IH0 & IH1 & IH2)].
    - auto.
    - repeat split; auto. }
  intros s. apply Hall.
Qed.

Lemma toBase64_nonempty s : s <> EmptyString -> toBase64 s <> EmptyString.
Proof.
  destruct s as [|a [|b [|c rest]]]; intros Hs; [congruence| | |];
    cbn [toBase64]; destruct sextets3 as [[[? ?] ?] ?]; discriminate.
Qed.

Lemma group_decodes a b c s1 s2 s3 s4 :
  sextets3 (N_of_ascii a) (N_of_ascii b) (N_of_ascii c) = (s1, s2, s3, s4) ->
  byte1 s1 s2 = a /\ byte2 s2 s3 = b /\ byte3 s3 s4 = c.
Proof.
  intros E.
  destruct (sextets3_bytes _ _ _ _ _ _ _ (byte_bound a) (byte_bound b) (byte_bound c) E)
    as (E1 & E2 & E3).
  unfold byte1, byte2, byte3. rewrite E1, E2, E3.
  rewrite !ascii_N_embedding. auto.
Qed.

(** [fromBase64] is a left inverse of [toBase64]. *)
Lemma fromBase64_toBase64 s : fromBase64 (toBase64 s) = Some s.
Proof.
  induction s as [|a|a b|a b c rest IH] using string_ind3.
  - reflexivity.
  - cbn [toBase64].
    destruct (sextets3 (N_of_ascii a) 0 0) as [[[s1 s2] s3] s4] eqn:E.
    assert (N_of_ascii "000" = 0) as Z0 by reflexivity.
    rewrite <- Z0 in E.
    destruct (sextets3_bound _ _ _ _ _ _ _ (byte_bound a) (byte_bound _) (byte_bound _) E)
      as (B1 & B2 & B3 & B4).
    destruct (group_decodes _ _ _ _ _ _ _ E) as (D1 & D2 & D3).
    cbn [fromBase64]. rewrite !b64val_b64char by assumption.
    replace (is_pad pad) with true by reflexivity. cbn. rewrite D1. reflexivity.
  - cbn [toBase64].
    destruct (sextets3 (N_of_ascii a) (N_of_ascii b) 0) as [[[s1 s2] s3] s4] eqn:E.
    assert (N_of_ascii "000" = 0) as Z0 by reflexivity.
    rewrite <- Z0 in E.
    destruct (sextets3_bound _ _ _ _ _ _ _ (byte_bound a) (byte_bound b) (byte_bound _) E)
      as (B1 & B2 & B3 & B4).
    destruct (group_decodes _ _ _ _ _ _ _ E) as (D1 & D2 & D3).
    cbn [fromBase64]. rewrite !b64val_b64char by assumption.
    rewrite is_pad_b64char by assumption.
    replace (is_pad pad) with true by reflexivity. cbn. rewrite D1, D2. reflexivity.
  - cbn [toBase64].
    destruct (sextets3 (N_of_ascii a) (N_of_ascii b) (N_of_ascii c))
      as [[[s1 s2] s3] s4] eqn:E.
    destruct (sextets3_bound _ _ _ _ _ _ _ (byte_bound a) (byte_bound b) (byte_bound c) E)
      as (B1 & B2 & B3 & B4).
    destruct (group_decodes _ _ _ _ _ _ _ E) as (D1 & D2 & D3).
    cbn [fromBase64]. rewrite !b64val_b64char by assumption.
    rewrite !is_pad_b64char by assumption.
    rewrite IH, D1, D2, D3. reflexivity.
Qed.

End Base64Facts.

(* ===================================================================== *)
(** * Facts: JSON texts *)
(* ===================================================================== *)

Module JsonFacts.

(** Induction on a value with the hypothesis for every element and member. *)
Lemma json_ind (P : json -> Prop) :
  P JNull ->
  (forall b, P (JBool b)) ->
  (forall n, P (JNumber n)) ->
  (forall s, P (JString s)) ->
  (forall l, Forall P l -> P (JArray l)) ->
  (forall l, Forall (fun kv => P (snd kv)) l -> P (JObject l)) ->
  forall v, P v.
Proof.
  intros Hnull Hbool Hnum Hstr Harr Hobj.
  fix IH 1. intros [ | b | n | s | l | l ].
  - exact Hnull.
  - apply Hbool.
  - apply Hnum.
  - apply Hstr.
  - apply Harr. induction l as [|x l IHl]; constructor; [apply IH | exact IHl].
  - apply Hobj. induction l as [|[k x] l IHl]; constructor; [apply IH | exact IHl].
Qed.

Lemma stringify_array l : stringify (JArray l) = "[" ++ elements_text l ++ "]".
Proof. reflexivity. Qed.

Lemma stringify_object l : stringify (JObject l) = "{" ++ fields_text l ++ "}".
Proof. reflexivity. Qed.

Lemma json_size_array l : json_size (JArray l) = S (element_sizes l).
Proof. reflexivity. Qed.

Lemma json_size_object l : json_size (JObject l) = S (member_sizes l).
Proof. reflexivity. Qed.

Lemma append_cons (x : ascii) (a b : string) : String x a ++ b = String x (a ++ b).
Proof. reflexivity. Qed.

Lemma append_nil_l (b : string) : EmptyString ++ b = b.
Proof. reflexivity. Qed.

Lemma append_assoc (a b c : string) : (a ++ b) ++ c = a ++ (b ++ c).
Proof.
  induction a as [|x a IH]; [reflexivity|].
  rewrite !append_cons, IH. reflexivity.
Qed.

Lemma append_nil_r (a : string) : a ++ EmptyString = a.
Proof.
  induction a as [|x a IH]; [reflexivity|].
  rewrite append_cons, IH. reflexivity.
Qed.

Lemma length_append (a b : string) :
  String.length (a ++ b) = (String.length a + String.length b)%nat.
Proof.
  induction a as [|x a IH]; [reflexivity|].
  rewrite append_cons. cbn [String.length]. rewrite IH. reflexivity.
Qed.

(** *** String literals *)

Lemma parse_chars_escape_char c tail :
  parse_chars (escape_char c ++ tail) = prepend (String c EmptyString) (parse_chars tail).
Proof.
  destruct c as [[] [] [] [] [] [] [] []]; try reflexivity;
    destruct tail as [|b [|u [|l1 [|l2 [|l3 [|l4 r3]]]]]]; reflexivity.
Qed.

Lemma parse_chars_quote_chars s rest :
  parse_chars (quote_chars s ++ String dquote rest) = Some (s, rest).
Proof.
  induction s as [|c s IH].
  - reflexivity.
  - cbn [quote_chars]. rewrite append_assoc, parse_chars_escape_char, IH. reflexivity.
Qed.

(** *** Numbers *)

Lemma delimited_no_digit rest : delimited rest -> read_digits rest = (Nil, rest).
Proof.
  destruct rest as [|c r]; [reflexivity|].
  intros [-> | [-> | ->]]; reflexivity.
Qed.

Lemma delimited_no_fraction rest : delimited rest -> starts_fraction rest = false.
Proof.
  destruct rest as [|c r]; [reflexivity|].
  intros [-> | [-> | ->]]; reflexivity.
Qed.

Lemma delimited_skip_ws rest : delimited rest -> skip_ws rest = rest.
Proof.
  destruct rest as [|c r]; [reflexivity|].
  intros [-> | [-> | ->]]; reflexivity.
Qed.

Lemma read_digits_text u rest :
  delimited rest ->
  read_digits (NilEmpty.string_of_uint u ++ rest) = (u, rest).
Proof.
  intros Hrest.
  induction u; cbn [NilEmpty.string_of_uint];
    [ now apply delimited_no_digit | rewrite append_cons .. ];
    cbn [read_digits];
    first [ change (digit_of "0") with (Some D0) | change (digit_of "1") with (Some D1)
          | change (digit_of "2") with (Some D2) | change (digit_of "3") with (Some D3)
          | change (digit_of "4") with (Some D4) | change (digit_of "5") with (Some D5)
          | change (digit_of "6") with (Some D6) | change (digit_of "7") with (Some D7)
          | change (digit_of "8") with (Some D8) | change (digit_of "9") with (Some D9) ];
    rewrite IHu; reflexivity.
Qed.

(** The decimal digits of a positive number do not start with a zero. *)
Lemma to_uint_head p :
  match Pos.to_uint p with
  | Nil | D0 _ => False
  | _ => True
  end.
Proof.
  pose proof (DecimalPos.Unsigned.to_uint_nonzero p) as Hnz.
  pose proof (DecimalPos.Unsigned.to_uint_nonnil p) as Hnn.
  pose proof (DecimalN.Unsigned.to_of (Pos.to_uint p)) as Hnorm.
  change (N.of_uint (Pos.to_uint p)) with (Pos.of_uint (Pos.to_uint p)) in Hnorm.
  rewrite DecimalPos.Unsigned.of_to in Hnorm.
  change (N.to_uint (N.pos p)) with (Pos.to_uint p) in Hnorm.
  destruct (Pos.to_uint p) as [|u|u|u|u|u|u|u|u|u|u]; try exact I.
  - congruence.
  - unfold unorm in Hnorm. rewrite nzhead_D0 in Hnorm.
    destruct (nzhead u) as [|u0|u0|u0|u0|u0|u0|u0|u0|u0|u0] eqn:E; try discriminate.
    + injection Hnorm as ->. now apply Hnz.
    + now apply (nzhead_nonzero u u0).
Qed.

Lemma parse_digits_text p rest :
  delimited rest ->
  parse_digits (NilEmpty.string_of_uint (Pos.to_uint p) ++ rest) = Some (Pos.to_uint p, rest).
Proof.
  intros Hrest. pose proof (to_uint_head p) as Hhead.
  pose proof (read_digits_text (Pos.to_uint p) rest Hrest) as Hread.
  destruct (Pos.to_uint p) as [|u|u|u|u|u|u|u|u|u|u]; try contradiction;
    cbn [NilEmpty.string_of_uint] in *; rewrite append_cons in *;
    unfold parse_digits;
    first [ change (digit_of "1") with (Some D1) | change (digit_of "2") with (Some D2)
          | change (digit_of "3") with (Some D3) | change (digit_of "4") with (Some D4)
          | change (digit_of "5") with (Some D5) | change (digit_of "6") with (Some D6)
          | change (digit_of "7") with (Some D7) | change (digit_of "8") with (Some D8)
          | change (digit_of "9") with (Some D9) ];
    cbn [Ascii.eqb Bool.eqb]; rewrite Hread, (delimited_no_fraction rest Hrest);
    reflexivity.
Qed.

Lemma number_text_pos p :
  number_text (Z.pos p) = NilEmpty.string_of_uint (Pos.to_uint p).
Proof.
  unfold number_text. cbn [Z.to_int NilZero.string_of_int]. unfold NilZero.string_of_uint.
  pose proof (to_uint_head p). destruct (Pos.to_uint p); [contradiction | reflexivity ..].
Qed.

Lemma number_text_neg p :
  number_text (Z.neg p) = String "-" (NilEmpty.string_of_uint (Pos.to_uint p)).
Proof.
  unfold number_text. cbn [Z.to_int NilZero.string_of_int]. unfold NilZero.string_of_uint.
  pose proof (to_uint_head p). destruct (Pos.to_uint p); [contradiction | reflexivity ..].
Qed.

Lemma uint_text_head p :
  exists c r, NilEmpty.string_of_uint (Pos.to_uint p) = String c r /\
              number_head c = true /\ Ascii.eqb c "-" = false.
Proof.
  pose proof (to_uint_head p).
  destruct (Pos.to_uint p); try contradiction; cbn [NilEmpty.string_of_uint];
    eexists _, _; (split; [reflexivity | split; reflexivity]).
Qed.

Lemma number_text_head n :
  exists c r, number_text n = String c r /\ number_head c = true.
Proof.
  destruct n as [|p|p].
  - exists "0"%char, EmptyString. split; reflexivity.
  - rewrite number_text_pos. destruct (uint_text_head p) as (c & r & E & H & _). eauto.
  - rewrite number_text_neg. eexists _, _. split; reflexivity.
Qed.

Lemma parse_number_text n rest :
  delimited rest -> parse_number (number_text n ++ rest) = Some (n, rest).
Proof.
  intros Hrest. destruct n as [|p|p].
  - change (number_text 0) with "0". rewrite append_cons, append_nil_l.
    unfold parse_number, parse_digits. cbn [Ascii.eqb Bool.eqb].
    change (digit_of "0") with (Some D0).
    rewrite (delimited_no_fraction rest Hrest). reflexivity.
  - rewrite number_text_pos.
    pose proof (parse_digits_text p rest Hrest) as Hd.
    destruct (uint_text_head p) as (c & r & E & _ & Hsign).
    rewrite E in *. rewrite append_cons in *.
    unfold parse_number. rewrite Hsign, Hd.
    change (Z.of_int (Pos (Pos.to_uint p))) with (Z.of_int (Z.to_int (Z.pos p))).
    rewrite DecimalZ.of_to. reflexivity.
  - rewrite number_text_neg, append_cons.
    unfold parse_number. cbn [Ascii.eqb Bool.eqb].
    rewrite (parse_digits_text p rest Hrest).
    change (Z.of_int (Neg (Pos.to_uint p))) with (Z.of_int (Z.to_int (Z.neg p))).
    rewrite DecimalZ.of_to. reflexivity.
Qed.

(** *** Values *)

Lemma value_head_facts c :
  value_head c = true ->
  is_ws c = false /\ Ascii.eqb c "]" = false /\ Ascii.eqb c "}" = false.
Proof.
  destruct c as [[] [] [] [] [] [] [] []]; intros H; try discriminate H;
    repeat split; reflexivity.
Qed.

Lemma parse_value_number fuel c r :
  number_head c = true ->
  parse_value (S fuel) (String c r) =
  match parse_number (String c r) with
  | Some (n, rest) => Some (JNumber n, rest)
  | None => None
  end.
Proof.
  destruct c as [[] [] [] [] [] [] [] []]; intros H; try discriminate H; reflexivity.
Qed.

Lemma stringify_head v :
  exists c r, stringify v = String c r /\ value_head c = true.
Proof.
  destruct v as [ | [] | n | s | l | l ].
  - eexists _, _. split; reflexivity.
  - eexists _, _. split; reflexivity.
  - eexists _, _. split; reflexivity.
  - destruct (number_text_head n) as (c & r & E & H).
    exists c, r. split; [exact E|].
    unfold value_head. rewrite H. now rewrite !orb_true_r.
  - eexists _, _. split; reflexivity.
  - rewrite stringify_array. eexists _, _. split; reflexivity.
  - rewrite stringify_object. eexists _, _. split; reflexivity.
Qed.

Lemma elements_text_cons x y l :
  elements_text (x :: y :: l) = stringify x ++ "," ++ elements_text (y :: l).
Proof. reflexivity. Qed.

Lemma fields_text_cons k x kv l :
  fields_text ((k, x) :: kv :: l) =
  quote k ++ ":" ++ stringify x ++ "," ++ fields_text (kv :: l).
Proof. destruct kv. reflexivity. Qed.

Lemma parse_elements_S fuel s :
  parse_elements (S fuel) s =
  match parse_value fuel s with
  | Some (v, r) =>
      match skip_ws r with
      | String c r' =>
          if Ascii.eqb c "," then
            match parse_elements fuel r' with
            | Some (l, rest) => Some (v :: l, rest)
            | None => None
            end
          else if Ascii.eqb c "]" then Some ([v], r')
          else None
      | EmptyString => None
      end
  | None => None
  end.
Proof. reflexivity. Qed.

Lemma parse_elements_text l :
  Forall parses_back l -> l <> [] ->
  forall fuel rest,
    (element_sizes l <= fuel)%nat ->
    parse_elements fuel (elements_text l ++ String "]" rest) = Some (l, rest).
Proof.
  induction 1 as [|x l Hx Hl IH]; [congruence|]. intros _ fuel rest Hfuel.
  cbn [element_sizes] in Hfuel.
  destruct fuel as [|fuel]; [lia|]. rewrite parse_elements_S.
  destruct l as [|y l].
  - cbn [elements_text].
    rewrite (Hx fuel (String "]" rest)) by first [lia | cbn; auto].
    reflexivity.
  - rewrite elements_text_cons, !append_assoc, append_cons, append_nil_l.
    rewrite (Hx fuel) by first [lia | cbn; auto].
    cbn [skip_ws]. change (is_ws ",") with false. cbn iota.
    cbn [Ascii.eqb Bool.eqb].
    rewrite IH by (try congruence; cbn [element_sizes] in *; lia).
    reflexivity.
Qed.

Lemma parse_members_S fuel r :
  parse_members (S fuel) (String dquote r) =
  match parse_chars r with
  | Some (k, r1) =>
      match skip_ws r1 with
      | String colon r2 =>
          if Ascii.eqb colon ":" then
            match parse_value fuel r2 with
            | Some (v, r3) =>
                match skip_ws r3 with
                | String c r4 =>
                    if Ascii.eqb c "," then
                      match parse_members fuel r4 with
                      | Some (l, rest) => Some ((k, v) :: l, rest)
                      | None => None
                      end
                    else if Ascii.eqb c "}" then Some ([(k, v)], r4)
                    else None
                | EmptyString => None
                end
            | None => None
            end
          else None
      | EmptyString => None
      end
  | None => None
  end.
Proof. reflexivity. Qed.

Lemma quote_append k tail :
  quote k ++ tail = String dquote (quote_chars k ++ String dquote tail).
Proof.
  unfold quote. rewrite append_cons, append_assoc, append_cons, append_nil_l. reflexivity.
Qed.

Lemma parse_members_text l :
  Forall (fun kv => parses_back (snd kv)) l -> l <> [] ->
  forall fuel rest,
    (member_sizes l <= fuel)%nat ->
    parse_members fuel (fields_text l ++ String "}" rest) = Some (l, rest).
Proof.
  induction 1 as [|[k x] l Hx Hl IH]; [congruence|]. intros _ fuel rest Hfuel.
  cbn [member_sizes] in Hfuel. cbn [snd] in Hx.
  destruct fuel as [|fuel]; [lia|].
  destruct l as [|kv l].
  - cbn [fields_text].
    rewrite !append_assoc, quote_append, append_cons, append_nil_l.
    rewrite parse_members_S, parse_chars_quote_chars.
    cbn [skip_ws]. change (is_ws ":") with false. cbn iota. cbn [Ascii.eqb Bool.eqb].
    rewrite (Hx fuel (String "}" rest)) by first [lia | cbn; auto].
    reflexivity.
  - rewrite fields_text_cons, !append_assoc, quote_append, append_cons, append_nil_l.
    rewrite (append_cons "," EmptyString), append_nil_l.
    rewrite parse_members_S, parse_chars_quote_chars.
    cbn [skip_ws]. change (is_ws ":") with false. cbn iota. cbn [Ascii.eqb Bool.eqb].
    rewrite (Hx fuel) by first [lia | cbn; auto].
    cbn [skip_ws]. change (is_ws ",") with false. cbn iota. cbn [Ascii.eqb Bool.eqb].
    rewrite IH by (try congruence; destruct kv; cbn [member_sizes] in *; lia).
    reflexivity.
Qed.

Lemma elements_text_head x l :
  exists c r, elements_text (x :: l) = String c r /\ value_head c = true.
Proof.
  destruct (stringify_head x) as (c & r & E & H).
  destruct l as [|y l].
  - exists c, r. auto.
  - rewrite elements_text_cons, E, append_cons. eauto.
Qed.

Lemma fields_text_head kv l :
  exists r, fields_text (kv :: l) = String dquote r.
Proof.
  destruct kv as [k x]. destruct l as [|kv' l].
  - cbn [fields_text]. rewrite quote_append. eauto.
  - rewrite fields_text_cons, quote_append. eauto.
Qed.

Lemma parse_value_array fuel r :
  parse_value (S fuel) (String "[" r) =
  match skip_ws r with
  | String c' r' =>
      if Ascii.eqb c' "]" then Some (JArray [], r')
      else
        match parse_elements fuel r with
        | Some (l, rest) => Some (JArray l, rest)
        | None => None
        end
  | EmptyString => None
  end.
Proof. reflexivity. Qed.

Lemma parse_value_object fuel r :
  parse_value (S fuel) (String "{" r) =
  match skip_ws r with
  | String c' r' =>
      if Ascii.eqb c' "}" then Some (JObject [], r')
      else
        match parse_members fuel r with
        | Some (l, rest) => Some (JObject l, rest)
        | None => None
        end
  | EmptyString => None
  end.
Proof. reflexivity. Qed.

Lemma parse_value_string fuel r :
  parse_value (S fuel) (String dquote r) =
  match parse_chars r with
  | Some (str, rest) => Some (JString str, rest)
  | None => None
  end.
Proof. reflexivity. Qed.

(** Parsing the text of a value, followed by a delimiter, gives the value
    back and stops at the delimiter. *)
Lemma parse_value_stringify v : parses_back v.
Proof.
  induction v as [ | b | n | s | l IH | l IH ] using json_ind;
    intros fuel rest Hfuel Hrest;
    (destruct fuel as [|fuel]; [cbn in Hfuel; lia|]).
  - reflexivity.
  - destruct b; reflexivity.
  - cbn [stringify].
    destruct (number_text_head n) as (c & r & E & H).
    pose proof (parse_number_text n rest Hrest) as Hn.
    rewrite E in *. rewrite append_cons in *.
    rewrite parse_value_number by exact H. rewrite Hn. reflexivity.
  - cbn [stringify]. rewrite quote_append, parse_value_string, parse_chars_quote_chars.
    reflexivity.
  - rewrite stringify_array, !append_assoc, !append_cons, !append_nil_l.
    rewrite parse_value_array.
    rewrite json_size_array in Hfuel.
    destruct l as [|x l].
    + reflexivity.
    + pose proof (parse_elements_text (x :: l) IH ltac:(congruence) fuel rest
                    ltac:(lia)) as Hl.
      destruct (elements_text_head x l) as (c & r & E & H).
      destruct (value_head_facts c H) as (Hws & Hclose & _).
      rewrite E in *. rewrite append_cons in *.
      cbn [skip_ws]. rewrite Hws, Hclose, Hl. reflexivity.
  - rewrite stringify_object, !append_assoc, !append_cons, !append_nil_l.
    rewrite parse_value_object.
    rewrite json_size_object in Hfuel.
    destruct l as [|kv l].
    + reflexivity.
    + pose proof (parse_members_text (kv :: l) IH ltac:(congruence) fuel rest
                    ltac:(lia)) as Hl.
      destruct (fields_text_head kv l) as (r & E).
      rewrite E in *. rewrite append_cons in *.
      cbn [skip_ws]. change (is_ws dquote) with false. cbn iota.
      change (Ascii.eqb dquote "}") with false. cbn iota.
      rewrite Hl. reflexivity.
Qed.

(** *** The bound on the recursion *)

Lemma elements_text_length l :
  Forall (fun v => json_size v <= String.length (stringify v))%nat l ->
  (element_sizes l <= String.length (elements_text l) + 1)%nat.
Proof.
  induction 1 as [|x l Hx Hl IH]; [cbn; lia|].
  destruct l as [|y l].
  - cbn [element_sizes elements_text]. lia.
  - rewrite elements_text_cons, !length_append.
    cbn [element_sizes] in *. cbn [String.length]. lia.
Qed.

Lemma fields_text_length l :
  Forall (fun kv => json_size (snd kv) <= String.length (stringify (snd kv)))%nat l ->
  (member_sizes l <= String.length (fields_text l) + 1)%nat.
Proof.
  induction 1 as [|[k x] l Hx Hl IH]; [cbn; lia|]. cbn [snd] in Hx.
  destruct l as [|kv l].
  - cbn [member_sizes fields_text]. rewrite !length_append. cbn [String.length]. lia.
  - rewrite fields_text_cons, !length_append.
    destruct kv as [k' y]. cbn [member_sizes] in *. cbn [String.length]. lia.
Qed.

Lemma json_size_le_length v : (json_size v <= String.length (stringify v))%nat.
Proof.
  induction v as [ | b | n | s | l IH | l IH ] using json_ind.
  - cbn. lia.
  - destruct b; cbn; lia.
  - cbn [stringify json_size].
    destruct (number_text_head n) as (c & r & -> & _). cbn [String.length]. lia.
  - cbn [stringify json_size]. unfold quote. cbn [String.length]. lia.
  - rewrite stringify_array, json_size_array, !length_append.
    pose proof (elements_text_length l IH). cbn [String.length]. lia.
  - rewrite stringify_object, json_size_object, !length_append.
    pose proof (fields_text_length l IH). cbn [String.length]. lia.
Qed.

(** [JSON.parse] is a left inverse of [JSON.stringify]. *)
Lemma JSON_parse_stringify v : JSON_parse (stringify v) = Some v.
Proof.
  unfold JSON_parse.
  pose proof (parse_value_stringify v (S (String.length (stringify v))) EmptyString) as H.
  rewrite append_nil_r in H. rewrite H.
  - reflexivity.
  - pose proof (json_size_le_length v). lia.
  - exact I.
Qed.

Lemma stringify_nonempty v : stringify v <> EmptyString.
Proof. destruct (stringify_head v) as (c & r & -> & _). discriminate. Qed.

(** *** The bound of [JSON_parse] is enough for every text *)

Local Abbreviation len := String.length.

Lemma skip_ws_length s : (len (skip_ws s) <= len s)%nat.
Proof.
  induction s as [|c s IH]; [reflexivity|].
  cbn [skip_ws]. destruct (is_ws c); cbn [String.length] in *; lia.
Qed.

Lemma strip_literal_length word s r :
  strip_literal word s = Some r -> (len r <= len s)%nat.
Proof.
  revert s. induction word as [|a word IH]; intros s H.
  - cbn in H. injection H as <-. lia.
  - destruct s as [|b s]; [discriminate|]. cbn [strip_literal] in H.
    destruct (Ascii.eqb a b); [|discriminate].
    apply IH in H. cbn [String.length]. lia.
Qed.

Lemma expect_length word v s v' r :
  expect word v s = Some (v', r) -> (len r <= len s)%nat.
Proof.
  unfold expect. destruct (strip_literal word s) eqn:E; [|discriminate].
  intros [= _ <-]. now apply strip_literal_length in E.
Qed.

Lemma prepend_Some pre x str r :
  prepend pre x = Some (str, r) -> exists str', x = Some (str', r).
Proof.
  unfold prepend. destruct x as [[s' r']|]; [|discriminate].
  intros [= _ <-]. eauto.
Qed.

Lemma parse_chars_length n :
  forall s str r, (len s <= n)%nat -> parse_chars s = Some (str, r) -> (len r < len s)%nat.
Proof.
  induction n as [|n IH]; intros s str r Hn H.
  - destruct s; [discriminate | cbn in Hn; lia].
  - destruct s as [|c s]; [discriminate|]. cbn [parse_chars] in H.
    cbn [String.length] in *.
    destruct (Ascii.eqb c dquote); [injection H as _ <-; lia|].
    destruct (Ascii.eqb c backslash).
    + destruct s as [|e r1]; [discriminate|]. cbn [String.length] in *.
      destruct (Ascii.eqb e "u").
      * destruct r1 as [|h1 [|h2 [|h3 [|h4 r2]]]]; try discriminate.
        cbn [String.length] in *.
        destruct (hex4 h1 h2 h3 h4) as [hi|]; [|discriminate].
        assert (forall pre, prepend pre (parse_chars r2) = Some (str, r) ->
                            (len r < len r2)%nat) as Hr2.
        { intros pre Hp. apply prepend_Some in Hp as [str' Hp].
          apply (IH r2 str' r); [lia | exact Hp]. }
        destruct r2 as [|b [|u [|l1 [|l2 [|l3 [|l4 r3]]]]]];
          try (apply Hr2 in H; cbn [String.length] in *; lia).
        destruct (low_surrogate_after hi b u l1 l2 l3 l4).
        -- apply prepend_Some in H as [str' H].
           apply IH in H; cbn [String.length] in *; lia.
        -- apply Hr2 in H. cbn [String.length] in *; lia.
      * destruct (simple_escape e); [|discriminate].
        apply prepend_Some in H as [str' H]. apply IH in H; lia.
    + destruct (N_of_ascii c <? 32)%N; [discriminate|].
      apply prepend_Some in H as [str' H]. apply IH in H; lia.
Qed.

Lemma parse_chars_shorter s str r :
  parse_chars s = Some (str, r) -> (len r < len s)%nat.
Proof. apply (parse_chars_length (len s)). lia. Qed.

Lemma read_digits_length s u r : read_digits s = (u, r) -> (len r <= len s)%nat.
Proof.
  revert u r. induction s as [|c s IH]; intros u r H.
  - injection H as _ <-. lia.
  - cbn [read_digits] in H. destruct (digit_of c).
    + destruct (read_digits s) as [u' r'] eqn:E. injection H as _ <-.
      specialize (IH _ _ eq_refl). cbn [String.length]. lia.
    + injection H as _ <-. lia.
Qed.

Lemma parse_digits_length s u r : parse_digits s = Some (u, r) -> (len r < len s)%nat.
Proof.
  unfold parse_digits. destruct s as [|c s]; [discriminate|].
  destruct (digit_of c) eqn:Hd; [|discriminate].
  destruct (Ascii.eqb c "0").
  - destruct (starts_fraction s); [discriminate|]. intros [= _ <-]. cbn. lia.
  - destruct (read_digits (String c s)) as [u' r'] eqn:E.
    destruct (starts_fraction r'); [discriminate|]. intros [= _ <-].
    cbn [read_digits] in E. rewrite Hd in E.
    destruct (read_digits s) as [u2 r2] eqn:E2. injection E as _ <-.
    apply read_digits_length in E2. cbn. lia.
Qed.

Lemma parse_number_length s n r : parse_number s = Some (n, r) -> (len r < len s)%nat.
Proof.
  unfold parse_number. destruct s as [|c s]; [discriminate|].
  destruct (Ascii.eqb c "-").
  - destruct (parse_digits s) as [[u r']|] eqn:E; [|discriminate].
    intros [= _ <-]. apply parse_digits_length in E. cbn. lia.
  - destruct (parse_digits (String c s)) as [[u r']|] eqn:E; [|discriminate].
    intros [= _ <-]. now apply parse_digits_length in E.
Qed.

Lemma parse_value_eq fuel s :
  parse_value (S fuel) s =
  match skip_ws s with
  | EmptyString => None
  | String c r =>
      if Ascii.eqb c "n" then expect "ull" JNull r
      else if Ascii.eqb c "t" then expect "rue" (JBool true) r
      else if Ascii.eqb c "f" then expect "alse" (JBool false) r
      else if Ascii.eqb c dquote then
        match parse_chars r with
        | Some (str, rest) => Some (JString str, rest)
        | None => None
        end
      else if Ascii.eqb c "[" then
        match skip_ws r with
        | String c' r' =>
            if Ascii.eqb c' "]" then Some (JArray [], r')
            else
              match parse_elements fuel r with
              | Some (l, rest) => Some (JArray l, rest)
              | None => None
              end
        | EmptyString => None
        end
      else if Ascii.eqb c "{" then
        match skip_ws r with
        | String c' r' =>
            if Ascii.eqb c' "}" then Some (JObject [], r')
            else
              match parse_members fuel r with
              | Some (l, rest) => Some (JObject l, rest)
              | None => None
              end
        | EmptyString => None
        end
      else
        match parse_number (String c r) with
        | Some (n, rest) => Some (JNumber n, rest)
        | None => None
        end
  end.
Proof. reflexivity. Qed.

Lemma parse_members_eq fuel s :
  parse_members (S fuel) s =
  match skip_ws s with
  | String q r =>
      if Ascii.eqb q dquote then
        match parse_chars r with
        | Some (k, r1) =>
            match skip_ws r1 with
            | String colon r2 =>
                if Ascii.eqb colon ":" then
                  match parse_value fuel r2 with
                  | Some (v, r3) =>
                      match skip_ws r3 with
                      | String c r4 =>
                          if Ascii.eqb c "," then
                            match parse_members fuel r4 with
                            | Some (l, rest) => Some ((k, v) :: l, rest)
                            | None => None
                            end
                          else if Ascii.eqb c "}" then Some ([(k, v)], r4)
                          else None
                      | EmptyString => None
                      end
                  | None => None
                  end
                else None
            | EmptyString => None
            end
        | None => None
        end
      else None
  | EmptyString => None
  end.
Proof. reflexivity. Qed.

Lemma adequate_value_S f :
  adequate_elements f -> adequate_members f -> adequate_value (S f).
Proof.
  intros IHe IHm s v r H. rewrite parse_value_eq in H.
  pose proof (skip_ws_length s) as Hws.
  destruct (skip_ws s) as [|c s1] eqn:Es; [discriminate|]. cbn [String.length] in Hws.
  destruct (Ascii.eqb c "n") eqn:Cn.
  { pose proof (expect_length _ _ _ _ _ H). split; [lia|].
    intros [|g] Hg; [lia|]. now rewrite parse_value_eq, Es, Cn. }
  destruct (Ascii.eqb c "t") eqn:Ct.
  { pose proof (expect_length _ _ _ _ _ H). split; [lia|].
    intros [|g] Hg; [lia|]. now rewrite parse_value_eq, Es, Cn, Ct. }
  destruct (Ascii.eqb c "f") eqn:Cf.
  { pose proof (expect_length _ _ _ _ _ H). split; [lia|].
    intros [|g] Hg; [lia|]. now rewrite parse_value_eq, Es, Cn, Ct, Cf. }
  destruct (Ascii.eqb c dquote) eqn:Cq.
  { destruct (parse_chars s1) as [[str rest]|] eqn:E; [|discriminate].
    injection H as <- <-. apply parse_chars_shorter in E as Hl. split; [lia|].
    intros [|g] Hg; [lia|]. now rewrite parse_value_eq, Es, Cn, Ct, Cf, Cq, E. }
  destruct (Ascii.eqb c "[") eqn:Ca.
  { pose proof (skip_ws_length s1) as Hws1.
    destruct (skip_ws s1) as [|c' r'] eqn:Es1; [discriminate|].
    cbn [String.length] in Hws1.
    destruct (Ascii.eqb c' "]") eqn:Cc.
    - injection H as <- <-. split; [lia|].
      intros [|g] Hg; [lia|]. now rewrite parse_value_eq, Es, Cn, Ct, Cf, Cq, Ca, Es1, Cc.
    - destruct (parse_elements f s1) as [[l rest]|] eqn:E; [|discriminate].
      injection H as <- <-. apply IHe in E as [Hl Hf]. split; [lia|].
      intros [|g] Hg; [lia|].
      rewrite parse_value_eq, Es, Cn, Ct, Cf, Cq, Ca, Es1, Cc, Hf by lia. reflexivity. }
  destruct (Ascii.eqb c "{") eqn:Co.
  { pose proof (skip_ws_length s1) as Hws1.
    destruct (skip_ws s1) as [|c' r'] eqn:Es1; [discriminate|].
    cbn [String.length] in Hws1.
    destruct (Ascii.eqb c' "}") eqn:Cc.
    - injection H as <- <-. split; [lia|].
      intros [|g] Hg; [lia|].
      now rewrite parse_value_eq, Es, Cn, Ct, Cf, Cq, Ca, Co, Es1, Cc.
    - destruct (parse_members f s1) as [[l rest]|] eqn:E; [|discriminate].
      injection H as <- <-. apply IHm in E as [Hl Hf]. split; [lia|].
      intros [|g] Hg; [lia|].
      rewrite parse_value_eq, Es, Cn, Ct, Cf, Cq, Ca, Co, Es1, Cc, Hf by lia.
      reflexivity. }
  destruct (parse_number (String c s1)) as [[n rest]|] eqn:E; [|discriminate].
  injection H as <- <-. apply parse_number_length in E as Hl.
  cbn [String.length] in Hl. split; [lia|].
  intros [|g] Hg; [lia|]. now rewrite parse_value_eq, Es, Cn, Ct, Cf, Cq, Ca, Co, E.
Qed.

Lemma adequate_elements_S f :
  adequate_value f -> adequate_elements f -> adequate_elements (S f).
Proof.
  intros IHv IHe s l r H. rewrite parse_elements_S in H.
  destruct (parse_value f s) as [[v r1]|] eqn:Ev; [|discriminate].
  apply IHv in Ev as [Hl1 Hf1].
  pose proof (skip_ws_length r1) as Hws.
  destruct (skip_ws r1) as [|c r2] eqn:Es; [discriminate|]. cbn [String.length] in Hws.
  destruct (Ascii.eqb c ",") eqn:Cc.
  - destruct (parse_elements f r2) as [[l' rest]|] eqn:Ee; [|discriminate].
    injection H as <- <-. apply IHe in Ee as [Hl2 Hf2]. split; [lia|].
    intros [|g] Hg; [lia|].
    rewrite parse_elements_S, Hf1, Es, Cc, Hf2 by lia. reflexivity.
  - destruct (Ascii.eqb c "]") eqn:Cb; [|discriminate].
    injection H as <- <-. split; [lia|].
    intros [|g] Hg; [lia|].
    rewrite parse_elements_S, Hf1, Es, Cc, Cb by lia. reflexivity.
Qed.

Lemma adequate_members_S f :
  adequate_value f -> adequate_members f -> adequate_members (S f).
Proof.
  intros IHv IHm s l r H. rewrite parse_members_eq in H.
  pose proof (skip_ws_length s) as Hws0.
  destruct (skip_ws s) as [|q s1] eqn:Es0; [discriminate|]. cbn [String.length] in Hws0.
  destruct (Ascii.eqb q dquote) eqn:Cq; [|discriminate].
  destruct (parse_chars s1) as [[k r1]|] eqn:Ek; [|discriminate].
  apply parse_chars_shorter in Ek as Hlk.
  pose proof (skip_ws_length r1) as Hws1.
  destruct (skip_ws r1) as [|colon r2] eqn:Es1; [discriminate|].
  cbn [String.length] in Hws1.
  destruct (Ascii.eqb colon ":") eqn:Cc; [|discriminate].
  destruct (parse_value f r2) as [[v r3]|] eqn:Ev; [|discriminate].
  apply IHv in Ev as [Hl1 Hf1].
  pose proof (skip_ws_length r3) as Hws3.
  destruct (skip_ws r3) as [|c r4] eqn:Es3; [discriminate|]. cbn [String.length] in Hws3.
  destruct (Ascii.eqb c ",") eqn:Cm.
  - destruct (parse_members f r4) as [[l' rest]|] eqn:Em; [|discriminate].
    injection H as <- <-. apply IHm in Em as [Hl2 Hf2]. split; [lia|].
    intros [|g] Hg; [lia|].
    rewrite parse_members_eq, Es0, Cq, Ek, Es1, Cc, Hf1, Es3, Cm, Hf2 by lia. reflexivity.
  - destruct (Ascii.eqb c "}") eqn:Cb; [|discriminate].
    injection H as <- <-. split; [lia|].
    intros [|g] Hg; [lia|].
    rewrite parse_members_eq, Es0, Cq, Ek, Es1, Cc, Hf1, Es3, Cm, Cb by lia. reflexivity.
Qed.

Lemma adequate_all f : adequate_value f /\ adequate_elements f /\ adequate_members f.
Proof.
  induction f as [|f (IHv & IHe & IHm)].
  - split; [|split]; intros s x r Hp; discriminate Hp.
  - split; [|split].
    + now apply adequate_value_S.
    + now apply adequate_elements_S.
    + now apply adequate_members_S.
Qed.

(** The bound of [JSON_parse] loses nothing: what any amount of fuel
    parses, the length of the text parses too. *)
Lemma parse_value_enough fuel s v r :
  parse_value fuel s = Some (v, r) -> parse_value (S (len s)) s = Some (v, r).
Proof.
  intros H. destruct (adequate_all fuel) as (Hv & _).
  apply Hv in H as [_ Hf]. apply Hf. lia.
Qed.

End JsonFacts.

(* ===================================================================== *)
(** * Facts: token codec *)
(* ===================================================================== *)

Module CodecFacts.
Import Base64 Base64Facts JsonFacts.

Lemma parsePublicDataToken_empty :
  parsePublicDataToken EmptyString =
  inl (Error "[parsePublicDataToken] Failed: token is empty").
Proof. reflexivity. Qed.

Lemma parsePublicDataToken_nonempty token :
  token <> EmptyString ->
  parsePublicDataToken token =
  match fromBase64 token with
  | None => inl Base64DecodeError
  | Some publicDataStr =>
      match JSON_parse publicDataStr with
      | Some pd => inr {| publicData := pd |}
      | None => inl (Error (parse_failure_prefix ++ publicDataStr))
      end
  end.
Proof.
  intros Hne. unfold parsePublicDataToken.
  destruct (String.eqb_spec token EmptyString) as [->|_]; [congruence | reflexivity].
Qed.

(** Decoding the token of any JSON value gives the value back. *)
Lemma parsePublicDataToken_toBase64_stringify v :
  parsePublicDataToken (toBase64 (stringify v)) = inr {| publicData := v |}.
Proof.
  rewrite parsePublicDataToken_nonempty
    by (apply toBase64_nonempty, stringify_nonempty).
  rewrite fromBase64_toBase64, JSON_parse_stringify. reflexivity.
Qed.

(** C5: for every public-data record, decoding the base64 encoding of its
    JSON serialization returns the record: decode (encode pd) = pd. *)
Theorem parsePublicDataToken_encodePublicData (pd : PublicData) :
  parsePublicDataToken (encodePublicData pd) =
  inr {| publicData := json_of_PublicData pd |}.
Proof. apply parsePublicDataToken_toBase64_stringify. Qed.

Lemma includes_suffix (pre d : string) : includes (pre ++ d) d.
Proof. exists pre, EmptyString. now rewrite append_nil_r. Qed.

Lemma includes_empty (m : string) : includes m EmptyString.
Proof. exists EmptyString, m. reflexivity. Qed.

(** C6, as the code has it: decoding the empty token fails with the Error
    of the assertion, before anything is decoded; decoding the base64 of
    "not json" fails with the Error whose message ends with "not json";
    and the decoding of a token fails in exactly three ways: the token is
    empty, with the Error of the assertion; or its base64 decoding fails,
    with the exception of the base64 decoder and no decoded text; or its
    base64 text [d] is not JSON, with the Error whose message is the prefix
    followed by [d]. *)
Theorem parsePublicDataToken_failures (token : string) (e : exn) :
  parsePublicDataToken EmptyString =
    inl (Error "[parsePublicDataToken] Failed: token is empty") /\
  parsePublicDataToken (toBase64 "not json") =
    inl (Error "[parsePublicDataToken] Failed to parse publicDataStr: not json") /\
  (parsePublicDataToken token = inl e <->
   (token = EmptyString /\
    e = Error "[parsePublicDataToken] Failed: token is empty") \/
   (token <> EmptyString /\ fromBase64 token = None /\ e = Base64DecodeError) \/
   (exists d, token <> EmptyString /\ fromBase64 token = Some d /\
              JSON_parse d = None /\
              e = Error (parse_failure_prefix ++ d) /\
              includes (parse_failure_prefix ++ d) d)).
Proof.
  split; [reflexivity|]. split; [reflexivity|]. split.
  - intros He. destruct (String.eqb_spec token EmptyString) as [->|Hne].
    + left. rewrite parsePublicDataToken_empty in He. injection He as <-. now split.
    + right. rewrite parsePublicDataToken_nonempty in He by exact Hne.
      destruct (fromBase64 token) as [d|] eqn:Hd.
      * right. exists d. destruct (JSON_parse d) eqn:Hj; [discriminate|].
        injection He as <-. repeat split; try assumption. apply includes_suffix.
      * left. injection He as <-. now repeat split.
  - intros [[-> ->]|[(Hne & Hd & ->)|(d & Hne & Hd & Hj & -> & _)]].
    + apply parsePublicDataToken_empty.
    + now rewrite parsePublicDataToken_nonempty, Hd by exact Hne.
    + now rewrite parsePublicDataToken_nonempty, Hd, Hj by exact Hne.
Qed.

Lemma parsePublicDataToken_failures_witness :
  parsePublicDataToken "bm90IGpzb24=" =
    inl (Error "[parsePublicDataToken] Failed to parse publicDataStr: not json") /\
  (("bm90IGpzb24=" = EmptyString /\
    Error "[parsePublicDataToken] Failed to parse publicDataStr: not json" =
      Error "[parsePublicDataToken] Failed: token is empty") \/
   ("bm90IGpzb24=" <> EmptyString /\ fromBase64 "bm90IGpzb24=" = None /\
    Error "[parsePublicDataToken] Failed to parse publicDataStr: not json" =
      Base64DecodeError) \/
   (exists d, "bm90IGpzb24=" <> EmptyString /\ fromBase64 "bm90IGpzb24=" = Some d /\
              JSON_parse d = None /\
              Error "[parsePublicDataToken] Failed to parse publicDataStr: not json" =
                Error (parse_failure_prefix ++ d) /\
              includes (parse_failure_prefix ++ d) d)).
Proof.
  assert (parsePublicDataToken "bm90IGpzb24=" =
            inl (Error "[parsePublicDataToken] Failed to parse publicDataStr: not json"))
    as H1 by reflexivity.
  split; [exact H1|].
  exact (proj1 (proj2 (proj2 (parsePublicDataToken_failures "bm90IGpzb24="
           (Error "[parsePublicDataToken] Failed to parse publicDataStr: not json")))) H1).
Defined.

(** C6 as stated fails: the token "!!!!" is no base64, so no text is
    decoded; the decoding fails with the exception of the base64 decoder,
    which is not the Error of [parsePublicDataToken] and carries no decoded
    text. *)
Theorem parsePublicDataToken_base64_failure :
  fromBase64 "!!!!" = None /\
  parsePublicDataToken "!!!!" = inl Base64DecodeError /\
  forall m, parsePublicDataToken "!!!!" <> inl (Error m).
Proof.
  assert (parsePublicDataToken "!!!!" = inl Base64DecodeError) as H by reflexivity.
  split; [reflexivity|]. split; [exact H|]. intros m. rewrite H. discriminate.
Qed.

End CodecFacts.

(* ===================================================================== *)
(** * Facts: the public-data store *)
(* ===================================================================== *)

Section StoreFacts.

Variable K : Constants.

Local Abbreviation COOKIE := (COOKIE_PUBLIC_DATA_TOKEN K).
Local Abbreviation MIRROR := (LOCALSTORAGE_PUBLIC_DATA_TOKEN K).

(** ** The session-token read *)

Lemma getToken_cookie w c items :
  cookies w !! COOKIE = Some c -> c <> EmptyString ->
  localStorage w = Some items ->
  getToken K w = (inr (Some c), set_localStorage (<[MIRROR := c]> items) w).
Proof.
  intros Hc Hne Hs. unfold getToken, try_catch, bind, readCookie.
  rewrite Hc. cbn [truthy_string].
  destruct (String.eqb_spec c EmptyString) as [->|_]; [congruence|]. cbn [negb].
  unfold localStorage_setItem. rewrite Hs. reflexivity.
Qed.

Lemma getToken_mirror w items :
  truthy_string (cookies w !! COOKIE) = false ->
  localStorage w = Some items ->
  getToken K w = (inr (items !! MIRROR), w).
Proof.
  intros Hc Hs. unfold getToken, try_catch, bind, readCookie.
  destruct (cookies w !! COOKIE) as [c|] eqn:E.
  - rewrite Hc. unfold localStorage_getItem. rewrite Hs. reflexivity.
  - unfold localStorage_getItem. rewrite Hs. reflexivity.
Qed.

Lemma getToken_unavailable w :
  localStorage w = None ->
  getToken K w =
  (inr None, set_console (fun l => (l ++ [storage_unavailable_line])%list) w).
Proof.
  intros Hs. unfold getToken, try_catch, bind, readCookie.
  destruct (cookies w !! COOKIE) as [c|] eqn:E.
  - destruct (truthy_string (Some c));
      unfold localStorage_setItem, localStorage_getItem; rewrite Hs; reflexivity.
  - unfold localStorage_getItem. rewrite Hs. reflexivity.
Qed.

(** The read never throws, and returns the token that the stores hold. *)
Lemma getToken_token_view w :
  exists w', getToken K w = (inr (token_view K w), w') /\
             cookies w' = cookies w /\
             token_view K w' = token_view K w /\
             observers w' = observers w /\ delivered w' = delivered w /\
             store_created w' = store_created w /\
             next_observer w' = next_observer w /\ clock w' = clock w /\
             (localStorage w = None -> localStorage w' = None) /\
             (forall k, k <> MIRROR -> stored k w' = stored k w).
Proof.
  unfold token_view.
  destruct (localStorage w) as [items|] eqn:Hs.
  - destruct (truthy_string (cookies w !! COOKIE)) eqn:Ht.
    + destruct (cookies w !! COOKIE) as [c|] eqn:Hc; [|discriminate].
      assert (c <> EmptyString) as Hne.
      { intros ->. discriminate. }
      rewrite (getToken_cookie w c items Hc Hne Hs).
      eexists. split; [reflexivity|]. cbn. rewrite Hc, Ht.
      repeat split; try congruence.
      intros k Hk. unfold stored. cbn. rewrite Hs. now rewrite lookup_insert_ne.
    + rewrite (getToken_mirror w items Ht Hs).
      eexists. split; [reflexivity|]. rewrite Hs, Ht. repeat split; congruence.
  - rewrite (getToken_unavailable w Hs).
    eexists. split; [reflexivity|]. cbn. rewrite Hs. repeat split.
Qed.

(** C2: for every pair of worlds whose mirror holds [b], one with the
    cookie holding a value [a] and one without the cookie: the read of the
    first returns [a] and leaves [a] in the mirror, other items and the
    cookies untouched; the read of the second returns [b] and changes
    nothing. *)
Theorem getToken_dual_storage (w1 w2 : World) (a b : string) :
  a <> EmptyString ->
  cookies w1 !! COOKIE = Some a -> stored MIRROR w1 = Some b ->
  cookies w2 !! COOKIE = None -> stored MIRROR w2 = Some b ->
  (exists w1', getToken K w1 = (inr (Some a), w1') /\
               stored MIRROR w1' = Some a /\
               cookies w1' = cookies w1 /\
               forall k, k <> MIRROR -> stored k w1' = stored k w1) /\
  getToken K w2 = (inr (Some b), w2).
Proof.
  intros Ha Hc1 Hm1 Hc2 Hm2. unfold stored in Hm1, Hm2. split.
  - destruct (localStorage w1) as [items|] eqn:Hs; [|discriminate].
    rewrite (getToken_cookie w1 a items Hc1 Ha Hs).
    eexists. split; [reflexivity|]. unfold stored. cbn. repeat split.
    + apply lookup_insert_eq.
    + intros k Hk. rewrite Hs. now rewrite lookup_insert_ne.
  - destruct (localStorage w2) as [items|] eqn:Hs; [|discriminate].
    rewrite (getToken_mirror w2 items); [now rewrite Hm2 | now rewrite Hc2 | exact Hs].
Qed.

(** ** getData *)

Lemma getData_session w :
  exists w', getData K w = (session_of (token_view K w), w') /\
             cookies w' = cookies w /\
             token_view K w' = token_view K w /\
             observers w' = observers w /\ delivered w' = delivered w /\
             store_created w' = store_created w /\
             next_observer w' = next_observer w /\ clock w' = clock w /\
             (localStorage w = None -> localStorage w' = None) /\
             (forall k, k <> MIRROR -> stored k w' = stored k w).
Proof.
  destruct (getToken_token_view w) as (w' & Hg & Hframe).
  exists w'. split; [|exact Hframe].
  unfold getData, bind. rewrite Hg. unfold session_of.
  destruct (token_view K w) as [t|]; [|reflexivity].
  destruct (truthy_string (Some t)); [|reflexivity].
  destruct (parsePublicDataToken t); reflexivity.
Qed.

(** C4: for every pair of worlds, one where the session-token read yields
    no token and one where it yields a token whose decoding fails with
    [e]: [getData] returns EmptyPublicData in the first and throws [e]
    in the second. *)
Theorem getData_empty_or_decode_error (w1 w2 : World)
    (tok1 : option string) (t : string) (e : exn) :
  fst (getToken K w1) = inr tok1 -> truthy_string tok1 = false ->
  fst (getToken K w2) = inr (Some t) -> t <> EmptyString ->
  parsePublicDataToken t = inl e ->
  fst (getData K w1) = inr emptyPublicData /\ fst (getData K w2) = inl e.
Proof.
  intros H1 Hf H2 Hne He.
  destruct (getToken_token_view w1) as (w1' & Hg1 & _).
  destruct (getToken_token_view w2) as (w2' & Hg2 & _).
  rewrite Hg1 in H1. rewrite Hg2 in H2. cbn in H1, H2.
  injection H1 as H1. injection H2 as H2.
  destruct (getData_session w1) as (v1 & -> & _).
  destruct (getData_session w2) as (v2 & -> & _).
  cbn [fst]. rewrite H1, H2. unfold session_of. split.
  - destruct tok1 as [x|]; [|reflexivity]. now rewrite Hf.
  - cbn [truthy_string]. destruct (String.eqb_spec t EmptyString); [congruence|].
    cbn [negb]. now rewrite He.
Qed.

(** ** updateState *)

Lemma timestamp_of_number_text z : timestamp_of (Some (number_text z)) = Some z.
Proof.
  unfold timestamp_of, number_text. rewrite NilZero.isi.
  - cbn beta iota. now rewrite DecimalZ.of_to.
  - destruct z as [|p|p]; cbn [Z.to_int]; intros [= H].
    now apply (DecimalPos.Unsigned.to_uint_nonnil p).
  - destruct z as [|p|p]; cbn [Z.to_int]; intros [= H].
    now apply (DecimalPos.Unsigned.to_uint_nonnil p).
Qed.

Lemma write_eventKey_suppressed opts w :
  suppresses opts = true -> write_eventKey K opts w = (inr tt, w).
Proof. intros H. unfold write_eventKey. rewrite H. reflexivity. Qed.

Lemma write_eventKey_available opts w items :
  suppresses opts = false -> localStorage w = Some items ->
  write_eventKey K opts w =
  (inr tt, set_localStorage (<[eventKey K := number_text (clock w)]> items) w).
Proof.
  intros H Hs. unfold write_eventKey. rewrite H. cbn [negb].
  unfold try_catch, bind, Date_now_toString, localStorage_setItem.
  rewrite Hs. reflexivity.
Qed.

Lemma write_eventKey_unavailable opts w :
  suppresses opts = false -> localStorage w = None ->
  write_eventKey K opts w =
  (inr tt, set_console (fun l => (l ++ [storage_unavailable_line])%list) w).
Proof.
  intros H Hs. unfold write_eventKey. rewrite H. cbn [negb].
  unfold try_catch, bind, Date_now_toString, localStorage_setItem.
  rewrite Hs. reflexivity.
Qed.

(** The message to the other tabs never throws and touches neither the
    cookies, nor the subscribers, nor any item but the broadcast key. *)
Lemma write_eventKey_frame opts w :
  exists w1, write_eventKey K opts w = (inr tt, w1) /\
             cookies w1 = cookies w /\
             observers w1 = observers w /\ delivered w1 = delivered w /\
             (localStorage w = None -> localStorage w1 = None) /\
             (forall k, k <> eventKey K -> stored k w1 = stored k w) /\
             (eventKey K <> MIRROR -> token_view K w1 = token_view K w).
Proof.
  destruct (suppresses opts) eqn:Hsup.
  - rewrite (write_eventKey_suppressed opts w Hsup).
    eexists. split; [reflexivity|]. repeat split; auto.
  - destruct (localStorage w) as [items|] eqn:Hs.
    + rewrite (write_eventKey_available opts w items Hsup Hs).
      eexists. split; [reflexivity|]. repeat split; try discriminate.
      * intros k Hk. unfold stored. cbn. rewrite Hs. now rewrite lookup_insert_ne.
      * intros Hk. unfold token_view. cbn. rewrite Hs. now rewrite lookup_insert_ne.
    + rewrite (write_eventKey_unavailable opts w Hsup Hs).
      eexists. split; [reflexivity|]. repeat split.
      intros _. unfold token_view. cbn. now rewrite Hs.
Qed.

Lemma value_or_getData_value v :
  v <> JNull -> value_or_getData K (Some v) = ret v.
Proof. destruct v; congruence || reflexivity. Qed.

(** [emitted], by the token in the stores. *)
Let emitted_tv (value : option json) (w : World) : result json :=
  match value with
  | None | Some JNull => session_of (token_view K w)
  | Some v => inr v
  end.

Lemma emitted_token_view value w : emitted K value w = emitted_tv value w.
Proof.
  unfold emitted, emitted_tv. destruct (getData_session w) as (w' & -> & _).
  reflexivity.
Qed.

Lemma updateState_emitted value opts w :
  eventKey K <> MIRROR ->
  match emitted K value w with
  | inr v =>
      exists w', updateState K value opts w = (inr tt, w') /\
                 delivered w' = (delivered w ++ map (fun o => (o, v)) (observers w))%list /\
                 cookies w' = cookies w /\
                 token_view K w' = token_view K w /\
                 (forall k, k <> eventKey K -> k <> MIRROR -> stored k w' = stored k w)
  | inl e =>
      exists w', updateState K value opts w = (inl e, w') /\
                 delivered w' = delivered w
  end.
Proof.
  intros Hk. rewrite emitted_token_view.
  destruct (write_eventKey_frame opts w) as (w1 & Hw & Hc1 & Ho1 & Hd1 & _ & Hs1 & Ht1).
  specialize (Ht1 Hk).
  destruct (getData_session w1) as (w2 & Hg & Hc2 & Ht2 & Ho2 & Hd2 & _ & _ & _ & _ & Hs2).
  assert (forall v, emitted_tv value w = inr v ->
            exists w', (v' <- value_or_getData K value ;; observable_next v') w1 = (inr tt, w') /\
              delivered w' = (delivered w ++ map (fun o => (o, v)) (observers w))%list /\
              cookies w' = cookies w /\ token_view K w' = token_view K w /\
              (forall k, k <> eventKey K -> k <> MIRROR -> stored k w' = stored k w)) as Hok.
  { intros v Hv.
    assert (value_or_getData K value w1 = (inr v, w1) \/
            value_or_getData K value w1 = (inr v, w2)) as [Hval|Hval].
    { unfold emitted_tv in Hv.
      destruct value as [[]|]; cbn [value_or_getData];
        try (injection Hv as <-; left; reflexivity);
        right; rewrite Hg, Ht1, Hv; reflexivity. }
    - unfold bind. rewrite Hval. unfold observable_next. eexists.
      split; [reflexivity|]. split; [|split; [|split]].
      + cbn. now rewrite Ho1, Hd1.
      + exact Hc1.
      + exact Ht1.
      + intros k Hk1 Hk2. now apply Hs1.
    - unfold bind. rewrite Hval. unfold observable_next. eexists.
      split; [reflexivity|]. split; [|split; [|split]].
      + cbn. now rewrite Ho2, Hd2, Ho1, Hd1.
      + cbn. congruence.
      + change (token_view K w2 = token_view K w). congruence.
      + intros k Hk1 Hk2. change (stored k w2 = stored k w).
        rewrite Hs2 by exact Hk2. now apply Hs1. }
  destruct (emitted_tv value w) as [e|v] eqn:He.
  - exists w2. unfold updateState, bind at 1. rewrite Hw.
    assert (value_or_getData K value w1 = (inl e, w2)) as Hval.
    { unfold emitted_tv in He.
      destruct value as [[]|]; cbn [value_or_getData]; try discriminate;
        rewrite Hg, Ht1, He; reflexivity. }
    unfold bind. rewrite Hval. split; [reflexivity | congruence].
  - destruct (Hok v eq_refl) as (w' & Hrun & Hrest).
    exists w'. unfold updateState, bind at 1. rewrite Hw. split; [exact Hrun | exact Hrest].
Qed.

Lemma delivered_since_app w w' (l : list (nat * json)) :
  delivered w' = (delivered w ++ l)%list -> delivered_since w w' = l.
Proof. intros H. unfold delivered_since. rewrite H. apply drop_app_length. Qed.

(** Among the notifications of one emission, each subscription finds its
    own, once. *)
Lemma received_emission (v : json) (l : list nat) (o : nat) :
  NoDup l -> o ∈ l -> received o (map (fun o' => (o', v)) l) = [v].
Proof.
  unfold received. induction 1 as [|x l Hx Hl IH]; intros Ho.
  - inversion Ho.
  - cbn [map List.filter fst]. destruct (Nat.eqb_spec x o) as [->|Hne].
    + cbn [map snd]. f_equal.
      clear IH Ho Hl. induction l as [|y l IH]; [reflexivity|].
      cbn [map List.filter fst]. destruct (Nat.eqb_spec y o) as [->|_].
      * exfalso. apply Hx. left.
      * apply IH. intros Hin. apply Hx. now right.
    + apply IH. inversion Ho; subst; [congruence | assumption].
Qed.

(** C3, as the code has it: for every value and every world,
    [updateState(value, {suppressEvent: true})] notifies the subscribers
    and leaves localStorage, hence the broadcast key, unchanged;
    [updateState(value)] notifies the subscribers and, when localStorage
    can be used, sets the broadcast key to the time of the clock, which is
    greater than the time it held whenever that one is earlier than the
    clock; when localStorage cannot be used, nothing is written and one
    line is logged on the console. *)
Theorem updateState_broadcast_key (w : World) (pd : PublicData) :
  let v := json_of_PublicData pd in
  (exists w', updateState K (Some v) (Some {| suppressEvent := true |}) w = (inr tt, w') /\
              delivered_since w w' = map (fun o => (o, v)) (observers w) /\
              localStorage w' = localStorage w) /\
  (exists w', updateState K (Some v) None w = (inr tt, w') /\
              delivered_since w w' = map (fun o => (o, v)) (observers w) /\
              match localStorage w with
              | Some _ => timestamp_of (stored (eventKey K) w') = Some (clock w)
              | None =>
                  localStorage w' = None /\
                  console w' = (console w ++ [storage_unavailable_line])%list
              end /\
              forall t, timestamp_of (stored (eventKey K) w) = Some t ->
                        (t < clock w)%Z ->
                        exists t', timestamp_of (stored (eventKey K) w') = Some t' /\
                                   (t < t')%Z).
Proof.
  intros v. split.
  - unfold updateState, bind. rewrite write_eventKey_suppressed by reflexivity.
    rewrite value_or_getData_value by discriminate.
    eexists. split; [reflexivity|]. split; [|reflexivity].
    now apply delivered_since_app.
  - unfold updateState, bind.
    destruct (localStorage w) as [items|] eqn:Hs.
    + rewrite (write_eventKey_available None w items) by (reflexivity || assumption).
      rewrite value_or_getData_value by discriminate.
      eexists. split; [reflexivity|].
      assert (stored (eventKey K)
                (set_delivered
                   (fun d => (d ++ map (fun o => (o, v))
                      (observers (set_localStorage
                         (<[eventKey K := number_text (clock w)]> items) w)))%list)
                   (set_localStorage (<[eventKey K := number_text (clock w)]> items) w))
              = Some (number_text (clock w))) as Hkey.
      { unfold stored. cbn. apply lookup_insert_eq. }
      split; [now apply delivered_since_app|]. split.
      * rewrite Hkey. apply timestamp_of_number_text.
      * intros t _ Ht. exists (clock w). rewrite Hkey.
        split; [apply timestamp_of_number_text | exact Ht].
    + rewrite (write_eventKey_unavailable None w) by (reflexivity || assumption).
      rewrite value_or_getData_value by discriminate.
      eexists. split; [reflexivity|].
      split; [now apply delivered_since_app|]. split.
      * split; [cbn; exact Hs | reflexivity].
      * intros t Ht _. unfold stored in Ht. rewrite Hs in Ht. discriminate.
Qed.

(** C10, as the code has it: for every call of [updateState], when a
    value is supplied, or none is and [getData] returns, every
    subscription receives exactly one notification, with that value,
    whether or not the broadcast key could be written; when none is
    supplied and [getData] throws, [updateState] throws the same and
    notifies nobody. Without localStorage the emission always happens. *)
Theorem updateState_local_emission
    (w : World) (value : option json) (opts : option UpdateOptions) :
  eventKey K <> MIRROR -> NoDup (observers w) ->
  match emitted K value w with
  | inr v =>
      exists w', updateState K value opts w = (inr tt, w') /\
                 delivered_since w w' = map (fun o => (o, v)) (observers w) /\
                 forall o, o ∈ observers w ->
                           received o (delivered_since w w') = [v]
  | inl e =>
      exists w', updateState K value opts w = (inl e, w') /\
                 delivered_since w w' = []
  end /\
  (localStorage w = None -> exists v, emitted K value w = inr v).
Proof.
  intros Hk Hnd. split.
  - pose proof (updateState_emitted value opts w Hk) as H.
    destruct (emitted K value w) as [e|v].
    + destruct H as (w' & Hrun & Hd). exists w'. split; [exact Hrun|].
      apply delivered_since_app. now rewrite app_nil_r.
    + destruct H as (w' & Hrun & Hd & _). exists w'. split; [exact Hrun|].
      rewrite (delivered_since_app _ _ _ Hd). split; [reflexivity|].
      intros o Ho. now apply received_emission.
  - intros Hs. rewrite emitted_token_view. unfold emitted_tv, token_view.
    rewrite Hs. cbn [session_of]. destruct value as [[]|]; eauto.
Qed.

(** ** clear *)

Lemma token_view_no_cookie w :
  cookies w !! COOKIE = None -> token_view K w = stored MIRROR w.
Proof. intros Hc. unfold token_view, stored. now rewrite Hc. Qed.

(** The first two statements of [clear]: afterwards neither store holds
    the session token. *)
Lemma clear_stores w :
  exists w1,
    (deleteCookie COOKIE ;;;
     try_catch (localStorage_removeItem MIRROR)
               (fun err => console_error storage_unavailable_line)) w = (inr tt, w1) /\
    cookies w1 !! COOKIE = None /\ stored MIRROR w1 = None /\
    observers w1 = observers w /\ delivered w1 = delivered w.
Proof.
  unfold bind, deleteCookie, try_catch, localStorage_removeItem.
  cbn [localStorage set_cookies].
  destruct (localStorage w) as [items|] eqn:Hs.
  - eexists. split; [reflexivity|]. unfold stored. cbn.
    repeat split; apply lookup_delete_eq.
  - eexists. split; [reflexivity|]. unfold stored. cbn. rewrite Hs.
    repeat split. apply lookup_delete_eq.
Qed.

(** C1: for every world, with any subscriptions, [clear] returns and
    leaves the session cookie absent and the mirror absent; [getData]
    then returns EmptyPublicData; and every subscription has received
    exactly one notification, of EmptyPublicData. *)
Theorem clear_logs_out (w : World) :
  eventKey K <> MIRROR -> NoDup (observers w) ->
  exists w', clear K w = (inr tt, w') /\
             cookies w' !! COOKIE = None /\
             stored MIRROR w' = None /\
             fst (getData K w') = inr emptyPublicData /\
             delivered_since w w' = map (fun o => (o, emptyPublicData)) (observers w) /\
             forall o, o ∈ observers w ->
                       received o (delivered_since w w') = [emptyPublicData].
Proof.
  intros Hk Hnd.
  destruct (clear_stores w) as (w1 & Hrun1 & Hc1 & Hm1 & Ho1 & Hd1).
  pose proof (updateState_emitted (Some emptyPublicData) None w1 Hk) as H.
  cbn [emitted emptyPublicData] in H.
  destruct H as (w' & Hrun & Hd & Hc & Ht & _).
  assert (cookies w' !! COOKIE = None) as Hc' by now rewrite Hc.
  assert (stored MIRROR w' = None) as Hm'.
  { rewrite <- (token_view_no_cookie w' Hc'), Ht, (token_view_no_cookie w1 Hc1).
    exact Hm1. }
  exists w'. split; [|split; [exact Hc'|split; [exact Hm'|split]]].
  - unfold clear.
    change (deleteCookie COOKIE ;;;
            try_catch (localStorage_removeItem MIRROR)
              (fun err => console_error storage_unavailable_line) ;;;
            updateState K (Some emptyPublicData) None)
      with (fun w0 =>
              match deleteCookie COOKIE w0 with
              | (inr _, wa) =>
                  match try_catch (localStorage_removeItem MIRROR)
                          (fun err => console_error storage_unavailable_line) wa with
                  | (inr _, wb) => updateState K (Some emptyPublicData) None wb
                  | (inl e, wb) => (inl e, wb)
                  end
              | (inl e, wa) => (inl e, wa)
              end).
    cbv beta.
    unfold bind in Hrun1.
    destruct (deleteCookie COOKIE w) as [[e|[]] wa]; [discriminate|].
    destruct (try_catch _ _ wa) as [[e|[]] wb]; [discriminate|].
    injection Hrun1 as ->. exact Hrun.
  - destruct (getData_session w') as (w2 & -> & _). cbn [fst].
    rewrite (token_view_no_cookie w' Hc'), Hm'. reflexivity.
  - assert (delivered_since w w' =
            map (fun o => (o, emptyPublicData)) (observers w)) as Hsince.
    { apply delivered_since_app. now rewrite Hd, Hd1, Ho1. }
    split; [exact Hsince|].
    intros o Ho. rewrite Hsince. now apply received_emission.
Qed.

(** ** The anti-CSRF token *)

Lemma backupAntiCSRFToken_unavailable w c :
  cookies w !! COOKIE_CSRF_TOKEN K = Some c -> c <> EmptyString ->
  localStorage w = None ->
  backupAntiCSRFTokenToLocalStorage K w = (inl StorageUnavailable, w).
Proof.
  intros Hc Hne Hs. unfold backupAntiCSRFTokenToLocalStorage, bind, readCookie.
  rewrite Hc. cbn [truthy_string].
  destruct (String.eqb_spec c EmptyString); [congruence|]. cbn [negb].
  unfold localStorage_setItem. now rewrite Hs.
Qed.

Lemma getAntiCSRFToken_unavailable w :
  truthy_string (cookies w !! COOKIE_CSRF_TOKEN K) = false ->
  localStorage w = None ->
  getAntiCSRFToken K w = (inl StorageUnavailable, w).
Proof.
  intros Hc Hs. unfold getAntiCSRFToken, bind, readCookie.
  destruct (cookies w !! COOKIE_CSRF_TOKEN K) as [c|];
    [rewrite Hc|]; unfold localStorage_getItem; now rewrite Hs.
Qed.

(** ** The observable *)

Lemma observable_subscribe_handles w :
  distinct_handles w -> distinct_handles (snd (observable_subscribe w)).
Proof.
  intros [Hnd Hlt]. unfold distinct_handles. cbn. split.
  - apply NoDup_app. split; [exact Hnd|]. split.
    + intros x Hx Hin. apply list_elem_of_singleton in Hin. subst x.
      rewrite Forall_forall in Hlt. apply Hlt in Hx. lia.
    + apply NoDup_singleton.
  - apply Forall_app. split.
    + eapply Forall_impl; [exact Hlt|]. cbn. intros; lia.
    + constructor; [lia | constructor].
Qed.

Lemma observable_unsubscribe_handles h w :
  distinct_handles w -> distinct_handles (snd (observable_unsubscribe h w)).
Proof.
  intros [Hnd Hlt]. unfold distinct_handles. cbn. split.
  - apply NoDup_ListNoDup, List.NoDup_filter, NoDup_ListNoDup. exact Hnd.
  - rewrite List.Forall_forall in *. intros o Ho.
    apply List.filter_In in Ho. now apply Hlt.
Qed.

(** After [unsubscribe], an emission brings that subscription nothing. *)
Lemma unsubscribed_receives_nothing h v w :
  received h (delivered_since
                (snd (observable_unsubscribe h w))
                (snd (observable_next v (snd (observable_unsubscribe h w))))) = [].
Proof.
  unfold delivered_since. cbn. rewrite drop_app_length. unfold received.
  induction (observers w) as [|o l IH]; [reflexivity|].
  cbn [List.filter]. unfold Nat_eqb_neg at 1.
  destruct (Nat.eqb_spec o h) as [->|Hne]; cbn [negb]; [exact IH|].
  cbn [map List.filter fst]. destruct (Nat.eqb_spec o h); [congruence | exact IH].
Qed.

End StoreFacts.

(* ===================================================================== *)
(** * Facts: the authorization gate *)
(* ===================================================================== *)

Section GateFacts.

Variable K : Constants.

Lemma getPublicDataStore_session w s :
  session_of (token_view K w) = inr s ->
  exists w', getPublicDataStore K w = (inr tt, w') /\
             token_view K w' = token_view K w.
Proof.
  intros Hs. unfold getPublicDataStore.
  destruct (store_created w); [eauto|].
  set (w0 := set_observers (fun _ => []) (next_observer w) w).
  assert (token_view K w0 = token_view K w) as Hw0 by reflexivity.
  unfold construct, updateState, bind.
  rewrite write_eventKey_suppressed by reflexivity. cbn [value_or_getData].
  destruct (getData_session K w0) as (w1 & -> & _ & Ht & _).
  rewrite Hw0, Hs. cbn. eexists. split; [reflexivity|].
  change (token_view K w1 = token_view K w). congruence.
Qed.

Lemma store_prop_session k w s :
  session_of (token_view K w) = inr s ->
  exists w', store_prop K k w = (get_prop k s, w') /\
             token_view K w' = token_view K w.
Proof.
  intros Hs. unfold store_prop, bind.
  destruct (getPublicDataStore_session w s Hs) as (w1 & -> & Ht1).
  destruct (getData_session K w1) as (w2 & -> & _ & Ht2 & _).
  rewrite Ht1, Hs. exists w2. split; [|congruence].
  unfold lift. destruct (get_prop k s); reflexivity.
Qed.

(** What the hook does in a mounted component on the client, by the
    session that [getData] returns. *)
Lemma useAuthorizeIf_mounted w s u r role :
  fst (getData K w) = inr s ->
  get_prop "userId" s = inr u -> get_prop "role" s = inr r ->
  fst (useAuthorizeIf K true true (Some true) role w) =
  if negb (truthy u) then inl AuthenticationError
  else if truthy_role role && negb (authorizeRole role r)
       then inl AuthenticationError
       else inr tt.
Proof.
  intros Hg Hu Hr.
  destruct (getData_session K w) as (wg & Hgs & _). rewrite Hgs in Hg. cbn [fst] in Hg.
  unfold useAuthorizeIf. cbn [andb truthy_bool]. unfold bind at 1. unfold bind at 1.
  destruct (store_prop_session "userId" w s Hg) as (w1 & -> & Ht1). rewrite Hu.
  destruct (truthy u) eqn:Htu; cbn [negb andb]; [|reflexivity].
  cbn [ret]. destruct (truthy_role role) eqn:Hrole; cbn [andb]; [|reflexivity].
  unfold bind at 1.
  rewrite <- Ht1 in Hg.
  destruct (store_prop_session "userId" w1 s Hg) as (w2 & -> & Ht2). rewrite Hu, Htu.
  cbn [andb]. unfold bind.
  rewrite <- Ht2 in Hg.
  destruct (store_prop_session "role" w2 s Hg) as (w3 & -> & Ht3). rewrite Hr.
  destruct (authorizeRole role r); reflexivity.
Qed.

End GateFacts.

Section GateScenarios.

Variable K : Constants.

(** C9, as the code has it: in a mounted component on the client,
    [authenticate = true] with a session without a truthy userId raises
    the authentication error; [authenticate = {role: "admin"}] with a
    session of role "user" raises it; [authenticate = {role: "admin"}]
    with a session that has a truthy userId and the role "admin" raises
    nothing. *)
Theorem AuthRoot_authorize_scenarios
    (w1 w2 w3 : World) (s1 s2 s3 : json) (u1 u3 : option json) :
  fst (getData K w1) = inr s1 ->
  get_prop "userId" s1 = inr u1 -> truthy u1 = false ->
  fst (getData K w2) = inr s2 ->
  get_prop "role" s2 = inr (Some (JString "user")) ->
  fst (getData K w3) = inr s3 ->
  get_prop "userId" s3 = inr u3 -> truthy u3 = true ->
  get_prop "role" s3 = inr (Some (JString "admin")) ->
  fst (AuthRoot_authorize K true true Examples.authenticate_true w1)
    = inl AuthenticationError /\
  fst (AuthRoot_authorize K true true Examples.authenticate_admin w2)
    = inl AuthenticationError /\
  fst (AuthRoot_authorize K true true Examples.authenticate_admin w3) = inr tt.
Proof.
  intros Hg1 Hu1 Ht1 Hg2 Hr2 Hg3 Hu3 Ht3 Hr3.
  unfold AuthRoot_authorize. cbn [authenticate authorize_condition authorize_role
    Examples.authenticate_true Examples.authenticate_admin].
  split; [|split].
  - assert (exists r, get_prop "role" s1 = inr r) as [r1 Hr1].
    { destruct s1; try discriminate; cbn; eauto. }
    rewrite (useAuthorizeIf_mounted K w1 s1 u1 r1 None Hg1 Hu1 Hr1).
    now rewrite Ht1.
  - assert (exists u, get_prop "userId" s2 = inr u) as [u2 Hu2].
    { destruct s2; try discriminate; cbn; eauto. }
    rewrite (useAuthorizeIf_mounted K w2 s2 u2 _ _ Hg2 Hu2 Hr2).
    destruct (truthy u2); reflexivity.
  - rewrite (useAuthorizeIf_mounted K w3 s3 u3 _ _ Hg3 Hu3 Hr3).
    rewrite Ht3. reflexivity.
Qed.

End GateScenarios.

Section LayoutFacts.

(** The walk looks at the type of the layout's root at every step, so the
    rules it finds are those of the root or none. *)
Lemma walk_layout_root layout :
  forall currentElement,
    walk_layout layout currentElement =
    if carries_rules (element_type layout) then element_type layout else no_rules.
Proof.
  destruct (carries_rules (element_type layout)) eqn:E.
  - intros [type children]. cbn [walk_layout]. now rewrite E.
  - fix IH 1. intros [type [[child| |]|]]; cbn [walk_layout]; rewrite E;
      [apply IH | reflexivity ..].
Qed.

(** X20: the rules that [getAuthValues] finds for a page are the page's
    own when it carries any, else those of the type of the root of the
    element that [getLayout] returns when that type carries any, else
    none: nothing below the root of the layout is ever consulted. *)
Lemma getAuthValues_root page props :
  getAuthValues (Some page) props =
  if carries_rules (page_rules page) then page_rules page
  else
    match getLayout page with
    | Some f =>
        let type := element_type (f (El (page_rules page) props)) in
        if carries_rules type then type else no_rules
    | None => no_rules
    end.
Proof.
  unfold getAuthValues. destruct (carries_rules (page_rules page)); [reflexivity|].
  destruct (getLayout page) as [f|]; [|reflexivity]. apply walk_layout_root.
Qed.

End LayoutFacts.

Module Scenarios.
Import Examples.

(** C8: a page without rules in a layout whose root carries no rule and
    whose only child is of a type with [authenticate = true]: the code
    finds no rules, where the first element of the chain that carries a
    rule is that child. *)
Theorem getAuthValues_misses_nested_rules :
  getAuthValues (Some page_in_nested_layout) None = no_rules /\
  first_rules_in_chain (nested_layout (El no_rules None)) = authenticate_true.
Proof. split; reflexivity. Qed.

(** C7: with localStorage unavailable, the backup of a CSRF cookie and the
    read of a CSRF token without a cookie let the exception of the storage
    through, while the read of the session token swallows it. *)
Theorem csrf_storage_exception_escapes :
  backupAntiCSRFTokenToLocalStorage K0 w_csrf_no_storage
    = (inl StorageUnavailable, w_csrf_no_storage) /\
  getAntiCSRFToken K0 w_nothing_no_storage
    = (inl StorageUnavailable, w_nothing_no_storage) /\
  fst (getToken K0 w_nothing_no_storage) = inr None.
Proof.
  split; [|split].
  - apply (backupAntiCSRFToken_unavailable K0 w_csrf_no_storage "tok");
      [reflexivity | discriminate | reflexivity].
  - apply (getAntiCSRFToken_unavailable K0 w_nothing_no_storage); reflexivity.
  - reflexivity.
Qed.

Lemma keys_differ : eventKey K0 <> LOCALSTORAGE_PUBLIC_DATA_TOKEN K0.
Proof. intros H. vm_compute in H. discriminate H. Qed.

Lemma NoDup_0_1 : NoDup [0; 1]%nat.
Proof. apply (bool_decide_unpack _). vm_compute. reflexivity. Qed.

Lemma clear_logs_out_witness :
  eventKey K0 <> LOCALSTORAGE_PUBLIC_DATA_TOKEN K0 /\
  NoDup (observers w_logged_in) /\
  exists w', clear K0 w_logged_in = (inr tt, w') /\
             cookies w' !! COOKIE_PUBLIC_DATA_TOKEN K0 = None /\
             stored (LOCALSTORAGE_PUBLIC_DATA_TOKEN K0) w' = None /\
             fst (getData K0 w') = inr emptyPublicData /\
             delivered_since w_logged_in w'
               = map (fun o => (o, emptyPublicData)) (observers w_logged_in) /\
             forall o, o ∈ observers w_logged_in ->
                       received o (delivered_since w_logged_in w') = [emptyPublicData].
Proof.
  split; [exact keys_differ|]. split; [exact NoDup_0_1|].
  apply (clear_logs_out K0 w_logged_in); [exact keys_differ | exact NoDup_0_1].
Defined.

Lemma getToken_dual_storage_witness :
  "A" <> EmptyString /\
  cookies w_cookie_A_mirror_B !! COOKIE_PUBLIC_DATA_TOKEN K0 = Some "A" /\
  stored (LOCALSTORAGE_PUBLIC_DATA_TOKEN K0) w_cookie_A_mirror_B = Some "B" /\
  cookies w_mirror_B !! COOKIE_PUBLIC_DATA_TOKEN K0 = None /\
  stored (LOCALSTORAGE_PUBLIC_DATA_TOKEN K0) w_mirror_B = Some "B" /\
  (exists w1', getToken K0 w_cookie_A_mirror_B = (inr (Some "A"), w1') /\
               stored (LOCALSTORAGE_PUBLIC_DATA_TOKEN K0) w1' = Some "A" /\
               cookies w1' = cookies w_cookie_A_mirror_B /\
               forall k, k <> LOCALSTORAGE_PUBLIC_DATA_TOKEN K0 ->
                         stored k w1' = stored k w_cookie_A_mirror_B) /\
  getToken K0 w_mirror_B = (inr (Some "B"), w_mirror_B).
Proof.
  assert ("A" <> EmptyString) as HA by discriminate.
  assert (cookies w_cookie_A_mirror_B !! COOKIE_PUBLIC_DATA_TOKEN K0 = Some "A")
    as H1 by reflexivity.
  assert (stored (LOCALSTORAGE_PUBLIC_DATA_TOKEN K0) w_cookie_A_mirror_B = Some "B")
    as H2 by reflexivity.
  assert (cookies w_mirror_B !! COOKIE_PUBLIC_DATA_TOKEN K0 = None) as H3 by reflexivity.
  assert (stored (LOCALSTORAGE_PUBLIC_DATA_TOKEN K0) w_mirror_B = Some "B")
    as H4 by reflexivity.
  do 5 (split; [assumption|]).
  exact (getToken_dual_storage K0 w_cookie_A_mirror_B w_mirror_B "A" "B" HA H1 H2 H3 H4).
Defined.

Lemma getData_empty_or_decode_error_witness :
  fst (getToken K0 w_no_token) = inr None /\
  truthy_string None = false /\
  fst (getToken K0 w_not_json) = inr (Some not_json_token) /\
  not_json_token <> EmptyString /\
  parsePublicDataToken not_json_token = inl not_json_error /\
  fst (getData K0 w_no_token) = inr emptyPublicData /\
  fst (getData K0 w_not_json) = inl not_json_error.
Proof.
  assert (fst (getToken K0 w_no_token) = inr None) as H1 by reflexivity.
  assert (fst (getToken K0 w_not_json) = inr (Some not_json_token)) as H2 by reflexivity.
  assert (not_json_token <> EmptyString) as H3 by discriminate.
  assert (parsePublicDataToken not_json_token = inl not_json_error) as H4 by reflexivity.
  do 5 (split; [assumption || reflexivity|]).
  exact (getData_empty_or_decode_error K0 w_no_token w_not_json
           None not_json_token not_json_error H1 eq_refl H2 H3 H4).
Defined.

(** C3 as stated fails: a second [updateState] within the millisecond of
    the first writes the time that the broadcast key already holds. *)
Lemma updateState_same_millisecond :
  fst (updateState K0 (Some (json_of_PublicData user_1)) None w_same_millisecond)
    = inr tt /\
  timestamp_of (stored (eventKey K0) w_same_millisecond) = Some 5%Z /\
  timestamp_of
    (stored (eventKey K0)
       (snd (updateState K0 (Some (json_of_PublicData user_1)) None w_same_millisecond)))
    = Some 5%Z /\
  ~ (5 < 5)%Z.
Proof. repeat split; try (vm_compute; reflexivity). lia. Qed.

Lemma updateState_broadcast_key_witness :
  timestamp_of (stored (eventKey K0) w_later) = Some 5%Z /\
  (5 < clock w_later)%Z /\
  exists w', updateState K0 (Some (json_of_PublicData user_1)) None w_later = (inr tt, w') /\
             exists t', timestamp_of (stored (eventKey K0) w') = Some t' /\ (5 < t')%Z.
Proof.
  assert (timestamp_of (stored (eventKey K0) w_later) = Some 5%Z) as H1 by reflexivity.
  assert (5 < clock w_later)%Z as H2 by (cbn; lia).
  split; [exact H1|]. split; [exact H2|].
  destruct (updateState_broadcast_key K0 w_later user_1)
    as [_ (w' & Hrun & _ & _ & Hlater)].
  exists w'. split; [exact Hrun|]. exact (Hlater 5%Z H1 H2).
Defined.

(** C10 as stated fails: with a token in the cookie that does not decode,
    [updateState()] throws and the subscriber receives nothing. *)
Lemma updateState_decode_error_no_emission :
  observers w_not_json = [0]%nat /\
  fst (updateState K0 None None w_not_json) = inl not_json_error /\
  delivered_since w_not_json (snd (updateState K0 None None w_not_json)) = [].
Proof. repeat split; vm_compute; reflexivity. Qed.

Lemma updateState_local_emission_witness :
  eventKey K0 <> LOCALSTORAGE_PUBLIC_DATA_TOKEN K0 /\
  NoDup (observers w_logged_in_no_storage) /\
  match emitted K0 None w_logged_in_no_storage with
  | inr v =>
      exists w', updateState K0 None None w_logged_in_no_storage = (inr tt, w') /\
                 delivered_since w_logged_in_no_storage w'
                   = map (fun o => (o, v)) (observers w_logged_in_no_storage) /\
                 forall o, o ∈ observers w_logged_in_no_storage ->
                           received o (delivered_since w_logged_in_no_storage w') = [v]
  | inl e =>
      exists w', updateState K0 None None w_logged_in_no_storage = (inl e, w') /\
                 delivered_since w_logged_in_no_storage w' = []
  end /\
  (localStorage w_logged_in_no_storage = None ->
   exists v, emitted K0 None w_logged_in_no_storage = inr v).
Proof.
  split; [exact keys_differ|]. split; [exact NoDup_0_1|].
  exact (updateState_local_emission K0 w_logged_in_no_storage None None
           keys_differ NoDup_0_1).
Defined.

(** C9 as stated fails: a session with the role "admin" and no userId is
    refused by [authenticate = {role: "admin"}]. *)
Lemma authorize_admin_without_userId :
  fst (getData K0 w_admin_nobody) = inr (json_of_PublicData admin_nobody) /\
  get_prop "role" (json_of_PublicData admin_nobody) = inr (Some (JString "admin")) /\
  fst (AuthRoot_authorize K0 true true authenticate_admin w_admin_nobody)
    = inl AuthenticationError.
Proof. repeat split; vm_compute; reflexivity. Qed.

Lemma AuthRoot_authorize_scenarios_witness :
  fst (getData K0 w_no_token) = inr emptyPublicData /\
  get_prop "userId" emptyPublicData = inr (Some JNull) /\
  truthy (Some JNull) = false /\
  fst (getData K0 w_user) = inr (json_of_PublicData user_1) /\
  get_prop "role" (json_of_PublicData user_1) = inr (Some (JString "user")) /\
  fst (getData K0 w_admin) = inr (json_of_PublicData admin_1) /\
  get_prop "userId" (json_of_PublicData admin_1) = inr (Some (JNumber 1)) /\
  truthy (Some (JNumber 1)) = true /\
  get_prop "role" (json_of_PublicData admin_1) = inr (Some (JString "admin")) /\
  fst (AuthRoot_authorize K0 true true authenticate_true w_no_token)
    = inl AuthenticationError /\
  fst (AuthRoot_authorize K0 true true authenticate_admin w_user)
    = inl AuthenticationError /\
  fst (AuthRoot_authorize K0 true true authenticate_admin w_admin) = inr tt.
Proof.
  assert (fst (getData K0 w_no_token) = inr emptyPublicData) as H1 by reflexivity.
  assert (fst (getData K0 w_user) = inr (json_of_PublicData user_1)) as H2
    by (vm_compute; reflexivity).
  assert (fst (getData K0 w_admin) = inr (json_of_PublicData admin_1)) as H3
    by (vm_compute; reflexivity).
  do 9 (split; [assumption || reflexivity|]).
  exact (AuthRoot_authorize_scenarios K0 w_no_token w_user w_admin _ _ _ _ _
           H1 eq_refl eq_refl H2 eq_refl H3 eq_refl eq_refl eq_refl).
Defined.

End Scenarios.

(* ===================================================================== *)
(** * Facts: the two stores of a token, together *)
(* ===================================================================== *)

Section BridgeFacts.

Variable K : Constants.

Local Abbreviation COOKIE := (COOKIE_PUBLIC_DATA_TOKEN K).
Local Abbreviation MIRROR := (LOCALSTORAGE_PUBLIC_DATA_TOKEN K).

Lemma getData_world w : snd (getData K w) = snd (getToken K w).
Proof.
  unfold getData, bind. destruct (getToken K w) as [[e|tok] w1]; [reflexivity|].
  destruct tok as [t|]; [|reflexivity].
  destruct (truthy_string (Some t)); [|reflexivity].
  destruct (parsePublicDataToken t); reflexivity.
Qed.

Lemma getData_result w : fst (getData K w) = session_of (token_view K w).
Proof. destruct (getData_session K w) as (w' & -> & _). reflexivity. Qed.

(** The read leaves the stores as a second read would leave them. *)
Lemma getToken_settles w :
  cookies (snd (getToken K (snd (getToken K w)))) = cookies (snd (getToken K w)) /\
  localStorage (snd (getToken K (snd (getToken K w)))) = localStorage (snd (getToken K w)).
Proof.
  destruct (localStorage w) as [items|] eqn:Hs.
  - destruct (truthy_string (cookies w !! COOKIE)) eqn:Ht.
    + destruct (cookies w !! COOKIE) as [c|] eqn:Hc; [|discriminate].
      assert (c <> EmptyString) as Hne by (intros ->; discriminate).
      rewrite (getToken_cookie K w c items Hc Hne Hs). cbn [snd].
      rewrite (getToken_cookie K _ c (<[MIRROR := c]> items)); [|exact Hc|exact Hne|reflexivity].
      cbn. split; [reflexivity|]. now rewrite insert_insert_eq.
    + rewrite (getToken_mirror K w items Ht Hs). cbn [snd].
      rewrite (getToken_mirror K w items Ht Hs). split; reflexivity.
  - rewrite (getToken_unavailable K w Hs). cbn [snd].
    rewrite getToken_unavailable by exact Hs. split; reflexivity.
Qed.

(** X1: without localStorage the session-token read returns nothing and
    logs one line, whatever the cookie holds, and [getData] returns
    EmptyPublicData. *)
Theorem getData_without_localStorage (w : World) :
  localStorage w = None ->
  getToken K w =
    (inr None, set_console (fun l => (l ++ [storage_unavailable_line])%list) w) /\
  fst (getData K w) = inr emptyPublicData.
Proof.
  intros Hs. split; [now apply getToken_unavailable|].
  rewrite getData_result. unfold token_view. now rewrite Hs.
Qed.

(** X2: once the read has seen a cookie with a value, the value survives
    the loss of the cookie: after the cookie is deleted, the read returns
    the same token, from the mirror. *)
Theorem getToken_survives_cookie_loss (w : World) (a : string) :
  a <> EmptyString ->
  cookies w !! COOKIE = Some a ->
  localStorage w <> None ->
  fst (getToken K (snd (deleteCookie COOKIE (snd (getToken K w))))) = inr (Some a).
Proof.
  intros Ha Hc Hs. destruct (localStorage w) as [items|] eqn:Hl; [|congruence].
  rewrite (getToken_cookie K w a items Hc Ha Hl). cbn [snd deleteCookie].
  rewrite (getToken_mirror K _ (<[MIRROR := a]> items)).
  - cbn [fst]. now rewrite lookup_insert_eq.
  - cbn. now rewrite lookup_delete_eq.
  - reflexivity.
Qed.

(** X3: [getData] read twice gives the same answer twice, and the second
    read leaves the cookies and localStorage as the first left them. *)
Theorem getData_twice (w : World) :
  fst (getData K (snd (getData K w))) = fst (getData K w) /\
  cookies (snd (getData K (snd (getData K w)))) = cookies (snd (getData K w)) /\
  localStorage (snd (getData K (snd (getData K w)))) = localStorage (snd (getData K w)).
Proof.
  split.
  - rewrite !getData_result.
    destruct (getData_session K w) as (w' & -> & _ & Ht & _). cbn [snd]. now rewrite Ht.
  - rewrite !getData_world. apply getToken_settles.
Qed.

End BridgeFacts.

(* ===================================================================== *)
(** * Facts: the store between tabs *)
(* ===================================================================== *)

Section TabFacts.

Variable K : Constants.

Local Abbreviation COOKIE := (COOKIE_PUBLIC_DATA_TOKEN K).
Local Abbreviation MIRROR := (LOCALSTORAGE_PUBLIC_DATA_TOKEN K).
Local Abbreviation quiet := (Some {| suppressEvent := true |}).

(** The token in the stores is a matter of the cookies and localStorage. *)
Lemma token_view_shared w w' :
  cookies w' = cookies w -> localStorage w' = localStorage w ->
  token_view K w' = token_view K w.
Proof. intros Hc Hs. unfold token_view. now rewrite Hc, Hs. Qed.

Lemma getData_shared w w' :
  cookies w' = cookies w -> localStorage w' = localStorage w ->
  fst (getData K w') = fst (getData K w).
Proof. intros Hc Hs. rewrite !getData_result. now rewrite (token_view_shared w w'). Qed.

(** [updateState] without the message to the other tabs: [getData] when no
    value is given, then the emission. *)
Lemma updateState_quiet value w :
  updateState K value quiet w =
  match value_or_getData K value w with
  | (inr v, w1) => observable_next v w1
  | (inl e, w1) => (inl e, w1)
  end.
Proof.
  unfold updateState, bind. rewrite write_eventKey_suppressed by reflexivity.
  destruct (value_or_getData K value w) as [[e|v] w1]; reflexivity.
Qed.

(** What a quiet [updateState()] does, by what [getData] returns. *)
Lemma updateState_quiet_getData w :
  exists w1, getData K w = (fst (getData K w), w1) /\
    (forall k, k <> MIRROR -> stored k w1 = stored k w) /\
    cookies w1 = cookies w /\ token_view K w1 = token_view K w /\
    updateState K None quiet w =
    match fst (getData K w) with
    | inr v =>
        (inr tt, set_delivered (fun d => (d ++ map (fun o => (o, v)) (observers w))%list) w1)
    | inl e => (inl e, w1)
    end /\
    observers w1 = observers w /\ delivered w1 = delivered w /\
    store_created w1 = store_created w /\ next_observer w1 = next_observer w /\
    (localStorage w = None -> localStorage w1 = None).
Proof.
  destruct (getData_session K w)
    as (w1 & Hg & Hc & Ht & Ho & Hd & Hsc & Hn & _ & Hl & Hst).
  exists w1. rewrite Hg. cbn [fst].
  split; [reflexivity|]. do 3 (split; [assumption|]).
  split; [|repeat split; assumption].
  rewrite updateState_quiet. cbn [value_or_getData]. rewrite Hg.
  destruct (session_of (token_view K w)) as [e|v]; [reflexivity|].
  unfold observable_next. now rewrite Ho.
Qed.

(** X4: the listener of storage events never writes the broadcast key, so
    an event cannot cause another; and an event for any other key changes
    nothing at all. *)
Theorem onStorageEvent_no_rebroadcast (w w2 : World) (key other : string) :
  eventKey K <> MIRROR ->
  other <> eventKey K ->
  stored (eventKey K) (snd (onStorageEvent K key w)) = stored (eventKey K) w /\
  onStorageEvent K other w2 = (inr tt, w2).
Proof.
  intros Hk Ho. split.
  - unfold onStorageEvent. destruct (String.eqb key (eventKey K)); [|reflexivity].
    destruct (updateState_quiet_getData w) as (w1 & _ & Hst & _ & _ & -> & _).
    destruct (fst (getData K w)); cbn [snd]; now apply Hst.
  - unfold onStorageEvent. destruct (String.eqb_spec other (eventKey K)); [congruence|].
    reflexivity.
Qed.

(** X5: in a tab that shares its cookies and localStorage with the world
    [shared], an event for the broadcast key hands every subscription of the
    tab exactly one notification, with what [getData] returns in [shared];
    when [getData] throws there, the listener throws the same and notifies
    nobody. *)
Theorem onStorageEvent_emits_shared_session (shared w : World) :
  NoDup (observers w) ->
  cookies w = cookies shared -> localStorage w = localStorage shared ->
  match fst (getData K shared) with
  | inr v =>
      exists w', onStorageEvent K (eventKey K) w = (inr tt, w') /\
                 delivered_since w w' = map (fun o => (o, v)) (observers w) /\
                 forall o, o ∈ observers w -> received o (delivered_since w w') = [v]
  | inl e =>
      exists w', onStorageEvent K (eventKey K) w = (inl e, w') /\
                 delivered_since w w' = []
  end.
Proof.
  intros Hnd Hc Hs. rewrite <- (getData_shared shared w Hc Hs).
  unfold onStorageEvent. rewrite String.eqb_refl.
  destruct (updateState_quiet_getData w) as (w1 & _ & _ & _ & _ & -> & _ & Hd & _).
  destruct (fst (getData K w)) as [e|v].
  - eexists. split; [reflexivity|]. apply delivered_since_app. now rewrite app_nil_r.
  - eexists. split; [reflexivity|].
    assert (delivered_since w
              (set_delivered (fun d => (d ++ map (fun o => (o, v)) (observers w))%list) w1)
            = map (fun o => (o, v)) (observers w)) as Hsince.
    { apply delivered_since_app. cbn. now rewrite Hd. }
    split; [exact Hsince|]. intros o Ho. rewrite Hsince. now apply received_emission.
Qed.

(** What [clear] does: it returns, neither store holds the token
    afterwards, and the subscriptions have been handed EmptyPublicData. *)
Lemma clear_run w :
  eventKey K <> MIRROR ->
  exists w', clear K w = (inr tt, w') /\
             cookies w' !! COOKIE = None /\
             token_view K w' = None /\
             observers w' = observers w /\
             (delivered w' =
               (delivered w ++ map (fun o => (o, emptyPublicData)) (observers w))%list).
Proof.
  intros Hk.
  destruct (clear_stores K w) as (w1 & Hrun1 & Hc1 & Hm1 & Ho1 & Hd1).
  pose proof (updateState_emitted K (Some emptyPublicData) None w1 Hk) as HU.
  cbn [emitted emptyPublicData] in HU. destruct HU as (w' & Hrun & Hd & Hc & Ht & _).
  assert (observers w' = observers w1) as Ho'.
  { unfold updateState, bind in Hrun.
    destruct (write_eventKey_frame K None w1) as (wa & Hwa & _ & Hoa & _).
    rewrite Hwa in Hrun. cbn in Hrun. injection Hrun as <-. cbn. exact Hoa. }
  exists w'. split; [|split; [|split; [|split]]].
  - unfold clear.
    change (deleteCookie COOKIE ;;;
            (try_catch (localStorage_removeItem MIRROR)
              (fun err => console_error storage_unavailable_line) ;;;
            updateState K (Some emptyPublicData) None))
      with (fun w0 =>
              match deleteCookie COOKIE w0 with
              | (inr _, wa) =>
                  match try_catch (localStorage_removeItem MIRROR)
                          (fun err => console_error storage_unavailable_line) wa with
                  | (inr _, wb) => updateState K (Some emptyPublicData) None wb
                  | (inl e, wb) => (inl e, wb)
                  end
              | (inl e, wa) => (inl e, wa)
              end).
    cbv beta. unfold bind in Hrun1.
    destruct (deleteCookie COOKIE w) as [[e|[]] wa]; [discriminate|].
    destruct (try_catch _ _ wa) as [[e|[]] wb]; [discriminate|].
    injection Hrun1 as ->. exact Hrun.
  - now rewrite Hc.
  - rewrite Ht, (token_view_no_cookie K w1 Hc1). exact Hm1.
  - congruence.
  - now rewrite Hd, Hd1, Ho1.
Qed.

(** After [clear], no token is left in the stores. *)
Lemma clear_leaves_no_token wA :
  eventKey K <> MIRROR ->
  token_view K (snd (clear K wA)) = None.
Proof.
  intros Hk. destruct (clear_run wA Hk) as (w' & -> & _ & Ht & _). exact Ht.
Qed.

(** X6: a logout in one tab reaches the others: when a tab shares its
    cookies and localStorage with the tab that ran [clear], the event for
    the broadcast key hands every subscription of the tab exactly one
    notification, of EmptyPublicData. *)
Theorem logout_reaches_other_tab (wA wB : World) :
  eventKey K <> MIRROR ->
  NoDup (observers wB) ->
  cookies wB = cookies (snd (clear K wA)) ->
  localStorage wB = localStorage (snd (clear K wA)) ->
  exists wB', onStorageEvent K (eventKey K) wB = (inr tt, wB') /\
              forall o, o ∈ observers wB ->
                        received o (delivered_since wB wB') = [emptyPublicData].
Proof.
  intros Hk Hnd Hc Hs.
  assert (fst (getData K wB) = inr emptyPublicData) as Hempty.
  { rewrite getData_result, (token_view_shared _ wB Hc Hs), (clear_leaves_no_token wA Hk).
    reflexivity. }
  unfold onStorageEvent. rewrite String.eqb_refl.
  destruct (updateState_quiet_getData wB) as (w1 & _ & _ & _ & _ & -> & _ & Hd & _).
  rewrite Hempty. eexists. split; [reflexivity|].
  intros o Ho.
  rewrite (delivered_since_app wB _ (map (fun o => (o, emptyPublicData)) (observers wB)))
    by (cbn; now rewrite Hd).
  now apply received_emission.
Qed.

End TabFacts.

(* ===================================================================== *)
(** * Facts: the store and the plugin *)
(* ===================================================================== *)

Section PluginFacts.

Variable K : Constants.
Variable H : HeaderNames.

Local Abbreviation COOKIE := (COOKIE_PUBLIC_DATA_TOKEN K).
Local Abbreviation MIRROR := (LOCALSTORAGE_PUBLIC_DATA_TOKEN K).
Local Abbreviation CSRF := (COOKIE_CSRF_TOKEN K).
Local Abbreviation CSRF_BACKUP := (LOCALSTORAGE_CSRF_TOKEN K).

Lemma encodePublicData_nonempty pd : encodePublicData pd <> EmptyString.
Proof. apply Base64Facts.toBase64_nonempty, JsonFacts.stringify_nonempty. Qed.

(** [updateState()] when the cookie holds the token of the record [pd]
    and localStorage can be used. *)
Lemma updateState_login w pd :
  eventKey K <> MIRROR ->
  cookies w !! COOKIE = Some (encodePublicData pd) ->
  localStorage w <> None ->
  exists w', updateState K None None w = (inr tt, w') /\
             delivered w' =
               (delivered w ++ map (fun o => (o, json_of_PublicData pd)) (observers w))%list /\
             stored MIRROR w' = Some (encodePublicData pd) /\
             timestamp_of (stored (eventKey K) w') = Some (clock w).
Proof.
  intros Hk Hc Hs. destruct (localStorage w) as [items|] eqn:Hl; [|congruence].
  unfold updateState, bind.
  rewrite (write_eventKey_available K None w items) by (reflexivity || exact Hl).
  cbn [value_or_getData]. unfold getData, bind.
  rewrite (getToken_cookie K _ (encodePublicData pd)
             (<[eventKey K := number_text (clock w)]> items));
    [|exact Hc|apply encodePublicData_nonempty|reflexivity].
  assert (truthy_string (Some (encodePublicData pd)) = true) as Ht.
  { cbn [truthy_string].
    destruct (String.eqb_spec (encodePublicData pd) EmptyString) as [E|_];
      [now apply encodePublicData_nonempty in E | reflexivity]. }
  assert (parsePublicDataToken (encodePublicData pd)
          = inr {| publicData := json_of_PublicData pd |}) as Hp
    by apply CodecFacts.parsePublicDataToken_toBase64_stringify.
  rewrite Ht, Hp.
  cbn [ret observable_next publicData]. eexists. split; [reflexivity|].
  split; [|split].
  - reflexivity.
  - unfold stored. cbn. apply lookup_insert_eq.
  - unfold stored. cbn. rewrite lookup_insert_ne by congruence.
    rewrite lookup_insert_eq. apply timestamp_of_number_text.
Qed.

(** X7: a login reaches the subscribers: when the cookie holds the token of
    the record [pd] and localStorage can be used, [updateState()] hands
    every subscription exactly one notification, of [pd], leaves the token
    in the mirror and the time of the clock in the broadcast key. *)
Theorem updateState_after_login (w : World) (pd : PublicData) :
  eventKey K <> MIRROR ->
  NoDup (observers w) ->
  cookies w !! COOKIE = Some (encodePublicData pd) ->
  localStorage w <> None ->
  exists w', updateState K None None w = (inr tt, w') /\
             (forall o, o ∈ observers w ->
                        received o (delivered_since w w') = [json_of_PublicData pd]) /\
             stored MIRROR w' = Some (encodePublicData pd) /\
             timestamp_of (stored (eventKey K) w') = Some (clock w).
Proof.
  intros Hk Hnd Hc Hs.
  destruct (updateState_login w pd Hk Hc Hs) as (w' & Hrun & Hd & Hm & Ht).
  exists w'. split; [exact Hrun|]. split; [|split; assumption].
  intros o Ho. rewrite (delivered_since_app w w' _ Hd). now apply received_emission.
Qed.

(** X8: the store is made once: after a call of [getPublicDataStore] that
    returns, the store exists and another call changes nothing; a call that
    throws, throws what [getData] throws and leaves no store behind. *)
Theorem getPublicDataStore_once (w : World) :
  match getPublicDataStore K w with
  | (inr _, w1) => store_created w1 = true /\ getPublicDataStore K w1 = (inr tt, w1)
  | (inl e, w1) => store_created w1 = false /\ fst (getData K w) = inl e
  end.
Proof.
  unfold getPublicDataStore at 1. destruct (store_created w) eqn:Hsc.
  - split; [exact Hsc|]. unfold getPublicDataStore. now rewrite Hsc.
  - set (w0 := set_observers (fun _ => []) (next_observer w) w).
    unfold construct.
    destruct (updateState_quiet_getData K w0) as (w1 & _ & _ & _ & _ & -> & _ & _ & Hsc1 & _ & _).
    assert (fst (getData K w0) = fst (getData K w)) as Hg
      by (apply getData_shared; reflexivity).
    rewrite Hg. destruct (fst (getData K w)) as [e|v].
    + split; [|reflexivity]. rewrite Hsc1. exact Hsc.
    + split; [reflexivity|]. unfold getPublicDataStore. reflexivity.
Qed.

(** ** The anti-CSRF token *)

(** X9: the backup keeps the anti-CSRF token: after
    [backupAntiCSRFTokenToLocalStorage] has seen a cookie with a value, in
    every world with that localStorage and without the cookie
    [getAntiCSRFToken] returns the value, and changes nothing. *)
Theorem getAntiCSRFToken_after_backup (w w2 : World) (c : string) :
  c <> EmptyString ->
  cookies w !! CSRF = Some c ->
  localStorage w <> None ->
  localStorage w2 = localStorage (snd (backupAntiCSRFTokenToLocalStorage K w)) ->
  cookies w2 !! CSRF = None ->
  fst (backupAntiCSRFTokenToLocalStorage K w) = inr tt /\
  getAntiCSRFToken K w2 = (inr (Some c), w2).
Proof.
  intros Hne Hc Hs Hs2 Hc2. destruct (localStorage w) as [items|] eqn:Hl; [|congruence].
  assert (backupAntiCSRFTokenToLocalStorage K w =
          (inr tt, set_localStorage (<[CSRF_BACKUP := c]> items) w)) as Hb.
  { unfold backupAntiCSRFTokenToLocalStorage, bind, readCookie. rewrite Hc.
    cbn [truthy_string]. destruct (String.eqb_spec c EmptyString); [congruence|].
    cbn [negb]. unfold localStorage_setItem. now rewrite Hl. }
  rewrite Hb in *. split; [reflexivity|]. cbn in Hs2.
  unfold getAntiCSRFToken, bind, readCookie. rewrite Hc2.
  unfold localStorage_getItem. rewrite Hs2. now rewrite lookup_insert_eq.
Qed.

Lemma getAntiCSRFToken_world w :
  snd (getAntiCSRFToken K w) = w.
Proof.
  unfold getAntiCSRFToken, bind, readCookie.
  destruct (cookies w !! CSRF) as [c|]; [destruct (truthy_string (Some c))|];
    try reflexivity; unfold localStorage_getItem; destruct (localStorage w); reflexivity.
Qed.

(** X10: [beforeHttpRequest] on a request: when the read of the anti-CSRF
    token throws, so does it; otherwise the world stays as it is, the rest
    of the request too, and of the headers: Content-Type is
    application/json, the CSRF header is the token when there is one and as
    the request had it when there is none, every other header is as the
    request had it. *)
Theorem beforeHttpRequest_headers {A} (req : Request A) (w : World) :
  HEADER_CSRF H <> "Content-Type" ->
  match fst (getAntiCSRFToken K w) with
  | inl e => beforeHttpRequest K H req w = (inl e, w)
  | inr token =>
      exists headers,
        beforeHttpRequest K H req w =
          (inr {| req_headers := Some headers; req_rest := req_rest req |}, w) /\
        headers !! "Content-Type" = Some "application/json" /\
        headers !! HEADER_CSRF H =
          (if truthy_string token then token
           else default ∅ (req_headers req) !! HEADER_CSRF H) /\
        forall k, k <> "Content-Type" -> k <> HEADER_CSRF H ->
                  headers !! k = default ∅ (req_headers req) !! k
  end.
Proof.
  intros Hh. pose proof (getAntiCSRFToken_world w) as Hw.
  unfold beforeHttpRequest, bind.
  destruct (getAntiCSRFToken K w) as [[e|token] w1]; cbn [fst snd] in *; subst w1;
    [reflexivity|].
  eexists. split; [reflexivity|].
  destruct token as [t|]; [destruct (truthy_string (Some t))|]; repeat split.
  all: try (intros k Hk1 Hk2).
  all: rewrite ?lookup_union, ?lookup_insert_ne, ?lookup_insert_eq, ?lookup_singleton_ne,
         ?lookup_singleton_eq by congruence.
  all: try reflexivity.
  all: try (destruct (default ∅ (req_headers req) !! _); reflexivity).
Qed.

End PluginFacts.

(* ===================================================================== *)
(** * Facts: the plugin's event and its response middleware *)
(* ===================================================================== *)

Section ResponseFacts.

Variable K : Constants.
Variable H : HeaderNames.

Local Abbreviation COOKIE := (COOKIE_PUBLIC_DATA_TOKEN K).
Local Abbreviation MIRROR := (LOCALSTORAGE_PUBLIC_DATA_TOKEN K).
Local Abbreviation CSRF := (COOKIE_CSRF_TOKEN K).
Local Abbreviation CSRF_BACKUP := (LOCALSTORAGE_CSRF_TOKEN K).

Lemma same_session_refl w : same_session K w w.
Proof. repeat split; auto. Qed.

Lemma same_session_trans w w1 w2 :
  same_session K w w1 -> same_session K w1 w2 -> same_session K w w2.
Proof.
  intros (Hc & Ht & Hd & Hk & Hl & Hs) (Hc' & Ht' & Hd' & Hk' & Hl' & Hs').
  split; [congruence|]. split; [congruence|]. split; [congruence|].
  split; [|split].
  - intros k Hne. rewrite Hk', Hk; auto.
  - auto.
  - intros E. destruct (Hs E) as [Ho E1]. destruct (Hs' E1). split; congruence.
Qed.

Lemma getData_run w :
  exists w1, getData K w = (session_of (token_view K w), w1) /\ same_session K w w1.
Proof.
  destruct (getData_session K w) as (w1 & Hg & Hc & Ht & Ho & Hd & Hsc & _ & _ & Hl & Hk).
  exists w1. split; [exact Hg|].
  do 5 (split; [assumption|]). intros E. split; congruence.
Qed.

(** [getPublicDataStore()]: nothing when the store exists; the constructor
    otherwise, which throws what [getData] throws. *)
Lemma getPublicDataStore_run w :
  exists w1,
    getPublicDataStore K w =
      (if store_created w then inr tt
       else match session_of (token_view K w) with
            | inr _ => inr tt
            | inl e => inl e
            end, w1) /\
    same_session K w w1.
Proof.
  unfold getPublicDataStore. destruct (store_created w) eqn:Hsc.
  - exists w. split; [reflexivity|]. apply same_session_refl.
  - set (w0 := set_observers (fun _ => []) (next_observer w) w).
    unfold construct.
    destruct (updateState_quiet_getData K w0)
      as (w1 & _ & Hk & Hc & Ht & -> & Ho & Hd & Hsc1 & _ & Hl).
    rewrite getData_result.
    change (token_view K w0) with (token_view K w) in *.
    destruct (session_of (token_view K w)) as [e|v].
    + exists w1. split; [reflexivity|].
      do 5 (split; [assumption|]). congruence.
    + eexists. split; [reflexivity|].
      repeat split; try assumption; cbn; try congruence.
      rewrite Hd. apply app_nil_r.
Qed.

(** [getPublicDataStore().getData().k] *)
Lemma store_prop_run k w :
  exists w1,
    store_prop K k w =
      (match session_of (token_view K w) with
       | inr s => get_prop k s
       | inl e => inl e
       end, w1) /\
    same_session K w w1.
Proof.
  unfold store_prop, bind.
  destruct (getPublicDataStore_run w) as (w1 & -> & S1).
  destruct (getData_run w1) as (w2 & Hg & S2).
  assert (token_view K w1 = token_view K w) as Ht by apply S1.
  destruct (store_created w).
  - rewrite Hg, Ht. destruct (session_of (token_view K w)) as [e|s].
    + exists w2. split; [reflexivity|]. eapply same_session_trans; eassumption.
    + exists w2. split; [|eapply same_session_trans; eassumption].
      unfold lift. destruct (get_prop k s); reflexivity.
  - destruct (session_of (token_view K w)) as [e|s] eqn:Es.
    + exists w1. split; [reflexivity|assumption].
    + rewrite Hg, Ht, Es. exists w2. split; [|eapply same_session_trans; eassumption].
      unfold lift. destruct (get_prop k s); reflexivity.
Qed.

(** ** The plugin's [onRpcError] *)

(** X11: an authentication error of an RPC logs a logged-in user out: with
    the store made and a session with a truthy userId, [onRpcError] returns
    after the session cookie and the mirror are gone, [getData] returns
    EmptyPublicData, and every subscription has received exactly one
    notification, of EmptyPublicData. *)
Theorem onRpcError_logs_out (w : World) (s : json) (u : option json) :
  eventKey K <> MIRROR ->
  NoDup (observers w) ->
  store_created w = true ->
  fst (getData K w) = inr s ->
  get_prop "userId" s = inr u ->
  truthy u = true ->
  exists w', onRpcError K "AuthenticationError" w = (inr tt, w') /\
             cookies w' !! COOKIE = None /\
             stored MIRROR w' = None /\
             fst (getData K w') = inr emptyPublicData /\
             forall o, o ∈ observers w ->
                       received o (delivered_since w w') = [emptyPublicData].
Proof.
  intros Hk Hnd Hsc Hs Hu Ht. rewrite getData_result in Hs.
  destruct (store_prop_run "userId" w) as (w1 & Hrun & _ & _ & Hd1 & _ & _ & Hst).
  destruct (Hst Hsc) as [Ho1 Hsc1]. rewrite Hs, Hu in Hrun.
  destruct (clear_run K w1 Hk) as (w' & Hclear & Hc & Htv & Ho & Hd).
  exists w'. split; [|split; [exact Hc|split; [|split]]].
  - unfold onRpcError, bind. cbn [String.eqb Ascii.eqb Bool.eqb andb].
    rewrite Hrun, Ht. unfold getPublicDataStore. rewrite Hsc1. exact Hclear.
  - now rewrite <- (token_view_no_cookie K w' Hc).
  - now rewrite getData_result, Htv.
  - intros o Hin.
    rewrite (delivered_since_app w w' (map (fun o => (o, emptyPublicData)) (observers w)))
      by (rewrite Hd; congruence).
    now apply received_emission.
Qed.

(** X12: [onRpcError] leaves everybody else alone: for an error of another
    name it does nothing at all, and for an authentication error while the
    session has no truthy userId it returns with the cookies and the
    session as they were and without a notification. *)
Theorem onRpcError_keeps_session (w w2 : World) (name : string) (s : json) (u : option json) :
  name <> "AuthenticationError" ->
  fst (getData K w) = inr s ->
  get_prop "userId" s = inr u ->
  truthy u = false ->
  onRpcError K name w2 = (inr tt, w2) /\
  exists w', onRpcError K "AuthenticationError" w = (inr tt, w') /\
             cookies w' = cookies w /\
             fst (getData K w') = inr s /\
             delivered w' = delivered w.
Proof.
  intros Hn Hs Hu Ht. split.
  - unfold onRpcError. destruct (String.eqb_spec name "AuthenticationError"); [congruence|].
    reflexivity.
  - rewrite getData_result in Hs.
    destruct (store_prop_run "userId" w) as (w1 & Hrun & Hc & Htv & Hd & _).
    rewrite Hs, Hu in Hrun. exists w1. split; [|split; [exact Hc|split; [|exact Hd]]].
    + unfold onRpcError, bind. cbn [String.eqb Ascii.eqb Bool.eqb andb].
      now rewrite Hrun, Ht.
    + now rewrite getData_result, Htv.
Qed.

(** ** The plugin's [beforeHttpResponse] *)

(** The backup of the anti-CSRF token where localStorage can be used. *)
Lemma backupAntiCSRFToken_available w :
  localStorage w <> None ->
  exists w1, backupAntiCSRFTokenToLocalStorage K w = (inr tt, w1) /\
             cookies w1 = cookies w /\ localStorage w1 <> None /\
             observers w1 = observers w /\ delivered w1 = delivered w /\
             store_created w1 = store_created w /\ clock w1 = clock w /\
             forall k, k <> CSRF_BACKUP -> stored k w1 = stored k w.
Proof.
  intros Hs. destruct (localStorage w) as [items|] eqn:Hl; [|congruence].
  unfold backupAntiCSRFTokenToLocalStorage, bind, readCookie.
  destruct (cookies w !! CSRF) as [c|];
    [destruct (truthy_string (Some c))|];
    try (exists w; rewrite Hl; repeat split; congruence).
  unfold localStorage_setItem. rewrite Hl. eexists. split; [reflexivity|].
  repeat split; try (cbn; congruence).
  intros k Hne. unfold stored. cbn. rewrite Hl. now apply lookup_insert_ne.
Qed.

(** The backup changes nothing but the backup. *)
Lemma backupAntiCSRFToken_frame w :
  let w1 := snd (backupAntiCSRFTokenToLocalStorage K w) in
  cookies w1 = cookies w /\
  observers w1 = observers w /\ delivered w1 = delivered w /\
  store_created w1 = store_created w /\
  forall k, k <> CSRF_BACKUP -> stored k w1 = stored k w.
Proof.
  destruct (localStorage w) as [items|] eqn:Hl.
  - destruct (backupAntiCSRFToken_available w) as (w1 & -> & Hc & _ & Ho & Hd & Hsc & _ & Hk);
      [congruence|]. cbn [snd]. auto.
  - unfold backupAntiCSRFTokenToLocalStorage, bind, readCookie.
    destruct (cookies w !! CSRF) as [c|];
      [destruct (truthy_string (Some c))|]; cbn; try (repeat split; reflexivity).
    unfold localStorage_setItem. rewrite Hl. cbn. repeat split; reflexivity.
Qed.

(** X13: a response with the public-data header brings the session of the
    cookie to the subscribers: with the store made, the cookie holding the
    token of the record [pd] and localStorage usable, every subscription
    receives exactly one notification, of [pd]; the session-created event
    is dispatched when its header is there; and only then comes the
    CSRFTokenMismatchError of a response with the CSRF-error header. *)
Theorem beforeHttpResponse_public_data {A} (res : Response A)
    (headers : gmap string string) (events : list string) (w : World) (pd : PublicData) :
  eventKey K <> MIRROR ->
  NoDup (observers w) ->
  store_created w = true ->
  res_headers res = Some headers ->
  has_header (HEADER_PUBLIC_DATA_TOKEN H) headers = true ->
  cookies w !! COOKIE = Some (encodePublicData pd) ->
  localStorage w <> None ->
  exists w',
    beforeHttpResponse K H res events w =
      (if has_header (HEADER_CSRF_ERROR H) headers
       then inl CSRFTokenMismatchError else inr res,
       (w', if has_header (HEADER_SESSION_CREATED H) headers
            then (events ++ ["blitz:session-created"])%list else events)) /\
    forall o, o ∈ observers w ->
              received o (delivered_since w w') = [json_of_PublicData pd].
Proof.
  intros Hk Hnd Hsc Hh Hpd Hc Hs.
  destruct (backupAntiCSRFToken_available w Hs)
    as (w1 & Hb & Hc1 & Hs1 & Ho1 & Hd1 & Hsc1 & _ & _).
  destruct (updateState_login K w1 pd Hk) as (w' & Hrun & Hd & _); [congruence|exact Hs1|].
  exists w'. split.
  - unfold beforeHttpResponse. rewrite Hh, Hb, Hpd. unfold bind at 1.
    unfold getPublicDataStore. rewrite Hsc1, Hsc. rewrite Hrun.
    destruct (has_header (HEADER_CSRF_ERROR H) headers); reflexivity.
  - intros o Hin.
    rewrite (delivered_since_app w w' (map (fun o => (o, json_of_PublicData pd)) (observers w)))
      by (rewrite Hd; congruence).
    now apply received_emission.
Qed.

(** X14: the unguarded write of the backup stops the response middleware:
    with an anti-CSRF cookie and localStorage not usable, a response with
    headers makes [beforeHttpResponse] throw the storage's exception before
    anything else: no session is handed out, no event is dispatched and no
    CSRFTokenMismatchError is thrown, whatever the headers say. *)
Theorem beforeHttpResponse_storage_unavailable {A} (res : Response A)
    (headers : gmap string string) (events : list string) (w : World) (c : string) :
  cookies w !! CSRF = Some c ->
  c <> EmptyString ->
  localStorage w = None ->
  res_headers res = Some headers ->
  beforeHttpResponse K H res events w = (inl (Thrown StorageUnavailable), (w, events)).
Proof.
  intros Hc Hne Hs Hh. unfold beforeHttpResponse.
  now rewrite Hh, (backupAntiCSRFToken_unavailable K w c Hc Hne Hs).
Qed.

(** X15: without the public-data header a response never reaches the
    session: a response without headers is returned with nothing changed,
    and one with headers leaves the cookies, every item of localStorage but
    the backup of the anti-CSRF token, and the subscriptions as they were,
    and notifies nobody. *)
Theorem beforeHttpResponse_without_public_data {A} (res res0 : Response A)
    (headers : gmap string string) (events : list string) (w : World) :
  res_headers res0 = None ->
  res_headers res = Some headers ->
  has_header (HEADER_PUBLIC_DATA_TOKEN H) headers = false ->
  beforeHttpResponse K H res0 events w = (inr res0, (w, events)) /\
  let w' := fst (snd (beforeHttpResponse K H res events w)) in
  cookies w' = cookies w /\
  observers w' = observers w /\
  delivered w' = delivered w /\
  forall k, k <> CSRF_BACKUP -> stored k w' = stored k w.
Proof.
  intros H0 Hh Hpd. split.
  - unfold beforeHttpResponse. now rewrite H0.
  - pose proof (backupAntiCSRFToken_frame w) as F. cbv zeta in F.
    unfold beforeHttpResponse. rewrite Hh, Hpd.
    destruct (backupAntiCSRFTokenToLocalStorage K w) as [[e|[]] w1]; cbn [snd fst] in *.
    + destruct F as (? & ? & ? & _ & ?). auto.
    + cbn [ret]. destruct (has_header (HEADER_CSRF_ERROR H) headers);
        cbn [snd fst]; destruct F as (? & ? & ? & _ & ?); auto.
Qed.

End ResponseFacts.

(* ===================================================================== *)
(** * Facts: the hooks of the gate *)
(* ===================================================================== *)

Section HookFacts.

Variable K : Constants.

Local Abbreviation COOKIE := (COOKIE_PUBLIC_DATA_TOKEN K).
Local Abbreviation MIRROR := (LOCALSTORAGE_PUBLIC_DATA_TOKEN K).

(** X16: [authorizeRole] says yes exactly when the current role is a string
    that is not empty and is the role asked for, or one of the roles asked
    for; so a missing, empty or non-string current role is never
    authorized, whatever the rule lists. *)
Theorem authorizeRole_true (role : option RoleRule) (currentRole : option json) :
  authorizeRole role currentRole = true <->
  exists r, currentRole = Some (JString r) /\ r <> EmptyString /\
            match role with
            | Some (RoleName name) => name = r
            | Some (RoleNames names) => r ∈ names
            | None => False
            end.
Proof.
  unfold authorizeRole. split.
  - destruct (truthy_role role) eqn:Hr; cbn [andb]; [|discriminate].
    destruct (truthy currentRole) eqn:Hc; [|discriminate].
    destruct role as [[name|names]|]; [| |discriminate].
    + destruct currentRole as [[| | |s| |]|]; cbn [strict_eq_string]; try discriminate.
      intros E%String.eqb_eq. subst s. exists name. repeat split.
      cbn in Hc. now destruct (String.eqb_spec name EmptyString).
    + intros E. apply existsb_exists in E as (x & Hin & E).
      destruct currentRole as [[| | |s| |]|]; cbn [strict_eq_string] in E; try discriminate.
      apply String.eqb_eq in E. subst x. exists s. repeat split.
      * cbn in Hc. now destruct (String.eqb_spec s EmptyString).
      * now apply list_elem_of_In.
  - intros (r & -> & Hne & Hrole).
    assert (truthy (Some (JString r)) = true) as Ht.
    { cbn. now destruct (String.eqb_spec r EmptyString). }
    rewrite Ht, andb_true_r. destruct role as [[name|names]|]; [| |contradiction].
    + subst name. cbn. destruct (String.eqb_spec r EmptyString); [contradiction|].
      cbn. apply String.eqb_refl.
    + cbn [truthy_role]. apply existsb_exists. exists r.
      split; [now apply list_elem_of_In|]. cbn. apply String.eqb_refl.
Qed.

(** What [getData] can throw is never the authentication error. *)
Lemma session_of_error token e :
  session_of token = inl e -> e <> AuthenticationError.
Proof.
  unfold session_of. destruct token as [t|]; [|discriminate].
  destruct (truthy_string (Some t)); [|discriminate].
  unfold parsePublicDataToken, assert.
  destruct (negb (String.eqb t EmptyString)); [|intros [= <-]; discriminate].
  destruct (Base64.fromBase64 t) as [s|]; [|intros [= <-]; discriminate].
  destruct (JSON_parse s); [discriminate|intros [= <-]; discriminate].
Qed.

Lemma get_prop_error k s e :
  get_prop k s = inl e -> e <> AuthenticationError.
Proof. destruct s; cbn; try discriminate. intros [= <-]. discriminate. Qed.

(** A session with one property read has every property read. *)
Lemma get_prop_defined k k' s u :
  get_prop k s = inr u -> exists r, get_prop k' s = inr r.
Proof. destruct s; cbn; try discriminate; eauto. Qed.

(** What a render of [useAuthorizeIf] does, by the token in the stores. *)
Lemma useAuthorizeIf_run isClient mounted condition role w :
  exists w1,
    useAuthorizeIf K isClient mounted condition role w =
      (if isClient && truthy_bool condition then
         match session_of (token_view K w) with
         | inl e => inl e
         | inr s =>
             match get_prop "userId" s with
             | inl e => inl e
             | inr u =>
                 if negb (truthy u) && mounted then inl AuthenticationError
                 else if truthy_role role && (truthy u && mounted) then
                        match get_prop "role" s with
                        | inl e => inl e
                        | inr r =>
                            if negb (authorizeRole role r)
                            then inl AuthenticationError else inr tt
                        end
                      else inr tt
             end
         end
       else inr tt, w1) /\
    same_session K w w1.
Proof.
  unfold useAuthorizeIf.
  destruct (isClient && truthy_bool condition); cbn [andb].
  2:{ exists w. split; [reflexivity|]. apply same_session_refl. }
  unfold bind at 1. unfold bind at 1.
  destruct (store_prop_run K "userId" w) as (w1 & -> & S1).
  assert (token_view K w1 = token_view K w) as T1 by apply S1.
  destruct (session_of (token_view K w)) as [e|s] eqn:Es; [eauto|].
  destruct (get_prop "userId" s) as [e|u] eqn:Eu; [eauto|].
  destruct (truthy u) eqn:Ht; cbn [negb andb]; [|destruct mounted; cbn [ret throw]].
  2:{ eauto. }
  2:{ destruct (truthy_role role); cbn [andb]; [|eauto].
      unfold bind at 1.
      destruct (store_prop_run K "userId" w1) as (w2 & -> & S2).
      rewrite T1, Es, Eu, Ht. cbn [andb ret]. exists w2. split; [reflexivity|].
      eapply same_session_trans; eassumption. }
  cbn [ret]. destruct (truthy_role role); cbn [andb]; [|eauto].
  unfold bind at 1.
  destruct (store_prop_run K "userId" w1) as (w2 & -> & S2).
  assert (token_view K w2 = token_view K w1) as T2 by apply S2.
  rewrite T1, Es, Eu, Ht. cbn [andb].
  assert (same_session K w w2) as S12 by (eapply same_session_trans; eassumption).
  destruct mounted; cbn [ret]; [|eauto].
  unfold bind.
  destruct (store_prop_run K "role" w2) as (w3 & -> & S3).
  rewrite T2, T1, Es.
  assert (same_session K w w3) as S13 by (eapply same_session_trans; eassumption).
  destruct (get_prop "role" s) as [e|r]; [eauto|].
  destruct (authorizeRole role r); cbn [negb]; eauto.
Qed.

(** X17: where [useAuthorizeIf] keeps quiet: on the server or with a
    falsy condition it does nothing at all; and in a component that has not
    mounted it never throws the authentication error and notifies nobody. *)
Theorem useAuthorizeIf_quiet (isClient : bool) (condition : option bool)
    (isClient' mounted : bool) (condition' : option bool) (role : option RoleRule)
    (w : World) :
  isClient && truthy_bool condition = false ->
  useAuthorizeIf K isClient mounted condition role w = (inr tt, w) /\
  fst (useAuthorizeIf K isClient' false condition' role w) <> inl AuthenticationError /\
  delivered (snd (useAuthorizeIf K isClient' false condition' role w)) = delivered w.
Proof.
  intros Hq. split; [|split].
  - unfold useAuthorizeIf. rewrite Hq. reflexivity.
  - destruct (useAuthorizeIf_run isClient' false condition' role w) as (w1 & -> & _).
    cbn [fst]. destruct (isClient' && truthy_bool condition'); [|discriminate].
    destruct (session_of (token_view K w)) as [e|s] eqn:Es.
    { intros [= ->]. now apply session_of_error in Es. }
    destruct (get_prop "userId" s) as [e|u] eqn:Eu.
    { intros [= ->]. now apply get_prop_error in Eu. }
    rewrite !andb_false_r. discriminate.
  - destruct (useAuthorizeIf_run isClient' false condition' role w) as (w1 & -> & S).
    apply S.
Qed.

(** X18: what [useAuthorizeIf] decides in a mounted component on the client
    when the condition holds: it returns when the session has a truthy
    userId and the role rule, if there is one, authorizes the session's
    role; otherwise it throws the authentication error. Either way the
    cookies stay and nobody is notified. *)
Theorem useAuthorizeIf_decides (role : option RoleRule) (w : World)
    (s : json) (u r : option json) :
  fst (getData K w) = inr s ->
  get_prop "userId" s = inr u ->
  get_prop "role" s = inr r ->
  exists w',
    useAuthorizeIf K true true (Some true) role w =
      (if truthy u && (negb (truthy_role role) || authorizeRole role r)
       then inr tt else inl AuthenticationError, w') /\
    cookies w' = cookies w /\ delivered w' = delivered w.
Proof.
  intros Hs Hu Hr. rewrite getData_result in Hs.
  destruct (useAuthorizeIf_run true true (Some true) role w) as (w1 & Hrun & Hc & _ & Hd & _).
  exists w1. split; [|split; assumption].
  rewrite Hrun, Hs, Hu, Hr. cbn [andb truthy_bool].
  destruct (truthy u), (truthy_role role), (authorizeRole role r); reflexivity.
Qed.

(** X19: [useRedirectAuthenticated] does nothing on the server; on the
    client it throws the redirect to [to] exactly when the session has a
    truthy userId and the component has mounted, and otherwise returns. *)
Theorem useRedirectAuthenticated_decides (mounted : bool) (to : string) (w w2 : World)
    (s : json) (u : option json) :
  fst (getData K w) = inr s ->
  get_prop "userId" s = inr u ->
  useRedirectAuthenticated K false mounted to w2 = (inr tt, w2) /\
  fst (useRedirectAuthenticated K true mounted to w) =
    if truthy u && mounted then inl (RedirectError to) else inr tt.
Proof.
  intros Hs Hu. rewrite getData_result in Hs. split; [reflexivity|].
  unfold useRedirectAuthenticated, bind.
  destruct (store_prop_run K "userId" w) as (w1 & -> & _). rewrite Hs, Hu.
  destruct (truthy u && mounted); reflexivity.
Qed.

End HookFacts.

(* ===================================================================== *)
(** * Facts: the page wrapper *)
(* ===================================================================== *)

Section AuthRootFacts.

Variable K : Constants.
Variable formatWithValidation : string -> string.
Variable url_with_next : string -> option string.

Local Abbreviation url_of := (url_text formatWithValidation).
Local Abbreviation redirects := (AuthRoot_redirects K formatWithValidation url_with_next).
Local Abbreviation root := (AuthRoot K formatWithValidation url_with_next).

Local Abbreviation redirect_to := (redirect_with_next formatWithValidation url_with_next).

(** What the redirect with [next] comes to. *)
Lemma redirect_with_next_run redirectTo guard w :
  redirect_to redirectTo guard w =
    (match url_with_next (url_of redirectTo) with
     | Some url => if guard then inl (RedirectError url) else inr tt
     | None => inl TypeError
     end, w).
Proof.
  unfold redirect_with_next. destruct (url_with_next (url_of redirectTo)); [|reflexivity].
  destruct guard; reflexivity.
Qed.

(** The redirects of [AuthRoot], by the session in the stores. *)
Lemma AuthRoot_redirects_run mounted rules w s u r :
  session_of (token_view K w) = inr s ->
  get_prop "userId" s = inr u ->
  get_prop "role" s = inr r ->
  exists w1,
    redirects mounted rules w =
      (let role_redirect :=
         match authenticate_redirectTo (authenticate rules) with
         | Some redirectTo =>
             if truthy_role (authorize_role (authenticate rules)) &&
                negb (authorizeRole (authorize_role (authenticate rules)) r)
             then match url_with_next (url_of redirectTo) with
                  | Some url => inl (RedirectError url)
                  | None => inl TypeError
                  end
             else inr tt
         | None => inr tt
         end in
       if truthy u then
         match resolve_redirectAuthenticatedTo (redirectAuthenticatedTo rules) s with
         | Some target =>
             if truthy_url target && mounted
             then inl (RedirectError (url_of target))
             else role_redirect
         | None => role_redirect
         end
       else
         match authenticate_redirectTo (authenticate rules) with
         | Some redirectTo =>
             match url_with_next (url_of redirectTo) with
             | Some url => if mounted then inl (RedirectError url) else inr tt
             | None => inl TypeError
             end
         | None => inr tt
         end, w1) /\
    same_session K w w1.
Proof.
  intros Hs Hu Hr. unfold AuthRoot_redirects. unfold bind at 1.
  destruct (getPublicDataStore_run K w) as (w1 & -> & S1).
  assert (token_view K w1 = token_view K w) as T1 by apply S1.
  rewrite Hs. replace (if store_created w then inr tt else inr tt) with (@inr exn unit tt)
    by now destruct (store_created w).
  unfold bind at 1. destruct (getData_run K w1) as (w2 & -> & S2).
  rewrite T1, Hs.
  assert (same_session K w w2) as S by (eapply same_session_trans; eassumption).
  exists w2. split; [|exact S]. cbv zeta.
  unfold bind at 1. rewrite Hu. cbn [lift ret].
  destruct (truthy u).
  - unfold bind at 1.
    assert ((match authenticate_redirectTo (authenticate rules) with
             | Some redirectTo =>
                 if truthy_role (authorize_role (authenticate rules)) then
                   currentRole <- lift (get_prop "role" s) ;;
                   (if negb (authorizeRole (authorize_role (authenticate rules)) currentRole)
                    then redirect_to redirectTo true
                    else ret tt)
                 else ret tt
             | None => ret tt
             end) w2 =
            (match authenticate_redirectTo (authenticate rules) with
             | Some redirectTo =>
                 if truthy_role (authorize_role (authenticate rules)) &&
                    negb (authorizeRole (authorize_role (authenticate rules)) r)
                 then match url_with_next (url_of redirectTo) with
                      | Some url => inl (RedirectError url)
                      | None => inl TypeError
                      end
                 else inr tt
             | None => inr tt
             end, w2)) as Hrole.
    { destruct (authenticate_redirectTo (authenticate rules)); [|reflexivity].
      destruct (truthy_role (authorize_role (authenticate rules))); [|reflexivity].
      unfold bind. rewrite Hr. cbn [lift ret andb].
      destruct (authorizeRole _ r); cbn [negb]; [reflexivity|].
      now rewrite redirect_with_next_run. }
    destruct (resolve_redirectAuthenticatedTo (redirectAuthenticatedTo rules) s) as [target|].
    + destruct (truthy_url target && mounted); [reflexivity|]. cbn [ret]. exact Hrole.
    + cbn [ret]. exact Hrole.
  - destruct (authenticate_redirectTo (authenticate rules)); [|reflexivity].
    now rewrite redirect_with_next_run.
Qed.

(** A render of [AuthRoot] is the gate, then the redirects, then the page;
    what the gate and the redirects do depends on the session only. *)
Lemma AuthRoot_run isClient isServer hasWindow suspenseEnabled mounted Page props state
    w s u r :
  fst (getData K w) = inr s ->
  get_prop "userId" s = inr u ->
  get_prop "role" s = inr r ->
  let rules := getAuthValues (Some Page) props in
  fst (root isClient isServer hasWindow suspenseEnabled mounted Page props state w) =
    match fst (AuthRoot_authorize K isClient mounted rules w) with
    | inl e => inl (Thrown e)
    | inr _ =>
        if hasWindow then
          match fst (redirects mounted rules w) with
          | inl e => inl (Thrown e)
          | inr _ => inr (El (page_rules Page) props)
          end
        else inr (El (page_rules Page) props)
    end.
Proof.
  intros Hs Hu Hr rules. rewrite getData_result in Hs.
  unfold AuthRoot. fold rules.
  unfold useSession, useSession_initialState.
  cbn [suspense initialPublicData].
  unfold AuthRoot_authorize.
  destruct (useAuthorizeIf_run K isClient mounted
              (Some (authorize_condition (authenticate rules)))
              (authorize_role (authenticate rules)) w) as (w1 & Hrun & S1).
  destruct (useAuthorizeIf K isClient mounted _ _ w) as [[e|[]] w1'];
    injection Hrun as _ ->; cbn [fst]; [reflexivity|].
  assert (session_of (token_view K w1) = inr s) as Hs1.
  { destruct S1 as (_ & -> & _). exact Hs. }
  destruct hasWindow; [|reflexivity].
  destruct (AuthRoot_redirects_run mounted rules w1 s u r Hs1 Hu Hr) as (w2 & -> & _).
  destruct (AuthRoot_redirects_run mounted rules w s u r Hs Hu Hr) as (w3 & -> & _).
  cbn [fst]. cbv zeta.
  destruct (truthy u);
    repeat match goal with
           | |- context [match ?x with _ => _ end] =>
               match x with
               | context [match _ with _ => _ end] => fail 1
               | _ => destruct x
               end
           end; reflexivity.
Qed.

(** X21: before the component has mounted, a visitor without a session
    gets the page, whatever the page's rules are: neither the
    authentication error nor a redirect is thrown in the first render. The
    one exception is a rule with a [redirectTo] that is no address, in a
    browser: the construction of the URL throws its TypeError even then. *)
Theorem AuthRoot_logged_out_first_render
    (isClient isServer hasWindow suspenseEnabled : bool) (Page : PageComponent)
    (props : option Child) (state : option ClientSession) (w : World)
    (s : json) (u : option json) :
  fst (getData K w) = inr s ->
  get_prop "userId" s = inr u ->
  truthy u = false ->
  fst (root isClient isServer hasWindow suspenseEnabled false Page props state w) =
    match authenticate_redirectTo (authenticate (getAuthValues (Some Page) props)) with
    | Some redirectTo =>
        if hasWindow then
          match url_with_next (url_of redirectTo) with
          | Some _ => inr (El (page_rules Page) props)
          | None => inl (Thrown TypeError)
          end
        else inr (El (page_rules Page) props)
    | None => inr (El (page_rules Page) props)
    end.
Proof.
  intros Hs Hu Ht. destruct (get_prop_defined "userId" "role" s u Hu) as (r & Hr).
  rewrite (AuthRoot_run _ _ _ _ _ _ _ _ w s u r Hs Hu Hr). cbv zeta.
  set (rules := getAuthValues (Some Page) props).
  rewrite getData_result in Hs.
  unfold AuthRoot_authorize.
  destruct (useAuthorizeIf_run K isClient false
              (Some (authorize_condition (authenticate rules)))
              (authorize_role (authenticate rules)) w) as (w1 & -> & _).
  destruct (AuthRoot_redirects_run false rules w s u r Hs Hu Hr) as (w2 & -> & _).
  rewrite Hs, Hu, Ht. cbn [fst negb andb]. rewrite !andb_false_r.
  destruct (isClient && _), hasWindow,
    (authenticate_redirectTo (authenticate rules)) as [redirectTo|];
    try reflexivity;
    destruct (url_with_next (url_of redirectTo)); reflexivity.
Qed.

(** X22: in a mounted component in a browser, a visitor without a session
    on a page whose rule has a [redirectTo] is redirected there, with the
    page's path as [next]; the authentication error is not thrown. *)
Theorem AuthRoot_logged_out_redirect
    (isClient isServer suspenseEnabled : bool) (Page : PageComponent)
    (props : option Child) (state : option ClientSession) (w : World)
    (s : json) (u : option json) (redirectTo : UrlLike) (role : option RoleRule)
    (url : string) :
  fst (getData K w) = inr s ->
  get_prop "userId" s = inr u ->
  truthy u = false ->
  authenticate (getAuthValues (Some Page) props) = Some (AuthObject (Some redirectTo) role) ->
  truthy_url redirectTo = true ->
  url_with_next (url_of redirectTo) = Some url ->
  fst (root isClient isServer true suspenseEnabled true Page props state w) =
    inl (Thrown (RedirectError url)).
Proof.
  intros Hs Hu Ht Ha Hurl Hnext. destruct (get_prop_defined "userId" "role" s u Hu) as (r & Hr).
  rewrite (AuthRoot_run _ _ _ _ _ _ _ _ w s u r Hs Hu Hr). cbv zeta.
  set (rules := getAuthValues (Some Page) props) in *.
  rewrite getData_result in Hs.
  unfold AuthRoot_authorize.
  destruct (useAuthorizeIf_run K isClient true
              (Some (authorize_condition (authenticate rules)))
              (authorize_role (authenticate rules)) w) as (w1 & -> & _).
  destruct (AuthRoot_redirects_run true rules w s u r Hs Hu Hr) as (w2 & -> & _).
  rewrite Ha, Ht. cbn [fst authorize_condition truthy_bool authenticate_redirectTo].
  rewrite Hurl, andb_false_r, Hnext. reflexivity.
Qed.

(** X23: the redirect for a wrong role does not wait for the mount: with a
    session that has a truthy userId and a role that the rule does not
    authorize, on a page whose rule has a [redirectTo] and a role, the
    first render in a browser already throws the redirect. *)
Theorem AuthRoot_role_redirect_before_mount
    (isClient isServer suspenseEnabled : bool) (Page : PageComponent)
    (props : option Child) (state : option ClientSession) (w : World)
    (s : json) (u r : option json) (redirectTo : UrlLike) (role : option RoleRule)
    (url : string) :
  fst (getData K w) = inr s ->
  get_prop "userId" s = inr u ->
  get_prop "role" s = inr r ->
  truthy u = true ->
  authenticate (getAuthValues (Some Page) props) = Some (AuthObject (Some redirectTo) role) ->
  truthy_url redirectTo = true ->
  truthy_role role = true ->
  authorizeRole role r = false ->
  url_with_next (url_of redirectTo) = Some url ->
  fst (root isClient isServer true suspenseEnabled false Page props state w) =
    inl (Thrown (RedirectError url)).
Proof.
  intros Hs Hu Hr Ht Ha Hurl Hrole Hno Hnext.
  rewrite (AuthRoot_run _ _ _ _ _ _ _ _ w s u r Hs Hu Hr). cbv zeta.
  set (rules := getAuthValues (Some Page) props) in *.
  rewrite getData_result in Hs.
  unfold AuthRoot_authorize.
  destruct (useAuthorizeIf_run K isClient false
              (Some (authorize_condition (authenticate rules)))
              (authorize_role (authenticate rules)) w) as (w1 & -> & _).
  destruct (AuthRoot_redirects_run false rules w s u r Hs Hu Hr) as (w2 & -> & _).
  rewrite Ha, Ht. cbn [fst authorize_condition authorize_role truthy_bool authenticate_redirectTo].
  rewrite Hurl, Hrole, Hno, !andb_false_r, Hnext.
  cbn [andb negb fst].
  destruct (resolve_redirectAuthenticatedTo _ s); rewrite ?andb_false_r; reflexivity.
Qed.

(** X24: in a mounted component in a browser, a visitor with a session on a
    page that sends authenticated visitors elsewhere, and asks no
    authorization of the gate, is redirected to that address, without a
    [next]. *)
Theorem AuthRoot_redirect_authenticated
    (isClient isServer suspenseEnabled : bool) (Page : PageComponent)
    (props : option Child) (state : option ClientSession) (w : World)
    (s : json) (u : option json) (target : UrlLike) :
  fst (getData K w) = inr s ->
  get_prop "userId" s = inr u ->
  truthy u = true ->
  authorize_condition (authenticate (getAuthValues (Some Page) props)) = false ->
  resolve_redirectAuthenticatedTo
    (redirectAuthenticatedTo (getAuthValues (Some Page) props)) s = Some target ->
  truthy_url target = true ->
  fst (root isClient isServer true suspenseEnabled true Page props state w) =
    inl (Thrown (RedirectError (url_of target))).
Proof.
  intros Hs Hu Ht Hc Hto Hurl. destruct (get_prop_defined "userId" "role" s u Hu) as (r & Hr).
  rewrite (AuthRoot_run _ _ _ _ _ _ _ _ w s u r Hs Hu Hr). cbv zeta.
  set (rules := getAuthValues (Some Page) props) in *.
  rewrite getData_result in Hs.
  unfold AuthRoot_authorize.
  destruct (useAuthorizeIf_run K isClient true
              (Some (authorize_condition (authenticate rules)))
              (authorize_role (authenticate rules)) w) as (w1 & -> & _).
  destruct (AuthRoot_redirects_run true rules w s u r Hs Hu Hr) as (w2 & -> & _).
  rewrite Hc, Ht, Hto, Hurl. cbn [fst truthy_bool]. rewrite andb_false_r. reflexivity.
Qed.

End AuthRootFacts.

(* ===================================================================== *)
(** * Facts: the session of a component *)
(* ===================================================================== *)

Section SessionFacts.

Variable K : Constants.

Local Abbreviation COOKIE := (COOKIE_PUBLIC_DATA_TOKEN K).
Local Abbreviation MIRROR := (LOCALSTORAGE_PUBLIC_DATA_TOKEN K).

(** [getPublicDataStore] keeps the handles of the subscriptions distinct,
    and after it has returned the store exists. *)
Lemma getPublicDataStore_handles w :
  distinct_handles w ->
  distinct_handles (snd (getPublicDataStore K w)) /\
  (fst (getPublicDataStore K w) = inr tt -> store_created (snd (getPublicDataStore K w)) = true).
Proof.
  intros Hd. unfold getPublicDataStore. destruct (store_created w) eqn:Hsc; [now split|].
  set (w0 := set_observers (fun _ => []) (next_observer w) w).
  unfold construct.
  destruct (updateState_quiet_getData K w0)
    as (w1 & _ & _ & _ & _ & -> & Ho & _ & _ & Hn & _).
  assert (distinct_handles w1) as Hd1.
  { unfold distinct_handles. rewrite Ho. cbn. split; constructor. }
  destruct (fst (getData K w0)) as [e|v]; cbn [fst snd]; split;
    try discriminate; try reflexivity; exact Hd1.
Qed.

Lemma getData_handles w :
  distinct_handles w -> distinct_handles (snd (getData K w)).
Proof.
  intros Hd. destruct (getData_session K w) as (w1 & -> & _ & _ & Ho & _ & _ & Hn & _).
  cbn [snd]. unfold distinct_handles. now rewrite Ho, Hn.
Qed.

(** X25: a mounted component follows a logout: after the effect of
    [useSession] has run in a world with a readable session, the component
    holds that session, not loading; and when [clear] runs afterwards, the
    notification leaves it with EmptyPublicData, not loading. *)
Theorem useSession_follows_logout (w : World) (s : json) :
  eventKey K <> MIRROR ->
  distinct_handles w ->
  fst (getData K w) = inr s ->
  exists subscription w1 w2,
    useSession_effect K w = (inr (session_state s, subscription), w1) /\
    clear K w1 = (inr tt, w2) /\
    session_after (session_state s) subscription (delivered_since w1 w2) =
      session_state emptyPublicData.
Proof.
  intros Hk Hd Hs. rewrite getData_result in Hs.
  unfold useSession_effect. unfold bind at 1.
  destruct (getPublicDataStore_handles w Hd) as [Hd1 Hsc1].
  destruct (getPublicDataStore_run K w) as (w1 & Hrun1 & S1).
  rewrite Hrun1 in Hd1, Hsc1 |- *. rewrite Hs in *. cbn [fst snd] in *.
  replace (if store_created w then inr tt else inr tt) with (@inr exn unit tt) in *
    by now destruct (store_created w).
  specialize (Hsc1 eq_refl).
  unfold bind at 1. pose proof (getData_handles w1 Hd1) as Hd2.
  destruct (getData_run K w1) as (w2 & Hrun2 & S2). rewrite Hrun2 in Hd2 |- *.
  assert (session_of (token_view K w1) = inr s) as Hs1.
  { destruct S1 as (_ & -> & _). exact Hs. }
  rewrite Hs1. cbn [snd] in Hd2.
  destruct S2 as (_ & _ & _ & _ & _ & S2). destruct (S2 Hsc1) as [_ Hsc2].
  unfold bind at 1. unfold getPublicDataStore at 1. rewrite Hsc2.
  unfold bind at 1. cbn [observable_subscribe ret].
  set (w3 := set_observers _ _ w2).
  pose proof (observable_subscribe_handles w2 Hd2) as [Hnd3 _].
  change (snd (observable_subscribe w2)) with w3 in Hnd3.
  destruct (clear_run K w3 Hk) as (w4 & Hclear & _ & _ & _ & Hdel).
  exists (next_observer w2), w3, w4. split; [reflexivity|]. split; [exact Hclear|].
  unfold session_after.
  rewrite (delivered_since_app w3 w4 _ Hdel).
  rewrite received_emission; [reflexivity|exact Hnd3|].
  cbn. apply elem_of_app. right. apply list_elem_of_singleton. reflexivity.
Qed.

(** X26: after the cleanup of the effect, the component is out of reach:
    whatever [updateState] is run with, the subscription receives nothing
    and the session of the component stays as it is. *)
Theorem useSession_cleanup_unsubscribes (w : World) (subscription : nat)
    (value : option json) (opts : option UpdateOptions) (session : ClientSession) :
  eventKey K <> MIRROR ->
  let w1 := snd (useSession_cleanup subscription w) in
  session_after session subscription
    (delivered_since w1 (snd (updateState K value opts w1))) = session.
Proof.
  intros Hk w1. unfold session_after.
  enough (received subscription (delivered_since w1 (snd (updateState K value opts w1))) = [])
    as -> by reflexivity.
  pose proof (updateState_emitted K value opts w1 Hk) as HU.
  destruct (emitted K value w1) as [e|v].
  - destruct HU as (w2 & -> & Hd). cbn [snd].
    now rewrite (delivered_since_app w1 w2 [] ltac:(now rewrite app_nil_r)).
  - destruct HU as (w2 & -> & Hd & _). cbn [snd].
    rewrite (delivered_since_app w1 w2 _ Hd).
    pose proof (unsubscribed_receives_nothing subscription v w) as Hn.
    rewrite (delivered_since_app _ _ (map (fun o => (o, v)) (observers w1))) in Hn
      by reflexivity.
    exact Hn.
Qed.

(** X27: [useAuthenticatedSession] in a mounted component on the client,
    with a readable session: it throws the authentication error when the
    session has no truthy userId, and returns the session that the
    component holds otherwise. *)
Theorem useAuthenticatedSession_decides (suspenseEnabled : bool)
    (options : UseSessionOptions) (session : ClientSession) (w : World)
    (s : json) (u : option json) :
  fst (getData K w) = inr s ->
  get_prop "userId" s = inr u ->
  fst (useAuthenticatedSession K true true false suspenseEnabled options (Some session) w) =
    if truthy u then inr session else inl (Thrown AuthenticationError).
Proof.
  intros Hs Hu. rewrite getData_result in Hs.
  unfold useAuthenticatedSession, useAuthorize.
  destruct (useAuthorizeIf_run K true true (Some true) None w) as (w1 & -> & S1).
  rewrite Hs, Hu. cbn [andb truthy_bool truthy_role].
  destruct (truthy u); cbn [negb andb fst]; [|reflexivity].
  assert (session_of (token_view K w1) = inr s) as Hs1.
  { destruct S1 as (_ & -> & _). exact Hs. }
  unfold useSession, useSession_initialState.
  assert (fst ((getPublicDataStore K ;;; getData K) w1) = inr s) as Hg.
  { unfold bind. destruct (getPublicDataStore_run K w1) as (w2 & -> & S2).
    rewrite Hs1. replace (if store_created w1 then inr tt else inr tt) with (@inr exn unit tt)
      by now destruct (store_created w1).
    destruct (getData_run K w2) as (w3 & -> & _).
    destruct S2 as (_ & -> & _). exact Hs1. }
  destruct ((getPublicDataStore K ;;; getData K) w1) as [[e|d] w2]; cbn [fst] in Hg;
    [discriminate|].
  destruct (initialPublicData options) as [d0|];
    [destruct (truthy (Some d0))|];
    destruct (match suspense options with Some b => b | None => suspenseEnabled end);
    reflexivity.
Qed.

End SessionFacts.

(* ===================================================================== *)
(** * The facts of the client at the example data *)
(* ===================================================================== *)

Module ClientScenarios.
Import Examples ClientExamples.

Local Abbreviation COOKIE := (COOKIE_PUBLIC_DATA_TOKEN K0).
Local Abbreviation MIRROR := (LOCALSTORAGE_PUBLIC_DATA_TOKEN K0).
Local Abbreviation CSRF := (COOKIE_CSRF_TOKEN K0).
Local Abbreviation CSRF_BACKUP := (LOCALSTORAGE_CSRF_TOKEN K0).

Lemma NoDup_0 : NoDup [0]%nat.
Proof. apply (bool_decide_unpack _). vm_compute. reflexivity. Qed.

Lemma NoDup_3_4 : NoDup [3; 4]%nat.
Proof. apply (bool_decide_unpack _). vm_compute. reflexivity. Qed.

Lemma user_1_token_nonempty : encodePublicData user_1 <> EmptyString.
Proof. vm_compute. discriminate. Qed.

Lemma getData_without_localStorage_witness :
  localStorage w_logged_in_no_storage = None /\
  getToken K0 w_logged_in_no_storage =
    (inr None,
     set_console (fun l => (l ++ [storage_unavailable_line])%list) w_logged_in_no_storage) /\
  fst (getData K0 w_logged_in_no_storage) = inr emptyPublicData.
Proof.
  split; [reflexivity|].
  apply (getData_without_localStorage K0 w_logged_in_no_storage). reflexivity.
Defined.

Lemma getToken_survives_cookie_loss_witness :
  encodePublicData user_1 <> EmptyString /\
  cookies w_user !! COOKIE = Some (encodePublicData user_1) /\
  localStorage w_user <> None /\
  fst (getToken K0 (snd (deleteCookie COOKIE (snd (getToken K0 w_user)))))
    = inr (Some (encodePublicData user_1)).
Proof.
  assert (cookies w_user !! COOKIE = Some (encodePublicData user_1)) as H1 by reflexivity.
  assert (localStorage w_user <> None) as H2 by discriminate.
  split; [exact user_1_token_nonempty|]. do 2 (split; [assumption|]).
  exact (getToken_survives_cookie_loss K0 w_user (encodePublicData user_1)
           user_1_token_nonempty H1 H2).
Defined.

Lemma onStorageEvent_no_rebroadcast_witness :
  eventKey K0 <> MIRROR /\
  "theme" <> eventKey K0 /\
  stored (eventKey K0) (snd (onStorageEvent K0 (eventKey K0) w_other_tab))
    = stored (eventKey K0) w_other_tab /\
  onStorageEvent K0 "theme" w_logged_in = (inr tt, w_logged_in).
Proof.
  assert ("theme" <> eventKey K0) as H1 by discriminate.
  split; [exact Scenarios.keys_differ|]. split; [exact H1|].
  exact (onStorageEvent_no_rebroadcast K0 w_other_tab w_logged_in (eventKey K0) "theme"
           Scenarios.keys_differ H1).
Defined.

Lemma onStorageEvent_emits_shared_session_witness :
  NoDup (observers w_other_tab) /\
  cookies w_other_tab = cookies w_logged_in /\
  localStorage w_other_tab = localStorage w_logged_in /\
  match fst (getData K0 w_logged_in) with
  | inr v =>
      exists w', onStorageEvent K0 (eventKey K0) w_other_tab = (inr tt, w') /\
                 delivered_since w_other_tab w' = map (fun o => (o, v)) (observers w_other_tab) /\
                 forall o, o ∈ observers w_other_tab ->
                           received o (delivered_since w_other_tab w') = [v]
  | inl e =>
      exists w', onStorageEvent K0 (eventKey K0) w_other_tab = (inl e, w') /\
                 delivered_since w_other_tab w' = []
  end.
Proof.
  assert (cookies w_other_tab = cookies w_logged_in) as H1 by reflexivity.
  assert (localStorage w_other_tab = localStorage w_logged_in) as H2 by reflexivity.
  split; [exact NoDup_3_4|]. do 2 (split; [assumption|]).
  exact (onStorageEvent_emits_shared_session K0 w_logged_in w_other_tab NoDup_3_4 H1 H2).
Defined.

Lemma logout_reaches_other_tab_witness :
  eventKey K0 <> MIRROR /\
  NoDup (observers w_same_millisecond) /\
  cookies w_same_millisecond = cookies (snd (clear K0 w_logged_in)) /\
  localStorage w_same_millisecond = localStorage (snd (clear K0 w_logged_in)) /\
  exists wB', onStorageEvent K0 (eventKey K0) w_same_millisecond = (inr tt, wB') /\
              forall o, o ∈ observers w_same_millisecond ->
                        received o (delivered_since w_same_millisecond wB')
                          = [emptyPublicData].
Proof.
  assert (cookies w_same_millisecond = cookies (snd (clear K0 w_logged_in))) as H1
    by (vm_compute; reflexivity).
  assert (localStorage w_same_millisecond = localStorage (snd (clear K0 w_logged_in))) as H2
    by (vm_compute; reflexivity).
  split; [exact Scenarios.keys_differ|]. split; [exact NoDup_0|].
  do 2 (split; [assumption|]).
  exact (logout_reaches_other_tab K0 w_logged_in w_same_millisecond
           Scenarios.keys_differ NoDup_0 H1 H2).
Defined.

Lemma updateState_after_login_witness :
  eventKey K0 <> MIRROR /\
  NoDup (observers w_logged_in) /\
  cookies w_logged_in !! COOKIE = Some (encodePublicData user_1) /\
  localStorage w_logged_in <> None /\
  exists w', updateState K0 None None w_logged_in = (inr tt, w') /\
             (forall o, o ∈ observers w_logged_in ->
                        received o (delivered_since w_logged_in w')
                          = [json_of_PublicData user_1]) /\
             stored MIRROR w' = Some (encodePublicData user_1) /\
             timestamp_of (stored (eventKey K0) w') = Some (clock w_logged_in).
Proof.
  assert (cookies w_logged_in !! COOKIE = Some (encodePublicData user_1)) as H1
    by reflexivity.
  assert (localStorage w_logged_in <> None) as H2 by discriminate.
  split; [exact Scenarios.keys_differ|]. split; [exact Scenarios.NoDup_0_1|].
  do 2 (split; [assumption|]).
  exact (updateState_after_login K0 w_logged_in user_1
           Scenarios.keys_differ Scenarios.NoDup_0_1 H1 H2).
Defined.

Lemma getAntiCSRFToken_after_backup_witness :
  "tok" <> EmptyString /\
  cookies w_csrf !! CSRF = Some "tok" /\
  localStorage w_csrf <> None /\
  localStorage w_csrf_backup
    = localStorage (snd (backupAntiCSRFTokenToLocalStorage K0 w_csrf)) /\
  cookies w_csrf_backup !! CSRF = None /\
  fst (backupAntiCSRFTokenToLocalStorage K0 w_csrf) = inr tt /\
  getAntiCSRFToken K0 w_csrf_backup = (inr (Some "tok"), w_csrf_backup).
Proof.
  assert ("tok" <> EmptyString) as H1 by discriminate.
  assert (cookies w_csrf !! CSRF = Some "tok") as H2 by reflexivity.
  assert (localStorage w_csrf <> None) as H3 by discriminate.
  assert (localStorage w_csrf_backup
          = localStorage (snd (backupAntiCSRFTokenToLocalStorage K0 w_csrf))) as H4
    by (vm_compute; reflexivity).
  assert (cookies w_csrf_backup !! CSRF = None) as H5 by reflexivity.
  do 5 (split; [assumption|]).
  exact (getAntiCSRFToken_after_backup K0 w_csrf w_csrf_backup "tok" H1 H2 H3 H4 H5).
Defined.

Lemma beforeHttpRequest_headers_witness :
  HEADER_CSRF H0 <> "Content-Type" /\
  match fst (getAntiCSRFToken K0 w_csrf) with
  | inl e => beforeHttpRequest K0 H0 request_without_headers w_csrf = (inl e, w_csrf)
  | inr token =>
      exists headers,
        beforeHttpRequest K0 H0 request_without_headers w_csrf =
          (inr {| req_headers := Some headers;
                  req_rest := req_rest request_without_headers |}, w_csrf) /\
        headers !! "Content-Type" = Some "application/json" /\
        headers !! HEADER_CSRF H0 =
          (if truthy_string token then token
           else default ∅ (req_headers request_without_headers) !! HEADER_CSRF H0) /\
        forall k, k <> "Content-Type" -> k <> HEADER_CSRF H0 ->
                  headers !! k = default ∅ (req_headers request_without_headers) !! k
  end.
Proof.
  assert (HEADER_CSRF H0 <> "Content-Type") as H1 by discriminate.
  split; [exact H1|].
  exact (beforeHttpRequest_headers K0 H0 request_without_headers w_csrf H1).
Defined.

Lemma onRpcError_logs_out_witness :
  eventKey K0 <> MIRROR /\
  NoDup (observers w_logged_in) /\
  store_created w_logged_in = true /\
  fst (getData K0 w_logged_in) = inr (json_of_PublicData user_1) /\
  get_prop "userId" (json_of_PublicData user_1) = inr (Some (JNumber 1)) /\
  truthy (Some (JNumber 1)) = true /\
  exists w', onRpcError K0 "AuthenticationError" w_logged_in = (inr tt, w') /\
             cookies w' !! COOKIE = None /\
             stored MIRROR w' = None /\
             fst (getData K0 w') = inr emptyPublicData /\
             forall o, o ∈ observers w_logged_in ->
                       received o (delivered_since w_logged_in w') = [emptyPublicData].
Proof.
  assert (store_created w_logged_in = true) as H1 by reflexivity.
  assert (fst (getData K0 w_logged_in) = inr (json_of_PublicData user_1)) as H2
    by (vm_compute; reflexivity).
  assert (get_prop "userId" (json_of_PublicData user_1) = inr (Some (JNumber 1))) as H3
    by reflexivity.
  assert (truthy (Some (JNumber 1)) = true) as H4 by reflexivity.
  split; [exact Scenarios.keys_differ|]. split; [exact Scenarios.NoDup_0_1|].
  do 4 (split; [assumption|]).
  exact (onRpcError_logs_out K0 w_logged_in (json_of_PublicData user_1) (Some (JNumber 1))
           Scenarios.keys_differ Scenarios.NoDup_0_1 H1 H2 H3 H4).
Defined.

Lemma onRpcError_keeps_session_witness :
  "NotFoundError" <> "AuthenticationError" /\
  fst (getData K0 w_no_token) = inr emptyPublicData /\
  get_prop "userId" emptyPublicData = inr (Some JNull) /\
  truthy (Some JNull) = false /\
  onRpcError K0 "NotFoundError" w_logged_in = (inr tt, w_logged_in) /\
  exists w', onRpcError K0 "AuthenticationError" w_no_token = (inr tt, w') /\
             cookies w' = cookies w_no_token /\
             fst (getData K0 w') = inr emptyPublicData /\
             delivered w' = delivered w_no_token.
Proof.
  assert ("NotFoundError" <> "AuthenticationError") as H1 by discriminate.
  assert (fst (getData K0 w_no_token) = inr emptyPublicData) as H2 by reflexivity.
  assert (get_prop "userId" emptyPublicData = inr (Some JNull)) as H3 by reflexivity.
  assert (truthy (Some JNull) = false) as H4 by reflexivity.
  do 4 (split; [assumption|]).
  exact (onRpcError_keeps_session K0 w_no_token w_logged_in "NotFoundError"
           emptyPublicData (Some JNull) H1 H2 H3 H4).
Defined.

Lemma beforeHttpResponse_public_data_witness :
  eventKey K0 <> MIRROR /\
  NoDup (observers w_logged_in) /\
  store_created w_logged_in = true /\
  res_headers response_login = Some login_headers /\
  has_header (HEADER_PUBLIC_DATA_TOKEN H0) login_headers = true /\
  cookies w_logged_in !! COOKIE = Some (encodePublicData user_1) /\
  localStorage w_logged_in <> None /\
  exists w',
    beforeHttpResponse K0 H0 response_login [] w_logged_in =
      (if has_header (HEADER_CSRF_ERROR H0) login_headers
       then inl CSRFTokenMismatchError else inr response_login,
       (w', if has_header (HEADER_SESSION_CREATED H0) login_headers
            then ([] ++ ["blitz:session-created"])%list else [])) /\
    forall o, o ∈ observers w_logged_in ->
              received o (delivered_since w_logged_in w') = [json_of_PublicData user_1].
Proof.
  assert (store_created w_logged_in = true) as H1 by reflexivity.
  assert (res_headers response_login = Some login_headers) as H2 by reflexivity.
  assert (has_header (HEADER_PUBLIC_DATA_TOKEN H0) login_headers = true) as H3
    by reflexivity.
  assert (cookies w_logged_in !! COOKIE = Some (encodePublicData user_1)) as H4
    by reflexivity.
  assert (localStorage w_logged_in <> None) as H5 by discriminate.
  split; [exact Scenarios.keys_differ|]. split; [exact Scenarios.NoDup_0_1|].
  do 5 (split; [assumption|]).
  exact (beforeHttpResponse_public_data K0 H0 response_login login_headers [] w_logged_in
           user_1 Scenarios.keys_differ Scenarios.NoDup_0_1 H1 H2 H3 H4 H5).
Defined.

Lemma beforeHttpResponse_storage_unavailable_witness :
  cookies w_csrf_no_storage !! CSRF = Some "tok" /\
  "tok" <> EmptyString /\
  localStorage w_csrf_no_storage = None /\
  res_headers response_login = Some login_headers /\
  beforeHttpResponse K0 H0 response_login [] w_csrf_no_storage
    = (inl (Thrown StorageUnavailable), (w_csrf_no_storage, [])).
Proof.
  assert (cookies w_csrf_no_storage !! CSRF = Some "tok") as H1 by reflexivity.
  assert ("tok" <> EmptyString) as H2 by discriminate.
  assert (localStorage w_csrf_no_storage = None) as H3 by reflexivity.
  assert (res_headers response_login = Some login_headers) as H4 by reflexivity.
  do 4 (split; [assumption|]).
  exact (beforeHttpResponse_storage_unavailable K0 H0 response_login login_headers []
           w_csrf_no_storage "tok" H1 H2 H3 H4).
Defined.

Lemma beforeHttpResponse_without_public_data_witness :
  res_headers response_without_headers = None /\
  res_headers response_plain = Some ∅ /\
  has_header (HEADER_PUBLIC_DATA_TOKEN H0) ∅ = false /\
  beforeHttpResponse K0 H0 response_without_headers [] w_logged_in
    = (inr response_without_headers, (w_logged_in, [])) /\
  let w' := fst (snd (beforeHttpResponse K0 H0 response_plain [] w_logged_in)) in
  cookies w' = cookies w_logged_in /\
  observers w' = observers w_logged_in /\
  delivered w' = delivered w_logged_in /\
  forall k, k <> CSRF_BACKUP -> stored k w' = stored k w_logged_in.
Proof.
  assert (res_headers response_without_headers = None) as H1 by reflexivity.
  assert (res_headers response_plain = Some ∅) as H2 by reflexivity.
  assert (has_header (HEADER_PUBLIC_DATA_TOKEN H0) ∅ = false) as H3 by reflexivity.
  do 3 (split; [assumption|]).
  exact (beforeHttpResponse_without_public_data K0 H0 response_plain
           response_without_headers ∅ [] w_logged_in H1 H2 H3).
Defined.

Lemma useAuthorizeIf_quiet_witness :
  false && truthy_bool (Some true) = false /\
  useAuthorizeIf K0 false true (Some true) (Some (RoleName "admin")) w_no_token
    = (inr tt, w_no_token) /\
  fst (useAuthorizeIf K0 true false (Some true) (Some (RoleName "admin")) w_no_token)
    <> inl AuthenticationError /\
  delivered (snd (useAuthorizeIf K0 true false (Some true) (Some (RoleName "admin"))
                    w_no_token))
    = delivered w_no_token.
Proof.
  split; [reflexivity|].
  exact (useAuthorizeIf_quiet K0 false (Some true) true true (Some true)
           (Some (RoleName "admin")) w_no_token eq_refl).
Defined.

Lemma useAuthorizeIf_decides_witness :
  fst (getData K0 w_user) = inr (json_of_PublicData user_1) /\
  get_prop "userId" (json_of_PublicData user_1) = inr (Some (JNumber 1)) /\
  get_prop "role" (json_of_PublicData user_1) = inr (Some (JString "user")) /\
  exists w',
    useAuthorizeIf K0 true true (Some true) (Some (RoleNames ["admin"; "user"])) w_user =
      (if truthy (Some (JNumber 1)) &&
          (negb (truthy_role (Some (RoleNames ["admin"; "user"]))) ||
           authorizeRole (Some (RoleNames ["admin"; "user"])) (Some (JString "user")))
       then inr tt else inl AuthenticationError, w') /\
    cookies w' = cookies w_user /\ delivered w' = delivered w_user.
Proof.
  assert (fst (getData K0 w_user) = inr (json_of_PublicData user_1)) as H1
    by (vm_compute; reflexivity).
  assert (get_prop "userId" (json_of_PublicData user_1) = inr (Some (JNumber 1))) as H2
    by reflexivity.
  assert (get_prop "role" (json_of_PublicData user_1) = inr (Some (JString "user"))) as H3
    by reflexivity.
  do 3 (split; [assumption|]).
  exact (useAuthorizeIf_decides K0 (Some (RoleNames ["admin"; "user"])) w_user
           (json_of_PublicData user_1) (Some (JNumber 1)) (Some (JString "user")) H1 H2 H3).
Defined.

Lemma useRedirectAuthenticated_decides_witness :
  fst (getData K0 w_user) = inr (json_of_PublicData user_1) /\
  get_prop "userId" (json_of_PublicData user_1) = inr (Some (JNumber 1)) /\
  useRedirectAuthenticated K0 false true "/home" w_no_token = (inr tt, w_no_token) /\
  fst (useRedirectAuthenticated K0 true true "/home" w_user) =
    if truthy (Some (JNumber 1)) && true then inl (RedirectError "/home") else inr tt.
Proof.
  assert (fst (getData K0 w_user) = inr (json_of_PublicData user_1)) as H1
    by (vm_compute; reflexivity).
  assert (get_prop "userId" (json_of_PublicData user_1) = inr (Some (JNumber 1))) as H2
    by reflexivity.
  do 2 (split; [assumption|]).
  exact (useRedirectAuthenticated_decides K0 true "/home" w_user w_no_token
           (json_of_PublicData user_1) (Some (JNumber 1)) H1 H2).
Defined.

Lemma AuthRoot_logged_out_first_render_witness :
  fst (getData K0 w_no_token) = inr emptyPublicData /\
  get_prop "userId" emptyPublicData = inr (Some JNull) /\
  truthy (Some JNull) = false /\
  fst (AuthRoot K0 format_pathname with_next_home true false true false false
         (page_of login_or_redirect) None None w_no_token) =
    match authenticate_redirectTo
            (authenticate (getAuthValues (Some (page_of login_or_redirect)) None)) with
    | Some redirectTo =>
        if true then
          match with_next_home (url_text format_pathname redirectTo) with
          | Some _ => inr (El (page_rules (page_of login_or_redirect)) None)
          | None => inl (Thrown TypeError)
          end
        else inr (El (page_rules (page_of login_or_redirect)) None)
    | None => inr (El (page_rules (page_of login_or_redirect)) None)
    end.
Proof.
  assert (fst (getData K0 w_no_token) = inr emptyPublicData) as H1 by reflexivity.
  assert (get_prop "userId" emptyPublicData = inr (Some JNull)) as H2 by reflexivity.
  assert (truthy (Some JNull) = false) as H3 by reflexivity.
  do 3 (split; [assumption|]).
  exact (AuthRoot_logged_out_first_render K0 format_pathname with_next_home
           true false true false (page_of login_or_redirect) None None w_no_token
           emptyPublicData (Some JNull) H1 H2 H3).
Defined.

Lemma AuthRoot_logged_out_redirect_witness :
  fst (getData K0 w_no_token) = inr emptyPublicData /\
  get_prop "userId" emptyPublicData = inr (Some JNull) /\
  truthy (Some JNull) = false /\
  authenticate (getAuthValues (Some (page_of login_or_redirect)) None)
    = Some (AuthObject (Some (UrlString "/login")) None) /\
  truthy_url (UrlString "/login") = true /\
  with_next_home (url_text format_pathname (UrlString "/login"))
    = Some "http://localhost/login?next=%2F" /\
  fst (AuthRoot K0 format_pathname with_next_home true false true false true
         (page_of login_or_redirect) None (Some loading) w_no_token) =
    inl (Thrown (RedirectError "http://localhost/login?next=%2F")).
Proof.
  assert (with_next_home (url_text format_pathname (UrlString "/login"))
          = Some "http://localhost/login?next=%2F") as H6 by reflexivity.
  assert (fst (getData K0 w_no_token) = inr emptyPublicData) as H1 by reflexivity.
  assert (get_prop "userId" emptyPublicData = inr (Some JNull)) as H2 by reflexivity.
  assert (truthy (Some JNull) = false) as H3 by reflexivity.
  assert (authenticate (getAuthValues (Some (page_of login_or_redirect)) None)
          = Some (AuthObject (Some (UrlString "/login")) None)) as H4 by reflexivity.
  assert (truthy_url (UrlString "/login") = true) as H5 by reflexivity.
  do 6 (split; [assumption|]).
  exact (AuthRoot_logged_out_redirect K0 format_pathname with_next_home
           true false false (page_of login_or_redirect) None (Some loading) w_no_token
           emptyPublicData (Some JNull) (UrlString "/login") None
           "http://localhost/login?next=%2F" H1 H2 H3 H4 H5 H6).
Defined.

Lemma AuthRoot_role_redirect_before_mount_witness :
  fst (getData K0 w_user) = inr (json_of_PublicData user_1) /\
  get_prop "userId" (json_of_PublicData user_1) = inr (Some (JNumber 1)) /\
  get_prop "role" (json_of_PublicData user_1) = inr (Some (JString "user")) /\
  truthy (Some (JNumber 1)) = true /\
  authenticate (getAuthValues (Some (page_of admin_or_redirect)) None)
    = Some (AuthObject (Some (UrlString "/login")) (Some (RoleName "admin"))) /\
  truthy_url (UrlString "/login") = true /\
  truthy_role (Some (RoleName "admin")) = true /\
  authorizeRole (Some (RoleName "admin")) (Some (JString "user")) = false /\
  with_next_home (url_text format_pathname (UrlString "/login"))
    = Some "http://localhost/login?next=%2F" /\
  fst (AuthRoot K0 format_pathname with_next_home true false true false false
         (page_of admin_or_redirect) None None w_user) =
    inl (Thrown (RedirectError "http://localhost/login?next=%2F")).
Proof.
  assert (with_next_home (url_text format_pathname (UrlString "/login"))
          = Some "http://localhost/login?next=%2F") as H9 by reflexivity.
  assert (fst (getData K0 w_user) = inr (json_of_PublicData user_1)) as H1
    by (vm_compute; reflexivity).
  assert (get_prop "userId" (json_of_PublicData user_1) = inr (Some (JNumber 1))) as H2
    by reflexivity.
  assert (get_prop "role" (json_of_PublicData user_1) = inr (Some (JString "user"))) as H3
    by reflexivity.
  assert (truthy (Some (JNumber 1)) = true) as H4 by reflexivity.
  assert (authenticate (getAuthValues (Some (page_of admin_or_redirect)) None)
          = Some (AuthObject (Some (UrlString "/login")) (Some (RoleName "admin")))) as H5
    by reflexivity.
  assert (truthy_url (UrlString "/login") = true) as H6 by reflexivity.
  assert (truthy_role (Some (RoleName "admin")) = true) as H7 by reflexivity.
  assert (authorizeRole (Some (RoleName "admin")) (Some (JString "user")) = false) as H8
    by reflexivity.
  do 9 (split; [assumption|]).
  exact (AuthRoot_role_redirect_before_mount K0 format_pathname with_next_home
           true false false (page_of admin_or_redirect) None None w_user
           (json_of_PublicData user_1) (Some (JNumber 1)) (Some (JString "user"))
           (UrlString "/login") (Some (RoleName "admin"))
           "http://localhost/login?next=%2F" H1 H2 H3 H4 H5 H6 H7 H8 H9).
Defined.

Lemma AuthRoot_redirect_authenticated_witness :
  fst (getData K0 w_user) = inr (json_of_PublicData user_1) /\
  get_prop "userId" (json_of_PublicData user_1) = inr (Some (JNumber 1)) /\
  truthy (Some (JNumber 1)) = true /\
  authorize_condition (authenticate (getAuthValues (Some (page_of guests_only)) None))
    = false /\
  resolve_redirectAuthenticatedTo
    (redirectAuthenticatedTo (getAuthValues (Some (page_of guests_only)) None))
    (json_of_PublicData user_1) = Some (UrlString "/home") /\
  truthy_url (UrlString "/home") = true /\
  fst (AuthRoot K0 format_pathname with_next_home true false true false true
         (page_of guests_only) None (Some loading) w_user) =
    inl (Thrown (RedirectError (url_text format_pathname (UrlString "/home")))).
Proof.
  assert (fst (getData K0 w_user) = inr (json_of_PublicData user_1)) as H1
    by (vm_compute; reflexivity).
  assert (get_prop "userId" (json_of_PublicData user_1) = inr (Some (JNumber 1))) as H2
    by reflexivity.
  assert (truthy (Some (JNumber 1)) = true) as H3 by reflexivity.
  assert (authorize_condition (authenticate (getAuthValues (Some (page_of guests_only)) None))
          = false) as H4 by reflexivity.
  assert (resolve_redirectAuthenticatedTo
            (redirectAuthenticatedTo (getAuthValues (Some (page_of guests_only)) None))
            (json_of_PublicData user_1) = Some (UrlString "/home")) as H5 by reflexivity.
  assert (truthy_url (UrlString "/home") = true) as H6 by reflexivity.
  do 6 (split; [assumption|]).
  exact (AuthRoot_redirect_authenticated K0 format_pathname with_next_home
           true false false (page_of guests_only) None (Some loading) w_user
           (json_of_PublicData user_1) (Some (JNumber 1)) (UrlString "/home")
           H1 H2 H3 H4 H5 H6).
Defined.

Lemma distinct_handles_w_user : distinct_handles w_user.
Proof. split; constructor. Qed.

Lemma useSession_follows_logout_witness :
  eventKey K0 <> MIRROR /\
  distinct_handles w_user /\
  fst (getData K0 w_user) = inr (json_of_PublicData user_1) /\
  exists subscription w1 w2,
    useSession_effect K0 w_user
      = (inr (session_state (json_of_PublicData user_1), subscription), w1) /\
    clear K0 w1 = (inr tt, w2) /\
    session_after (session_state (json_of_PublicData user_1)) subscription
      (delivered_since w1 w2) = session_state emptyPublicData.
Proof.
  assert (fst (getData K0 w_user) = inr (json_of_PublicData user_1)) as H1
    by (vm_compute; reflexivity).
  split; [exact Scenarios.keys_differ|]. split; [exact distinct_handles_w_user|].
  split; [exact H1|].
  exact (useSession_follows_logout K0 w_user (json_of_PublicData user_1)
           Scenarios.keys_differ distinct_handles_w_user H1).
Defined.

Lemma useSession_cleanup_unsubscribes_witness :
  eventKey K0 <> MIRROR /\
  let w1 := snd (useSession_cleanup 0 w_logged_in) in
  session_after (session_state (json_of_PublicData user_1)) 0
    (delivered_since w1 (snd (updateState K0 (Some emptyPublicData) None w1)))
  = session_state (json_of_PublicData user_1).
Proof.
  split; [exact Scenarios.keys_differ|].
  exact (useSession_cleanup_unsubscribes K0 w_logged_in 0 (Some emptyPublicData) None
           (session_state (json_of_PublicData user_1)) Scenarios.keys_differ).
Defined.

Lemma useAuthenticatedSession_decides_witness :
  fst (getData K0 w_no_token) = inr emptyPublicData /\
  get_prop "userId" emptyPublicData = inr (Some JNull) /\
  fst (useAuthenticatedSession K0 true true false false
         {| initialPublicData := None; suspense := None |} (Some loading) w_no_token) =
    if truthy (Some JNull) then inr loading else inl (Thrown AuthenticationError).
Proof.
  assert (fst (getData K0 w_no_token) = inr emptyPublicData) as H1 by reflexivity.
  assert (get_prop "userId" emptyPublicData = inr (Some JNull)) as H2 by reflexivity.
  do 2 (split; [assumption|]).
  exact (useAuthenticatedSession_decides K0 false
           {| initialPublicData := None; suspense := None |} loading w_no_token
           emptyPublicData (Some JNull) H1 H2).
Defined.

End ClientScenarios.
